(** * Monte Carlo unit-economics engine: retention curves, parameter sampler,
      cohort LTV accumulator and simulation driver.

    Shallow embedding of [config.py] and [modules/simulation.py].

    Numbers.  Python floats are modelled by exact rationals ([Q]); rounding
    inside the range of a double is not modelled.  Leaving the range is
    modelled where the program can raise or change course because of it:
    [float ** int] and [math.exp] raise [OverflowError] when the result is
    too large, and the products and the quotient of [cpi_paid] and
    [blended_cpi] overflow to infinity or underflow to zero, so that the
    quotient can be infinite or divide by zero.  The special value the
    program itself creates and tests for, [float('inf')], lives in the
    extended type [pyfloat] together with the values IEEE arithmetic derives
    from it ([-inf], [nan]).
    Exceptions are explicit: every function that can raise returns [res].
    [math.exp], [np.exp] and [np.log] are library functions; their values
    are taken abstractly through the class [Libm]. *)

From Stdlib Require Import ZArith QArith Qpower List Bool Lia Lqa Sorted.
Import ListNotations.

Open Scope Z_scope.
Open Scope Q_scope.

(* ------------------------------------------------------------------ *)
(** ** Exceptions and results *)

Inductive exn : Type :=
| ValueError
| ZeroDivisionError
| KeyError
| IndexError
| OverflowError.

(** [OutOfFuel] is not a Python outcome: it marks a [while True] loop that
    was cut by the model's iteration bound. *)
Inductive res (A : Type) : Type :=
| Ok (a : A)
| Raise (e : exn)
| OutOfFuel.

Arguments Ok {A} a.
Arguments Raise {A} e.
Arguments OutOfFuel {A}.

Definition bind {A B : Type} (m : res A) (k : A -> res B) : res B :=
  match m with
  | Ok a => k a
  | Raise e => Raise e
  | OutOfFuel => OutOfFuel
  end.

Declare Scope res_scope.
Delimit Scope res_scope with res.
Notation "x <- m ;; k" := (bind m (fun x => k))
  (at level 61, m at next level, right associativity) : res_scope.
Notation "' pat <- m ;; k" := (bind m (fun x => match x with pat => k end))
  (at level 61, pat pattern, m at next level, right associativity) : res_scope.
Open Scope res_scope.

Definition returns {A : Type} (m : res A) : Prop := exists a, m = Ok a.

(* ------------------------------------------------------------------ *)
(** ** The library functions the program calls *)

Class Libm : Type := {
  exp : Q -> Q;   (* math.exp / np.exp *)
  ln : Q -> Q     (* np.log *)
}.

(* ------------------------------------------------------------------ *)
(** ** Python builtins used by the program *)

Module Py.

Definition lt (a b : Q) : bool := negb (Qle_bool b a).
Definition le (a b : Q) : bool := Qle_bool a b.
Definition eq (a b : Q) : bool := Qeq_bool a b.

(** [max(a, b)]: the first argument unless the second is greater. *)
Definition max (a b : Q) : Q := if lt a b then b else a.
(** [min(a, b)]: the first argument unless the second is smaller. *)
Definition min (a b : Q) : Q := if lt b a then b else a.

(** [a / b] on floats. *)
Definition truediv (a b : Q) : res Q :=
  if eq b 0 then Raise ZeroDivisionError else Ok (a / b).

(** [a / b] on ints (true division). *)
Definition truediv_int (a b : Z) : res Q :=
  if (b =? 0)%Z then Raise ZeroDivisionError
  else Ok (inject_Z a / inject_Z b).

(** The range of a double.  [float_max] is [sys.float_info.max],
    [2^1024 - 2^971]: a result beyond it in magnitude overflows.
    [float_min] is [sys.float_info.min], [2^-1022]: a result below it in
    magnitude is subnormal and loses precision.  [float_tiny] is [2^-1075],
    half the smallest subnormal: a result within it of zero underflows to
    zero. *)
Definition float_max : Q :=
  Eval vm_compute in inject_Z (2 ^ 1024 - 2 ^ 971).
Definition float_min : Q :=
  Eval vm_compute in (1 / inject_Z (2 ^ 1022)).
Definition float_tiny : Q :=
  Eval vm_compute in (1 / inject_Z (2 ^ 1075)).

Definition overflows (x : Q) : bool :=
  (lt float_max x || lt x (- float_max))%bool.
Definition underflows (x : Q) : bool :=
  (le (- float_tiny) x && le x float_tiny)%bool.

(** The largest argument of [math.exp] whose result is a double:
    [log(sys.float_info.max)], to the precision of a double. *)
Definition exp_max_arg : Q := 709.782712893384.

(** [a ** n] for a float base and an int exponent: [0.0] to a negative
    power is a [ZeroDivisionError], a result out of range an
    [OverflowError]. *)
Definition pow (a : Q) (n : Z) : res Q :=
  if ((n <? 0)%Z && eq a 0)%bool then Raise ZeroDivisionError
  else if overflows (a ^ n) then Raise OverflowError
  else Ok (a ^ n).

Section Math.
Context {L : Libm}.

(** [math.exp(x)], which raises [OverflowError] rather than return
    infinity. *)
Definition math_exp (x : Q) : res Q :=
  if lt exp_max_arg x then Raise OverflowError else Ok (exp x).

End Math.

(** [max(l)] and [min(l)] on a list of ints; empty argument is a
    [ValueError]. *)
Definition max_list (l : list Z) : res Z :=
  match l with
  | [] => Raise ValueError
  | x :: t => Ok (fold_left Z.max t x)
  end.

Definition min_list (l : list Z) : res Z :=
  match l with
  | [] => Raise ValueError
  | x :: t => Ok (fold_left Z.min t x)
  end.

(** [sorted(l)] on ints. *)
Fixpoint insert (x : Z) (l : list Z) : list Z :=
  match l with
  | [] => [x]
  | y :: t => if (x <=? y)%Z then x :: l else y :: insert x t
  end.

Definition sorted (l : list Z) : list Z := fold_right insert [] l.

(** [range(n)]. *)
Definition range (n : Z) : list Z := map Z.of_nat (seq 0 (Z.to_nat n)).

(** [sum(l)], which starts from [0]. *)
Definition sum (l : list Q) : Q := fold_left Qplus l 0.

(** A dict with int keys and float values, in insertion order. *)
Definition dict : Type := list (Z * Q).

Definition keys (d : dict) : list Z := map fst d.

Fixpoint get (d : dict) (k : Z) : option Q :=
  match d with
  | [] => None
  | (k', v) :: t => if (k' =? k)%Z then Some v else get t k
  end.

(** [k in d] *)
Definition contains (d : dict) (k : Z) : bool :=
  match get d k with Some _ => true | None => false end.

(** [d[k]] *)
Definition getitem (d : dict) (k : Z) : res Q :=
  match get d k with Some v => Ok v | None => Raise KeyError end.

(** [d[k] = v] *)
Fixpoint set (d : dict) (k : Z) (v : Q) : dict :=
  match d with
  | [] => [(k, v)]
  | (k', v') :: t =>
      if (k' =? k)%Z then (k, v) :: t else (k', v') :: set t k v
  end.

(** [l[-2]] *)
Definition second_to_last (l : list Z) : option Z :=
  nth_error (rev l) 1.

End Py.

(* ------------------------------------------------------------------ *)
(** ** config.py: retention curve *)

Module RetentionMetrics.

Record t : Type := {
  d0 : Q; d1 : Q; d3 : Q; d7 : Q; d14 : Q;
  d30 : Q; d60 : Q; d90 : Q; d180 : Q; d365 : Q
}.

Definition default : t :=
  {| d0 := 1.00; d1 := 0.40; d3 := 0.30; d7 := 0.20; d14 := 0.15;
     d30 := 0.10; d60 := 0.07; d90 := 0.05; d180 := 0.03; d365 := 0.02 |}.

Definition get_curve (self : t) : Py.dict :=
  [ (0, d0 self); (1, d1 self); (3, d3 self); (7, d7 self);
    (14, d14 self); (30, d30 self); (60, d60 self); (90, d90 self);
    (180, d180 self); (365, d365 self) ]%Z.

Section Lookup.
Context {L : Libm}.

(** The body of [get_retention_at_day], after [curve = self.get_curve()]. *)
Definition retention_at_day_of (curve : Py.dict) (day : Z) : res Q :=
  let known_days := Py.sorted (Py.keys curve) in
  if Py.contains curve day then Py.getitem curve day
  else
    m <- Py.max_list known_days ;;
    if (m <? day)%Z then
      m' <- Py.max_list known_days ;;
      Py.getitem curve m'
    else
      (* log-linear interpolation *)
      prev_day <- Py.max_list (filter (fun d => (d <? day)%Z) known_days) ;;
      next_day <- Py.min_list (filter (fun d => (day <? d)%Z) known_days) ;;
      prev_rate <- Py.getitem curve prev_day ;;
      next_rate <- Py.getitem curve next_day ;;
      progress <- Py.truediv_int (day - prev_day) (next_day - prev_day) ;;
      let log_prev := ln (Py.max prev_rate 0.001) in
      let log_next := ln (Py.max next_rate 0.001) in
      Ok (exp (log_prev + progress * (log_next - log_prev))).

Definition get_retention_at_day (self : t) (day : Z) : res Q :=
  retention_at_day_of (get_curve self) day.

End Lookup.

End RetentionMetrics.

(* ------------------------------------------------------------------ *)
(** ** config.py: subscription retention curve *)

Module SubscriptionRetentionCurve.

Record t : Type := {
  cycle_0 : Q; cycle_1 : Q; cycle_2 : Q; cycle_3 : Q; cycle_4 : Q;
  cycle_5 : Q; cycle_6 : Q; cycle_8 : Q; cycle_12 : Q; cycle_24 : Q;
  cycle_52 : Q
}.

Definition default : t :=
  {| cycle_0 := 1.00; cycle_1 := 0.55; cycle_2 := 0.45; cycle_3 := 0.38;
     cycle_4 := 0.32; cycle_5 := 0.28; cycle_6 := 0.25; cycle_8 := 0.21;
     cycle_12 := 0.18; cycle_24 := 0.12; cycle_52 := 0.08 |}.

Definition get_curve (self : t) : Py.dict :=
  [ (0, cycle_0 self); (1, cycle_1 self); (2, cycle_2 self);
    (3, cycle_3 self); (4, cycle_4 self); (5, cycle_5 self);
    (6, cycle_6 self); (8, cycle_8 self); (12, cycle_12 self);
    (24, cycle_24 self); (52, cycle_52 self) ]%Z.

Section Lookup.
Context {L : Libm}.

(** The body of [get_retention_at_cycle], after
    [curve = self.get_curve()]. *)
Definition retention_at_cycle_of (curve : Py.dict) (cycle : Z) : res Q :=
  let known_cycles := Py.sorted (Py.keys curve) in
  if Py.contains curve cycle then Py.getitem curve cycle
  else if (cycle <=? 0)%Z then Ok 1.0
  else
    m <- Py.max_list known_cycles ;;
    if (m <? cycle)%Z then
      (* keep decaying at the last observed rate *)
      last_cycle <- Py.max_list known_cycles ;;
      decay_rate <-
        (if (2 <=? length known_cycles)%nat then
           last_rate <- Py.getitem curve last_cycle ;;
           match Py.second_to_last known_cycles with
           | Some k =>
               before <- Py.getitem curve k ;;
               Py.truediv last_rate before
           | None => Raise IndexError
           end
         else Ok 0.9) ;;
      last_rate <- Py.getitem curve last_cycle ;;
      p <- Py.pow decay_rate (cycle - last_cycle) ;;
      Ok (last_rate * p)
    else
      (* log-linear interpolation *)
      prev_cycle <-
        Py.max_list (filter (fun c => (c <? cycle)%Z) known_cycles) ;;
      next_cycle <-
        Py.min_list (filter (fun c => (cycle <? c)%Z) known_cycles) ;;
      prev_rate <- Py.getitem curve prev_cycle ;;
      next_rate <- Py.getitem curve next_cycle ;;
      progress <-
        Py.truediv_int (cycle - prev_cycle) (next_cycle - prev_cycle) ;;
      let log_prev := ln (Py.max prev_rate 0.001) in
      let log_next := ln (Py.max next_rate 0.001) in
      Ok (exp (log_prev + progress * (log_next - log_prev))).

Definition get_retention_at_cycle (self : t) (cycle : Z) : res Q :=
  retention_at_cycle_of (get_curve self) cycle.

End Lookup.

End SubscriptionRetentionCurve.

(* ------------------------------------------------------------------ *)
(** ** config.py: subscription plans *)

Module SubscriptionPlan.

(** [name] and the deprecated [renewal_rates] dict play no part in any
    computation and are left out. *)
Record t : Type := {
  price : Q;
  duration_days : Z;
  pay_rate : Q;
  has_trial : bool;
  trial_days : Z;
  trial_to_paid_rate : Q;
  sub_retention : SubscriptionRetentionCurve.t
}.

Section Methods.
Context {L : Libm}.

Definition get_renewal_rate (self : t) (cycle : Z) : res Q :=
  if (36500 <=? duration_days self)%Z then Ok 0   (* lifetime *)
  else if (cycle <=? 0)%Z then Ok 1.0
  else
    retention_current <-
      SubscriptionRetentionCurve.get_retention_at_cycle
        (sub_retention self) cycle ;;
    retention_prev <-
      SubscriptionRetentionCurve.get_retention_at_cycle
        (sub_retention self) (cycle - 1) ;;
    if Py.le retention_prev 0 then Ok 0
    else Py.truediv retention_current retention_prev.

End Methods.

End SubscriptionPlan.

Module SubscriptionMetrics.

Record t : Type := {
  exploitation_start_day : Z;
  platform_fee_rate : Q;
  weekly : SubscriptionPlan.t;
  monthly : SubscriptionPlan.t;
  yearly : SubscriptionPlan.t;
  lifetime : SubscriptionPlan.t
}.

Definition get_all_plans (self : t) : list SubscriptionPlan.t :=
  [weekly self; monthly self; yearly self; lifetime self].

Definition default : t :=
  {| exploitation_start_day := 0;
     platform_fee_rate := 0.30;
     weekly :=
       {| SubscriptionPlan.price := 2.99;
          SubscriptionPlan.duration_days := 7;
          SubscriptionPlan.pay_rate := 0.02;
          SubscriptionPlan.has_trial := true;
          SubscriptionPlan.trial_days := 3;
          SubscriptionPlan.trial_to_paid_rate := 0.15;
          SubscriptionPlan.sub_retention :=
            {| SubscriptionRetentionCurve.cycle_0 := 1.00;
               SubscriptionRetentionCurve.cycle_1 := 0.50;
               SubscriptionRetentionCurve.cycle_2 := 0.42;
               SubscriptionRetentionCurve.cycle_3 := 0.36;
               SubscriptionRetentionCurve.cycle_4 := 0.31;
               SubscriptionRetentionCurve.cycle_5 := 0.27;
               SubscriptionRetentionCurve.cycle_6 := 0.24;
               SubscriptionRetentionCurve.cycle_8 := 0.19;
               SubscriptionRetentionCurve.cycle_12 := 0.15;
               SubscriptionRetentionCurve.cycle_24 := 0.08;
               SubscriptionRetentionCurve.cycle_52 := 0.03 |} |};
     monthly :=
       {| SubscriptionPlan.price := 9.99;
          SubscriptionPlan.duration_days := 30;
          SubscriptionPlan.pay_rate := 0.03;
          SubscriptionPlan.has_trial := true;
          SubscriptionPlan.trial_days := 7;
          SubscriptionPlan.trial_to_paid_rate := 0.20;
          SubscriptionPlan.sub_retention :=
            {| SubscriptionRetentionCurve.cycle_0 := 1.00;
               SubscriptionRetentionCurve.cycle_1 := 0.55;
               SubscriptionRetentionCurve.cycle_2 := 0.48;
               SubscriptionRetentionCurve.cycle_3 := 0.42;
               SubscriptionRetentionCurve.cycle_4 := 0.37;
               SubscriptionRetentionCurve.cycle_5 := 0.28;
               SubscriptionRetentionCurve.cycle_6 := 0.30;
               SubscriptionRetentionCurve.cycle_8 := 0.21;
               SubscriptionRetentionCurve.cycle_12 := 0.20;
               SubscriptionRetentionCurve.cycle_24 := 0.12;
               SubscriptionRetentionCurve.cycle_52 := 0.05 |} |};
     yearly :=
       {| SubscriptionPlan.price := 49.99;
          SubscriptionPlan.duration_days := 365;
          SubscriptionPlan.pay_rate := 0.01;
          SubscriptionPlan.has_trial := true;
          SubscriptionPlan.trial_days := 7;
          SubscriptionPlan.trial_to_paid_rate := 0.25;
          SubscriptionPlan.sub_retention :=
            {| SubscriptionRetentionCurve.cycle_0 := 1.00;
               SubscriptionRetentionCurve.cycle_1 := 0.65;
               SubscriptionRetentionCurve.cycle_2 := 0.55;
               SubscriptionRetentionCurve.cycle_3 := 0.48;
               SubscriptionRetentionCurve.cycle_4 := 0.42;
               SubscriptionRetentionCurve.cycle_5 := 0.28;
               SubscriptionRetentionCurve.cycle_6 := 0.35;
               SubscriptionRetentionCurve.cycle_8 := 0.21;
               SubscriptionRetentionCurve.cycle_12 := 0.25;
               SubscriptionRetentionCurve.cycle_24 := 0.18;
               SubscriptionRetentionCurve.cycle_52 := 0.10 |} |};
     lifetime :=
       {| SubscriptionPlan.price := 99.99;
          SubscriptionPlan.duration_days := 36500;
          SubscriptionPlan.pay_rate := 0.005;
          SubscriptionPlan.has_trial := false;
          SubscriptionPlan.trial_days := 0;
          SubscriptionPlan.trial_to_paid_rate := 1.0;
          SubscriptionPlan.sub_retention :=
            SubscriptionRetentionCurve.default |} |}.

End SubscriptionMetrics.

(* ------------------------------------------------------------------ *)
(** ** config.py: the remaining configuration records *)

Module UAMetrics.
Record t : Type := { cpm : Q; ctr : Q; cvr : Q; organic_ratio : Q }.
Definition default : t :=
  {| cpm := 5.0; ctr := 0.02; cvr := 0.25; organic_ratio := 0.30 |}.
End UAMetrics.

Module AdsMetrics.
Record t : Type := {
  ecpm_d0 : Q;
  impressions_per_dau_d0 : Q;
  ecpm_saturation_ratio : Q;
  impressions_saturation_ratio : Q;
  decay_half_life_days : Z
}.
Definition default : t :=
  {| ecpm_d0 := 12.0; impressions_per_dau_d0 := 6.0;
     ecpm_saturation_ratio := 0.50; impressions_saturation_ratio := 0.40;
     decay_half_life_days := 30 |}.

Section Methods.
Context {L : Libm}.

Definition get_ecpm_at_day (self : t) (day : Z) : res Q :=
  if (day <=? 0)%Z then Ok (ecpm_d0 self)
  else
    let ecpm_saturation := ecpm_d0 self * ecpm_saturation_ratio self in
    x <- Py.truediv_int (- day) (decay_half_life_days self) ;;
    decay <- Py.math_exp x ;;
    Ok (ecpm_saturation + (ecpm_d0 self - ecpm_saturation) * decay).

Definition get_impressions_at_day (self : t) (day : Z) : res Q :=
  if (day <=? 0)%Z then Ok (impressions_per_dau_d0 self)
  else
    let imp_saturation :=
      impressions_per_dau_d0 self * impressions_saturation_ratio self in
    x <- Py.truediv_int (- day) (decay_half_life_days self) ;;
    decay <- Py.math_exp x ;;
    Ok (imp_saturation + (impressions_per_dau_d0 self - imp_saturation) * decay).

Definition get_arpdau_at_day (self : t) (day : Z) : res Q :=
  e <- get_ecpm_at_day self day ;;
  i <- get_impressions_at_day self day ;;
  Ok (e * i / 1000).

End Methods.

Definition arpdau_d0 (self : t) : Q :=
  ecpm_d0 self * impressions_per_dau_d0 self / 1000.

End AdsMetrics.

Module SimulationConfig.
Record t : Type := {
  n_simulations : Z;
  simulation_days : Z;
  confidence_level : Q;
  cpm_variation : Q;
  ctr_variation : Q;
  cvr_variation : Q;
  ecpm_variation : Q;
  retention_variation : Q;
  pay_rate_variation : Q;
  sub_ret_variation : Q
}.
Definition default : t :=
  {| n_simulations := 1000; simulation_days := 365;
     confidence_level := 0.90;
     cpm_variation := 0.15; ctr_variation := 0.20; cvr_variation := 0.25;
     ecpm_variation := 0.20; retention_variation := 0.15;
     pay_rate_variation := 0.30; sub_ret_variation := 0.20 |}.
End SimulationConfig.

Module AppConfig.
(** The alert thresholds and the BigQuery settings are not read by the
    simulator and are left out. *)
Record t : Type := {
  ua : UAMetrics.t;
  ads : AdsMetrics.t;
  retention : RetentionMetrics.t;
  subscription : SubscriptionMetrics.t;
  simulation : SimulationConfig.t;
  simulation_days : Z
}.
Definition default : t :=
  {| ua := UAMetrics.default;
     ads := AdsMetrics.default;
     retention := RetentionMetrics.default;
     subscription := SubscriptionMetrics.default;
     simulation := SimulationConfig.default;
     simulation_days := 365 |}.
End AppConfig.

(* ------------------------------------------------------------------ *)
(** ** Floats that may be infinite *)

Inductive pyfloat : Type :=
| Fin (q : Q)
| PInf          (* float('inf') *)
| NInf
| NaN.

Module F.

Definition inf_times (positive : bool) (q : Q) : pyfloat :=
  match q ?= 0 with
  | Gt => if positive then PInf else NInf
  | Lt => if positive then NInf else PInf
  | Eq => NaN
  end.

(** IEEE multiplication: [inf * 0] is [nan]. *)
Definition mul (a b : pyfloat) : pyfloat :=
  match a, b with
  | NaN, _ | _, NaN => NaN
  | Fin x, Fin y => Fin (x * y)
  | PInf, Fin y => inf_times true y
  | NInf, Fin y => inf_times false y
  | Fin x, PInf => inf_times true x
  | Fin x, NInf => inf_times false x
  | PInf, PInf | NInf, NInf => PInf
  | PInf, NInf | NInf, PInf => NInf
  end.

(** [a > 0]; every comparison with [nan] is false. *)
Definition gt0 (a : pyfloat) : bool :=
  match a with
  | Fin q => Py.lt 0 q
  | PInf => true
  | NInf | NaN => false
  end.

(** [a != float('inf')] *)
Definition ne_inf (a : pyfloat) : bool :=
  match a with
  | PInf => false
  | _ => true
  end.

(** [a >= 1.0] *)
Definition ge1 (a : pyfloat) : bool :=
  match a with
  | Fin q => Py.le 1.0 q
  | PInf => true
  | NInf | NaN => false
  end.

(** [x / a] for a finite numerator. *)
Definition rdiv (x : Q) (a : pyfloat) : res pyfloat :=
  match a with
  | Fin q => v <- Py.truediv x q ;; Ok (Fin v)
  | PInf | NInf => Ok (Fin 0)
  | NaN => Ok NaN
  end.

(** A finite exact result brought into the range of a double: overflow to
    an infinity, underflow to zero. *)
Definition range (x : Q) : pyfloat :=
  if Py.lt Py.float_max x then PInf
  else if Py.lt x (- Py.float_max) then NInf
  else if Py.underflows x then Fin 0
  else Fin x.

(** [a * y] for a finite [y], the product brought into range. *)
Definition times (a : pyfloat) (y : Q) : pyfloat :=
  match a with
  | Fin x => range (x * y)
  | _ => mul a (Fin y)
  end.

(** [x / d] for a finite [x], the quotient brought into range: a zero
    divisor raises, an infinite one gives zero. *)
Definition div (x : Q) (d : pyfloat) : res pyfloat :=
  match d with
  | Fin y =>
      if Py.eq y 0 then Raise ZeroDivisionError else Ok (range (x / y))
  | PInf | NInf => Ok (Fin 0)
  | NaN => Ok NaN
  end.

(** [x] is in the range of the normal doubles: not too large, and not so
    small that it would be subnormal or zero. *)
Definition normal (x : Q) : Prop :=
  (Py.float_min <= x /\ x <= Py.float_max)
  \/ (- Py.float_max <= x /\ x <= - Py.float_min).

Definition is_infinite (a : pyfloat) : Prop := a = PInf \/ a = NInf.

Definition finite_positive (a : pyfloat) (q : Q) : Prop :=
  a = Fin q /\ 0 < q.

End F.

(* ------------------------------------------------------------------ *)
(** ** config.py: the cost per install of the configured UA metrics *)

Module UACost.

Definition cpi_paid (self : UAMetrics.t) : res pyfloat :=
  if (Py.eq (UAMetrics.ctr self) 0 || Py.eq (UAMetrics.cvr self) 0)%bool
  then Ok PInf
  else
    F.div (UAMetrics.cpm self)
      (F.times (F.times (Fin 1000) (UAMetrics.ctr self))
         (UAMetrics.cvr self)).

Definition blended_cpi (self : UAMetrics.t) : res pyfloat :=
  c <- cpi_paid self ;;
  Ok (F.times c (1 - UAMetrics.organic_ratio self)).

End UACost.

(* ------------------------------------------------------------------ *)
(** ** simulation.py: one sampled parameter set *)

Module SimulationParams.

Record t : Type := {
  cpm : Q;
  ctr : Q;
  cvr : Q;
  organic_ratio : Q;
  ecpm_d0 : Q;
  impressions_d0 : Q;
  ecpm_saturation_ratio : Q;
  impressions_saturation_ratio : Q;
  decay_half_life : Z;
  retention_mult : Q;
  pay_rate_mult : Q;
  renewal_mult : Q
}.

Definition cpi_paid (self : t) : res pyfloat :=
  if (Py.eq (ctr self) 0 || Py.eq (cvr self) 0)%bool then Ok PInf
  else F.div (cpm self) (F.times (F.times (Fin 1000) (ctr self)) (cvr self)).

Definition blended_cpi (self : t) : res pyfloat :=
  c <- cpi_paid self ;;
  Ok (F.times c (1 - organic_ratio self)).

Section Decay.
Context {L : Libm}.

Definition get_ecpm_at_day (self : t) (day : Z) : res Q :=
  if (day <=? 0)%Z then Ok (ecpm_d0 self)
  else
    let ecpm_sat := ecpm_d0 self * ecpm_saturation_ratio self in
    x <- Py.truediv_int (- day) (decay_half_life self) ;;
    decay <- Py.math_exp x ;;
    Ok (ecpm_sat + (ecpm_d0 self - ecpm_sat) * decay).

Definition get_impressions_at_day (self : t) (day : Z) : res Q :=
  if (day <=? 0)%Z then Ok (impressions_d0 self)
  else
    let imp_sat :=
      impressions_d0 self * impressions_saturation_ratio self in
    x <- Py.truediv_int (- day) (decay_half_life self) ;;
    decay <- Py.math_exp x ;;
    Ok (imp_sat + (impressions_d0 self - imp_sat) * decay).

Definition get_arpdau_at_day (self : t) (day : Z) : res Q :=
  e <- get_ecpm_at_day self day ;;
  i <- get_impressions_at_day self day ;;
  Ok (e * i / 1000).

End Decay.

End SimulationParams.

(* ------------------------------------------------------------------ *)
(** ** The random generator

    [np.random] is a deterministic generator behind a hidden state.  The
    state is modelled by the sequence of standard-normal variates it is yet
    to produce; [normal loc scale] consumes the first one. *)

Definition rng : Type := nat -> Q.

Definition normal (loc scale : Q) (g : rng) : res (Q * rng) :=
  if Py.lt scale 0 then Raise ValueError
  else Ok (loc + scale * g 0%nat, fun n => g (S n)).

(* ------------------------------------------------------------------ *)
(** ** simulation.py: the parameter sampler *)

Module Sampler.

Import AppConfig SimulationConfig.

(** The [while True] rejection loop of [sample_with_variation]; [fuel]
    bounds the number of draws. *)
Fixpoint rejection_loop (fuel : nat) (mean std min_ratio max_ratio : Q)
    (g : rng) : res (Q * rng) :=
  match fuel with
  | O => OutOfFuel
  | S fuel' =>
      '(value, g') <- normal mean std g ;;
      if (Py.le (mean * min_ratio) value
          && Py.le value (mean * max_ratio))%bool
      then Ok (value, g')
      else rejection_loop fuel' mean std min_ratio max_ratio g'
  end.

Definition sample_with_variation (fuel : nat)
    (mean variation min_ratio max_ratio : Q) (g : rng) : res (Q * rng) :=
  if (Py.eq variation 0 || Py.lt variation 0.001)%bool then Ok (mean, g)
  else
    let std := mean * variation in
    rejection_loop fuel mean std min_ratio max_ratio g.

(** [_is_deterministic] *)
Definition _is_deterministic (cfg : AppConfig.t) : bool :=
  let sim := simulation cfg in
  forallb (fun b : bool => b)
    [ Py.lt (cpm_variation sim) 0.001;
      Py.lt (ctr_variation sim) 0.001;
      Py.lt (cvr_variation sim) 0.001;
      Py.lt (ecpm_variation sim) 0.001;
      Py.lt (retention_variation sim) 0.001;
      Py.lt (pay_rate_variation sim) 0.001;
      Py.lt (sub_ret_variation sim) 0.001 ].

Definition _sample_params (cfg : AppConfig.t) (fuel : nat) (g : rng)
    : res (SimulationParams.t * rng) :=
  let sim := simulation cfg in
  let is_deterministic :=
    forallb (fun b : bool => b)
      [ Py.lt (cpm_variation sim) 0.001;
        Py.lt (ctr_variation sim) 0.001;
        Py.lt (cvr_variation sim) 0.001;
        Py.lt (ecpm_variation sim) 0.001;
        Py.lt (retention_variation sim) 0.001;
        Py.lt (pay_rate_variation sim) 0.001;
        Py.lt (sub_ret_variation sim) 0.001 ] in
  if is_deterministic then
    Ok ({| SimulationParams.cpm := UAMetrics.cpm (ua cfg);
           SimulationParams.ctr := UAMetrics.ctr (ua cfg);
           SimulationParams.cvr := UAMetrics.cvr (ua cfg);
           SimulationParams.organic_ratio :=
             UAMetrics.organic_ratio (ua cfg);
           SimulationParams.ecpm_d0 := AdsMetrics.ecpm_d0 (ads cfg);
           SimulationParams.impressions_d0 :=
             AdsMetrics.impressions_per_dau_d0 (ads cfg);
           SimulationParams.ecpm_saturation_ratio :=
             AdsMetrics.ecpm_saturation_ratio (ads cfg);
           SimulationParams.impressions_saturation_ratio :=
             AdsMetrics.impressions_saturation_ratio (ads cfg);
           SimulationParams.decay_half_life :=
             AdsMetrics.decay_half_life_days (ads cfg);
           SimulationParams.retention_mult := 1.0;
           SimulationParams.pay_rate_mult := 1.0;
           SimulationParams.renewal_mult := 1.0 |}, g)
  else
    let avg_variation :=
      (cpm_variation sim + ctr_variation sim + cvr_variation sim) / 3 in
    let organic_variation := Py.min 0.03 (avg_variation * 0.5) in
    '(cpm, g) <-
      sample_with_variation fuel (UAMetrics.cpm (ua cfg))
        (cpm_variation sim) 0.3 2.0 g ;;
    '(ctr, g) <-
      sample_with_variation fuel (UAMetrics.ctr (ua cfg))
        (ctr_variation sim) 0.3 2.0 g ;;
    '(cvr, g) <-
      sample_with_variation fuel (UAMetrics.cvr (ua cfg))
        (cvr_variation sim) 0.3 2.0 g ;;
    '(noise, g) <- normal 0 organic_variation g ;;
    let organic_ratio :=
      Py.min 0.8 (Py.max 0.05 (UAMetrics.organic_ratio (ua cfg) + noise)) in
    '(ecpm_d0, g) <-
      sample_with_variation fuel (AdsMetrics.ecpm_d0 (ads cfg))
        (ecpm_variation sim) 0.3 2.0 g ;;
    '(impressions_d0, g) <-
      sample_with_variation fuel (AdsMetrics.impressions_per_dau_d0 (ads cfg))
        (ecpm_variation sim) 0.3 2.0 g ;;
    '(retention_mult, g) <-
      sample_with_variation fuel 1.0 (retention_variation sim) 0.6 1.5 g ;;
    '(pay_rate_mult, g) <-
      sample_with_variation fuel 1.0 (pay_rate_variation sim) 0.5 2.0 g ;;
    '(renewal_mult, g) <-
      sample_with_variation fuel 1.0 (sub_ret_variation sim) 0.97 1.03 g ;;
    Ok ({| SimulationParams.cpm := cpm;
           SimulationParams.ctr := ctr;
           SimulationParams.cvr := cvr;
           SimulationParams.organic_ratio := organic_ratio;
           SimulationParams.ecpm_d0 := ecpm_d0;
           SimulationParams.impressions_d0 := impressions_d0;
           SimulationParams.ecpm_saturation_ratio :=
             AdsMetrics.ecpm_saturation_ratio (ads cfg);
           SimulationParams.impressions_saturation_ratio :=
             AdsMetrics.impressions_saturation_ratio (ads cfg);
           SimulationParams.decay_half_life :=
             AdsMetrics.decay_half_life_days (ads cfg);
           SimulationParams.retention_mult := retention_mult;
           SimulationParams.pay_rate_mult := pay_rate_mult;
           SimulationParams.renewal_mult := renewal_mult |}, g).

End Sampler.

(* ------------------------------------------------------------------ *)
(** ** simulation.py: the cohort LTV accumulator and the driver *)

(** One row of [daily_breakdown]; only the keys that every row carries in
    both modes are kept. *)
Record entry : Type := {
  day : Z;
  cumulative_iaa : Q;
  cumulative_iap : Q;
  cumulative_total : Q
}.

(** The dict [_calculate_ltv] returns. *)
Module LtvResult.
Record t : Type := {
  ltv_iaa : Q;
  ltv_iap : Q;
  ltv_total : Q;
  blended_cpi : pyfloat;
  cpi_paid : pyfloat;
  daily_breakdown : list entry
}.
End LtvResult.

(** The dict [run] appends to [self.results] for one scenario. *)
Module Scenario.
Record t : Type := {
  blended_cpi : pyfloat;
  cpi_paid : pyfloat;
  ltv_total : Q;
  ltv_iaa : Q;
  ltv_iap : Q;
  roas : pyfloat;
  roas_curve : list (Z * pyfloat);
  organic_ratio : Q;
  ecpm_d0 : Q;
  retention_mult : Q;
  profitable : bool
}.
End Scenario.

Module Simulator.

Import AppConfig.

(** A payment event [(day, amount)]. *)
Definition event : Type := (Z * Q)%type.

Definition milestones : list Z :=
  [0; 1; 3; 7; 14; 21; 30; 45; 60; 90; 120; 150; 180; 210; 240; 270; 300;
   330; 365]%Z.

(** [iap_events.sort(key=lambda x: x[0])]: a stable sort by day. *)
Fixpoint insert_event (e : event) (l : list event) : list event :=
  match l with
  | [] => [e]
  | e' :: t =>
      if (fst e <=? fst e')%Z then e :: l else e' :: insert_event e t
  end.

Definition sort_events (l : list event) : list event :=
  fold_right insert_event [] l.

Section Engine.
Context {L : Libm}.

Definition _get_retention_at_day (cfg : AppConfig.t) (day : Z)
    (retention_mult : Q) : res Q :=
  base_rate <-
    RetentionMetrics.get_retention_at_day (retention cfg) day ;;
  let adjusted := base_rate * retention_mult in
  Ok (Py.min 1.0 (Py.max 0.0001 adjusted)).

(** The renewal loop
    [while next_day <= days and cycle <= 52].  The loop test comes
    first, so a [fuel] of 52 is never exhausted when [cycle] starts
    at 1. *)
Fixpoint renewals (fuel : nat) (plan : SubscriptionPlan.t)
    (params : SimulationParams.t) (expected_subscribers : Q) (days : Z)
    (cycle next_day : Z) (current_sub_retention : Q)
    : res (list event) :=
  if ((next_day <=? days)%Z && (cycle <=? 52)%Z)%bool then
    match fuel with
    | O => OutOfFuel
    | S fuel' =>
        rate <- SubscriptionPlan.get_renewal_rate plan cycle ;;
        let step_renewal_rate :=
          rate * SimulationParams.renewal_mult params in
        let current_sub_retention :=
          current_sub_retention * step_renewal_rate in
        let payment :=
          expected_subscribers * current_sub_retention
          * SubscriptionPlan.price plan in
        rest <-
          renewals fuel' plan params expected_subscribers days
            (cycle + 1) (next_day + SubscriptionPlan.duration_days plan)
            current_sub_retention ;;
        Ok ((next_day, payment) :: rest)
    end
  else Ok [].

(** The events one plan appends to [iap_events] (the body of
    [for plan in cfg.subscription.get_all_plans()], which is the same
    text in both modes). *)
Definition plan_events (cfg : AppConfig.t) (params : SimulationParams.t)
    (days : Z) (plan : SubscriptionPlan.t) : res (list event) :=
  let exploitation_day :=
    SubscriptionMetrics.exploitation_start_day (subscription cfg) in
  let effective_pay_rate :=
    SubscriptionPlan.pay_rate plan
    * SimulationParams.pay_rate_mult params in
  let expected_subscribers :=
    if SubscriptionPlan.has_trial plan
    then effective_pay_rate * SubscriptionPlan.trial_to_paid_rate plan
    else effective_pay_rate in
  let first_day :=
    (exploitation_day
     + (if SubscriptionPlan.has_trial plan
        then SubscriptionPlan.trial_days plan else 0))%Z in
  if (first_day <=? days)%Z then
    let current_sub_retention := 1.0 in
    let payment :=
      expected_subscribers * current_sub_retention
      * SubscriptionPlan.price plan in
    if (SubscriptionPlan.duration_days plan <? 36500)%Z then
      rest <-
        renewals 52 plan params expected_subscribers days 1
          (first_day + SubscriptionPlan.duration_days plan)
          current_sub_retention ;;
      Ok ((first_day, payment) :: rest)
    else Ok [(first_day, payment)]
  else Ok [].

Fixpoint all_events (cfg : AppConfig.t) (params : SimulationParams.t)
    (days : Z) (plans : list SubscriptionPlan.t) : res (list event) :=
  match plans with
  | [] => Ok []
  | plan :: rest =>
      es <- plan_events cfg params days plan ;;
      es' <- all_events cfg params days rest ;;
      Ok (es ++ es')
  end.

Definition iap_events (cfg : AppConfig.t) (params : SimulationParams.t)
    (days : Z) : res (list event) :=
  all_events cfg params days
    (SubscriptionMetrics.get_all_plans (subscription cfg)).

(** *** Deterministic mode *)

(** [for day in range(days + 1)] with the milestone recording. *)
Fixpoint iaa_loop (cfg : AppConfig.t) (params : SimulationParams.t)
    (ds : list Z) (cumulative_iaa : Q) (marks : Py.dict)
    : res (Q * Py.dict) :=
  match ds with
  | [] => Ok (cumulative_iaa, marks)
  | day :: ds' =>
      retention <-
        _get_retention_at_day cfg day
          (SimulationParams.retention_mult params) ;;
      arpdau <- SimulationParams.get_arpdau_at_day params day ;;
      let daily_iaa := retention * arpdau in
      let cumulative_iaa := cumulative_iaa + daily_iaa in
      let marks :=
        if Py.contains marks day then Py.set marks day cumulative_iaa
        else marks in
      iaa_loop cfg params ds' cumulative_iaa marks
  end.

(** [while event_idx < len(iap_events) and
          iap_events[event_idx][0] <= milestone] *)
Fixpoint take_due (events : list event) (milestone : Z)
    (cumulative_iap net_revenue_mult : Q) : Q * list event :=
  match events with
  | (d, amount) :: rest =>
      if (d <=? milestone)%Z
      then take_due rest milestone
             (cumulative_iap + amount * net_revenue_mult)
             net_revenue_mult
      else (cumulative_iap, events)
  | [] => (cumulative_iap, [])
  end.

Fixpoint iap_milestones (ms : list Z) (events : list event)
    (cumulative_iap net_revenue_mult : Q) (marks : Py.dict) : Py.dict :=
  match ms with
  | [] => marks
  | milestone :: ms' =>
      let '(cumulative_iap, events) :=
        take_due events milestone cumulative_iap net_revenue_mult in
      iap_milestones ms' events cumulative_iap net_revenue_mult
        (Py.set marks milestone cumulative_iap)
  end.

Fixpoint milestone_breakdown (ms : list Z) (days : Z)
    (marks_iaa marks_iap : Py.dict) : res (list entry) :=
  match ms with
  | [] => Ok []
  | m :: ms' =>
      if (m <=? days)%Z then
        iaa <- Py.getitem marks_iaa m ;;
        iap <- Py.getitem marks_iap m ;;
        rest <- milestone_breakdown ms' days marks_iaa marks_iap ;;
        Ok ({| day := m; cumulative_iaa := iaa; cumulative_iap := iap;
               cumulative_total := iaa + iap |} :: rest)
      else milestone_breakdown ms' days marks_iaa marks_iap
  end.

(** *** Stochastic mode *)

Fixpoint iaa_sum (cfg : AppConfig.t) (params : SimulationParams.t)
    (ds : list Z) (ltv_iaa : Q) : res Q :=
  match ds with
  | [] => Ok ltv_iaa
  | day :: ds' =>
      retention <-
        _get_retention_at_day cfg day
          (SimulationParams.retention_mult params) ;;
      arpdau <- SimulationParams.get_arpdau_at_day params day ;;
      let daily_iaa := retention * arpdau in
      iaa_sum cfg params ds' (ltv_iaa + daily_iaa)
  end.

(** [while event_idx < len(iap_events) and
          iap_events[event_idx][0] == day] *)
Fixpoint take_today (events : list event) (today : Z)
    (daily_iap net_revenue_mult : Q) : Q * list event :=
  match events with
  | (d, amount) :: rest =>
      if (d =? today)%Z
      then take_today rest today (daily_iap + amount * net_revenue_mult)
             net_revenue_mult
      else (daily_iap, events)
  | [] => (daily_iap, [])
  end.

Fixpoint daily_loop (cfg : AppConfig.t) (params : SimulationParams.t)
    (ds : list Z) (events : list event)
    (cumulative_iaa cumulative_iap net_revenue_mult : Q)
    : res (list entry) :=
  match ds with
  | [] => Ok []
  | today :: ds' =>
      retention <-
        _get_retention_at_day cfg today
          (SimulationParams.retention_mult params) ;;
      arpdau <- SimulationParams.get_arpdau_at_day params today ;;
      let daily_iaa := retention * arpdau in
      let cumulative_iaa := cumulative_iaa + daily_iaa in
      let '(daily_iap, events) :=
        take_today events today 0 net_revenue_mult in
      let cumulative_iap := cumulative_iap + daily_iap in
      rest <-
        daily_loop cfg params ds' events cumulative_iaa cumulative_iap
          net_revenue_mult ;;
      Ok ({| day := today; cumulative_iaa := cumulative_iaa;
             cumulative_iap := cumulative_iap;
             cumulative_total := cumulative_iaa + cumulative_iap |}
          :: rest)
  end.

(** *** [_calculate_ltv] *)

Definition _calculate_ltv (cfg : AppConfig.t)
    (params : SimulationParams.t) (days : Z) : res LtvResult.t :=
  let is_deterministic := Sampler._is_deterministic cfg in
  if is_deterministic then
    let cumulative_at_milestone : Py.dict :=
      map (fun m => (m, 0)) milestones in
    '(cumulative_iaa, marks_iaa) <-
      iaa_loop cfg params (Py.range (days + 1)) 0
        cumulative_at_milestone ;;
    let ltv_iaa := cumulative_iaa in
    iap_events <- iap_events cfg params days ;;
    let iap_events := sort_events iap_events in
    let net_revenue_mult :=
      1 - SubscriptionMetrics.platform_fee_rate (subscription cfg) in
    let marks_iap :=
      iap_milestones (Py.sorted milestones) iap_events 0
        net_revenue_mult cumulative_at_milestone in
    let ltv_iap := Py.sum (map snd iap_events) * net_revenue_mult in
    daily_breakdown <-
      milestone_breakdown (Py.sorted milestones) days marks_iaa
        marks_iap ;;
    blended <- SimulationParams.blended_cpi params ;;
    paid <- SimulationParams.cpi_paid params ;;
    Ok {| LtvResult.ltv_iaa := ltv_iaa;
          LtvResult.ltv_iap := ltv_iap;
          LtvResult.ltv_total := ltv_iaa + ltv_iap;
          LtvResult.blended_cpi := blended;
          LtvResult.cpi_paid := paid;
          LtvResult.daily_breakdown := daily_breakdown |}
  else
    ltv_iaa <- iaa_sum cfg params (Py.range (days + 1)) 0 ;;
    iap_events <- iap_events cfg params days ;;
    let ltv_iap := Py.sum (map snd iap_events) in
    let net_revenue_mult :=
      1 - SubscriptionMetrics.platform_fee_rate (subscription cfg) in
    let ltv_iap := ltv_iap * net_revenue_mult in
    let iap_events := sort_events iap_events in
    daily_breakdown <-
      daily_loop cfg params (Py.range (days + 1)) iap_events 0 0
        net_revenue_mult ;;
    blended <- SimulationParams.blended_cpi params ;;
    paid <- SimulationParams.cpi_paid params ;;
    Ok {| LtvResult.ltv_iaa := ltv_iaa;
          LtvResult.ltv_iap := ltv_iap;
          LtvResult.ltv_total := ltv_iaa + ltv_iap;
          LtvResult.blended_cpi := blended;
          LtvResult.cpi_paid := paid;
          LtvResult.daily_breakdown := daily_breakdown |}.

(** *** [run] *)

(** [breakdown_by_day], filled row by row. *)
Definition breakdown_by_day (daily_breakdown : list entry) : Py.dict :=
  fold_left
    (fun d e =>
       if (0 <=? day e)%Z then Py.set d (day e) (cumulative_total e)
       else d)
    daily_breakdown [].

(** The scan [for d in available_days] for the closest day at or before
    the milestone. *)
Fixpoint closest_before (available_days : list Z)
    (milestone closest_day : Z) : Z :=
  match available_days with
  | [] => closest_day
  | d :: rest =>
      if (d <=? milestone)%Z then closest_before rest milestone d
      else closest_day
  end.

Definition cumulative_ltv_at (by_day : Py.dict) (milestone : Z) : res Q :=
  if Py.contains by_day milestone then Py.getitem by_day milestone
  else
    let available_days := Py.sorted (Py.keys by_day) in
    let closest_day := closest_before available_days milestone (-1) in
    if negb (closest_day =? -1)%Z then Py.getitem by_day closest_day
    else Ok 0.

Fixpoint roas_curve_of (ms : list Z) (by_day : Py.dict)
    (blended_cpi : pyfloat) : res (list (Z * pyfloat)) :=
  match ms with
  | [] => Ok []
  | milestone :: ms' =>
      cumulative_ltv <- cumulative_ltv_at by_day milestone ;;
      r <- F.rdiv cumulative_ltv blended_cpi ;;
      rest <- roas_curve_of ms' by_day blended_cpi ;;
      Ok ((milestone, r) :: rest)
  end.

(** One iteration of the loop of [run], from the sampled parameters to
    the appended dict. *)
Definition scenario_of (params : SimulationParams.t)
    (ltv_result : LtvResult.t) : res Scenario.t :=
  let blended_cpi := LtvResult.blended_cpi ltv_result in
  let ltv_total := LtvResult.ltv_total ltv_result in
  roas <-
    (if (F.gt0 blended_cpi && F.ne_inf blended_cpi)%bool
     then F.rdiv ltv_total blended_cpi
     else Ok (Fin 0)) ;;
  roas_curve <-
    (if (F.gt0 blended_cpi && F.ne_inf blended_cpi)%bool
     then
       roas_curve_of milestones
         (breakdown_by_day (LtvResult.daily_breakdown ltv_result))
         blended_cpi
     else Ok (map (fun m => (m, Fin 0)) milestones)) ;;
  Ok {| Scenario.blended_cpi := blended_cpi;
        Scenario.cpi_paid := LtvResult.cpi_paid ltv_result;
        Scenario.ltv_total := ltv_total;
        Scenario.ltv_iaa := LtvResult.ltv_iaa ltv_result;
        Scenario.ltv_iap := LtvResult.ltv_iap ltv_result;
        Scenario.roas := roas;
        Scenario.roas_curve := roas_curve;
        Scenario.organic_ratio := SimulationParams.organic_ratio params;
        Scenario.ecpm_d0 := SimulationParams.ecpm_d0 params;
        Scenario.retention_mult := SimulationParams.retention_mult params;
        Scenario.profitable := F.ge1 roas |}.

(** [for i in range(self.n_simulations)], threading the generator and
    [self.results]. *)
Fixpoint run_loop (n : nat) (cfg : AppConfig.t) (days : Z) (fuel : nat)
    (g : rng) (results : list Scenario.t)
    : res (list Scenario.t * rng) :=
  match n with
  | O => Ok (results, g)
  | S n' =>
      '(params, g) <- Sampler._sample_params cfg fuel g ;;
      ltv_result <- _calculate_ltv cfg params days ;;
      sc <- scenario_of params ltv_result ;;
      run_loop n' cfg days fuel g (results ++ [sc])
  end.

(** The simulator object: its configuration and scenario count. *)
Record t : Type := { config : AppConfig.t; n_simulations : Z }.

(** [__init__]: [n_simulations or self.config.simulation.n_simulations] *)
Definition init (config : AppConfig.t) (n_simulations : option Z) : t :=
  {| config := config;
     n_simulations :=
       match n_simulations with
       | Some n =>
           if (n =? 0)%Z
           then SimulationConfig.n_simulations (simulation config)
           else n
       | None => SimulationConfig.n_simulations (simulation config)
       end |}.

(** [run]: the value of [self.results] when the loop is done (the
    summary statistics computed from it afterwards are not modelled). *)
Definition run (self : t) (days : option Z) (fuel : nat) (g : rng)
    : res (list Scenario.t * rng) :=
  let days :=
    match days with
    | Some d =>
        if (d =? 0)%Z then AppConfig.simulation_days (config self) else d
    | None => AppConfig.simulation_days (config self)
    end in
  run_loop (Z.to_nat (n_simulations self)) (config self) days fuel g [].

End Engine.

End Simulator.

(* ------------------------------------------------------------------ *)
(** ** simulation.py: the risk figures of [_calculate_statistics]

    The percentile, median and standard-deviation entries are numpy calls
    on the result columns and are not modelled; the two probabilities under
    ['risk'] are plain means of indicator lists. *)

Module Statistics.

(** [r < 0.5]; every comparison with [nan] is false. *)
Definition lt_half (a : pyfloat) : bool :=
  match a with
  | Fin q => Py.lt q 0.5
  | NInf => true
  | PInf | NaN => false
  end.

(** [np.mean] of a list of ints that is not empty. *)
Definition mean (l : list Z) : Q :=
  inject_Z (fold_left Z.add l 0%Z) / inject_Z (Z.of_nat (length l)).

Record risk : Type := {
  probability_profitable : Q;
  probability_roas_below_50pct : Q
}.

(** [None] is the empty dict returned when there are no results. *)
Definition _calculate_statistics (results : list Scenario.t) : option risk :=
  match results with
  | [] => None
  | _ :: _ =>
      let roas_values := map Scenario.roas results in
      Some
        {| probability_profitable :=
             mean (map (fun r => if F.ge1 r then 1%Z else 0%Z) roas_values);
           probability_roas_below_50pct :=
             mean (map (fun r => if lt_half r then 1%Z else 0%Z)
                     roas_values) |}
  end.

End Statistics.

(* ------------------------------------------------------------------ *)
(** ** Configurations used in the statements below *)

Module Examples.

Import AppConfig.

(** A rational stand-in for [exp] and [log], good enough to run the
    engine on examples: [1 / (1 - x)] is positive and decreasing to 0 on
    the negative axis, and [1 - 1 / y] is its inverse. *)
Definition rational_libm : Libm :=
  {| exp := fun x => 1 / (1 - x); ln := fun y => 1 - 1 / y |}.

(** The generator whose every draw is the mean. *)
Definition mean_rng : rng := fun _ => 0.

(** [cfg] with another platform fee. *)
Definition with_platform_fee (cfg : AppConfig.t) (fee : Q) : AppConfig.t :=
  {| ua := ua cfg;
     ads := ads cfg;
     retention := retention cfg;
     subscription :=
       {| SubscriptionMetrics.exploitation_start_day :=
            SubscriptionMetrics.exploitation_start_day (subscription cfg);
          SubscriptionMetrics.platform_fee_rate := fee;
          SubscriptionMetrics.weekly :=
            SubscriptionMetrics.weekly (subscription cfg);
          SubscriptionMetrics.monthly :=
            SubscriptionMetrics.monthly (subscription cfg);
          SubscriptionMetrics.yearly :=
            SubscriptionMetrics.yearly (subscription cfg);
          SubscriptionMetrics.lifetime :=
            SubscriptionMetrics.lifetime (subscription cfg) |};
     simulation := simulation cfg;
     simulation_days := simulation_days cfg |}.

(** [plan] with nobody buying it. *)
Definition disabled (plan : SubscriptionPlan.t) : SubscriptionPlan.t :=
  {| SubscriptionPlan.price := SubscriptionPlan.price plan;
     SubscriptionPlan.duration_days := SubscriptionPlan.duration_days plan;
     SubscriptionPlan.pay_rate := 0;
     SubscriptionPlan.has_trial := SubscriptionPlan.has_trial plan;
     SubscriptionPlan.trial_days := SubscriptionPlan.trial_days plan;
     SubscriptionPlan.trial_to_paid_rate :=
       SubscriptionPlan.trial_to_paid_rate plan;
     SubscriptionPlan.sub_retention :=
       SubscriptionPlan.sub_retention plan |}.

Definition no_variation : SimulationConfig.t :=
  {| SimulationConfig.n_simulations := 1;
     SimulationConfig.simulation_days := 14;
     SimulationConfig.confidence_level := 0.90;
     SimulationConfig.cpm_variation := 0;
     SimulationConfig.ctr_variation := 0;
     SimulationConfig.cvr_variation := 0;
     SimulationConfig.ecpm_variation := 0;
     SimulationConfig.retention_variation := 0;
     SimulationConfig.pay_rate_variation := 0;
     SimulationConfig.sub_ret_variation := 0 |}.

(** The weekly curve of the end-to-end scenario: cycle 0 is 100%, cycle 1
    is 50%; [c2] is the retention at cycle 2, which the scenario leaves
    open (0.42 in the stock weekly plan). *)
Definition weekly_curve (c2 : Q) : SubscriptionRetentionCurve.t :=
  {| SubscriptionRetentionCurve.cycle_0 := 1.00;
     SubscriptionRetentionCurve.cycle_1 := 0.50;
     SubscriptionRetentionCurve.cycle_2 := c2;
     SubscriptionRetentionCurve.cycle_3 := 0.36;
     SubscriptionRetentionCurve.cycle_4 := 0.31;
     SubscriptionRetentionCurve.cycle_5 := 0.27;
     SubscriptionRetentionCurve.cycle_6 := 0.24;
     SubscriptionRetentionCurve.cycle_8 := 0.19;
     SubscriptionRetentionCurve.cycle_12 := 0.15;
     SubscriptionRetentionCurve.cycle_24 := 0.08;
     SubscriptionRetentionCurve.cycle_52 := 0.03 |}.

(** The end-to-end scenario: CPM $5.0, CTR 2%, CVR 25%, organic 30%, no
    variation, one weekly plan ($2.99, pay rate 2%, no trial), the other
    three plans disabled, exploitation from day 0. *)
Definition end_to_end (fee c2 : Q) : AppConfig.t :=
  {| ua :=
       {| UAMetrics.cpm := 5.0; UAMetrics.ctr := 0.02;
          UAMetrics.cvr := 0.25; UAMetrics.organic_ratio := 0.30 |};
     ads := AdsMetrics.default;
     retention := RetentionMetrics.default;
     subscription :=
       {| SubscriptionMetrics.exploitation_start_day := 0;
          SubscriptionMetrics.platform_fee_rate := fee;
          SubscriptionMetrics.weekly :=
            {| SubscriptionPlan.price := 2.99;
               SubscriptionPlan.duration_days := 7;
               SubscriptionPlan.pay_rate := 0.02;
               SubscriptionPlan.has_trial := false;
               SubscriptionPlan.trial_days := 0;
               SubscriptionPlan.trial_to_paid_rate := 1.0;
               SubscriptionPlan.sub_retention := weekly_curve c2 |};
          SubscriptionMetrics.monthly :=
            disabled (SubscriptionMetrics.monthly
                        SubscriptionMetrics.default);
          SubscriptionMetrics.yearly :=
            disabled (SubscriptionMetrics.yearly
                        SubscriptionMetrics.default);
          SubscriptionMetrics.lifetime :=
            disabled (SubscriptionMetrics.lifetime
                        SubscriptionMetrics.default) |};
     simulation := no_variation;
     simulation_days := 14 |}.

(** The parameter set the sampler returns for [end_to_end]. *)
Definition end_to_end_params : SimulationParams.t :=
  {| SimulationParams.cpm := 5.0;
     SimulationParams.ctr := 0.02;
     SimulationParams.cvr := 0.25;
     SimulationParams.organic_ratio := 0.30;
     SimulationParams.ecpm_d0 := 12.0;
     SimulationParams.impressions_d0 := 6.0;
     SimulationParams.ecpm_saturation_ratio := 0.50;
     SimulationParams.impressions_saturation_ratio := 0.40;
     SimulationParams.decay_half_life := 30;
     SimulationParams.retention_mult := 1.0;
     SimulationParams.pay_rate_mult := 1.0;
     SimulationParams.renewal_mult := 1.0 |}.



(** The stock configuration with the CPM held fixed and everything else
    varying. *)
Definition fixed_cpm : AppConfig.t :=
  {| ua := UAMetrics.default;
     ads := AdsMetrics.default;
     retention := RetentionMetrics.default;
     subscription := SubscriptionMetrics.default;
     simulation :=
       {| SimulationConfig.n_simulations := 1;
          SimulationConfig.simulation_days := 14;
          SimulationConfig.confidence_level := 0.90;
          SimulationConfig.cpm_variation := 0;
          SimulationConfig.ctr_variation := 0.20;
          SimulationConfig.cvr_variation := 0.25;
          SimulationConfig.ecpm_variation := 0.20;
          SimulationConfig.retention_variation := 0.15;
          SimulationConfig.pay_rate_variation := 0.30;
          SimulationConfig.sub_ret_variation := 0.20 |};
     simulation_days := 14 |}.

(** What the sampler returns for [fixed_cpm] when every draw is the
    mean. *)
Definition fixed_cpm_params : SimulationParams.t :=
  Eval vm_compute in
    match Sampler._sample_params fixed_cpm 1 mean_rng with
    | Ok (p, _) => p
    | _ => end_to_end_params
    end.

End Examples.

(* ------------------------------------------------------------------ *)
(** ** Notions used in the statements below *)

(** [v] is what [sample_with_variation] returned from some generator
    state. *)
Definition drawn (fuel : nat) (mean variation lo hi v : Q) : Prop :=
  exists g h : rng,
    Sampler.sample_with_variation fuel mean variation lo hi g = Ok (v, h).

(** [v] lies in the multiplicative band [[lo x, hi x]] around [mean]: it is
    [r] times the mean for some [r] between [lo] and [hi]. *)
Definition in_band (mean lo hi v : Q) : Prop :=
  exists r, lo <= r <= hi /\ v == r * mean.


(** The parameter set made of the configured means, with unit
    multipliers. *)
Definition configured_means (cfg : AppConfig.t) : SimulationParams.t :=
  {| SimulationParams.cpm := UAMetrics.cpm (AppConfig.ua cfg);
     SimulationParams.ctr := UAMetrics.ctr (AppConfig.ua cfg);
     SimulationParams.cvr := UAMetrics.cvr (AppConfig.ua cfg);
     SimulationParams.organic_ratio :=
       UAMetrics.organic_ratio (AppConfig.ua cfg);
     SimulationParams.ecpm_d0 := AdsMetrics.ecpm_d0 (AppConfig.ads cfg);
     SimulationParams.impressions_d0 :=
       AdsMetrics.impressions_per_dau_d0 (AppConfig.ads cfg);
     SimulationParams.ecpm_saturation_ratio :=
       AdsMetrics.ecpm_saturation_ratio (AppConfig.ads cfg);
     SimulationParams.impressions_saturation_ratio :=
       AdsMetrics.impressions_saturation_ratio (AppConfig.ads cfg);
     SimulationParams.decay_half_life :=
       AdsMetrics.decay_half_life_days (AppConfig.ads cfg);
     SimulationParams.retention_mult := 1.0;
     SimulationParams.pay_rate_mult := 1.0;
     SimulationParams.renewal_mult := 1.0 |}.

(** The amounts [_calculate_ltv] adds up, in the order it adds them. *)
Definition billed (cfg : AppConfig.t) (events : list Simulator.event)
    : list Q :=
  map snd (if Sampler._is_deterministic cfg
           then Simulator.sort_events events else events).


Definition roas_consistent (sc : Scenario.t) : Prop :=
  (forall q,
     F.finite_positive (Scenario.blended_cpi sc) q ->
     Scenario.roas sc = Fin (Scenario.ltv_total sc / q)) /\
  (F.is_infinite (Scenario.blended_cpi sc) -> Scenario.roas sc = Fin 0) /\
  (Scenario.blended_cpi sc = NaN -> Scenario.roas sc = Fin 0).



(* ------------------------------------------------------------------ *)
(** ** Notions used in the further properties *)

(** The events due by day [m], and the others. *)
Definition due (m : Z) (l : list Simulator.event) : list Simulator.event :=
  filter (fun e => (fst e <=? m)%Z) l.

Definition overdue (m : Z) (l : list Simulator.event)
    : list Simulator.event :=
  filter (fun e => negb (fst e <=? m)%Z) l.

(** The net revenue of the events due by day [m]. *)
Definition net_due (m : Z) (net : Q) (l : list Simulator.event) : Q :=
  Py.sum (map (fun e => snd e * net) (due m l)).

(** The order [iap_events.sort] sorts by. *)
Definition by_day (a b : Simulator.event) : Prop := (fst a <= fst b)%Z.

(** The billing schedule, cycle by cycle: event [e] is the payment of
    cycle [k] of a plan first billed on day [base] and renewed every [d]
    days, [R] being the retention of its subscribers at each cycle. *)
Definition billed_at (base d : Z) (subs mult price : Q) (R : Z -> Q)
    (e : Simulator.event) (k : Z) : Prop :=
  fst e = (base + k * d)%Z /\
  snd e == subs * (R k / R 0%Z * mult ^ k) * price.

(** Every plan is billed forwards from day 0 on: the exploitation day
    and the trial length are not negative and no plan has a negative
    duration. *)
Definition forward_schedule (cfg : AppConfig.t) : Prop :=
  (0 <= SubscriptionMetrics.exploitation_start_day
          (AppConfig.subscription cfg))%Z /\
  Forall
    (fun plan =>
       (0 <= SubscriptionPlan.duration_days plan)%Z /\
       (SubscriptionPlan.has_trial plan = true ->
        (0 <= SubscriptionPlan.trial_days plan)%Z))
    (SubscriptionMetrics.get_all_plans (AppConfig.subscription cfg)).

(** [v] lies between [a] and [b], whichever of the two is the larger. *)
Definition lies_between (a b v : Q) : Prop :=
  a <= v <= b \/ b <= v <= a.

(** Further example configurations. *)
Module Cases.

Import AppConfig.




(** The end-to-end parameter set with a decay half-life of minus one day. *)
Definition negative_half_life : SimulationParams.t :=
  {| SimulationParams.cpm := 5.0;
     SimulationParams.ctr := 0.02;
     SimulationParams.cvr := 0.25;
     SimulationParams.organic_ratio := 0.30;
     SimulationParams.ecpm_d0 := 12.0;
     SimulationParams.impressions_d0 := 6.0;
     SimulationParams.ecpm_saturation_ratio := 0.50;
     SimulationParams.impressions_saturation_ratio := 0.40;
     SimulationParams.decay_half_life := -1;
     SimulationParams.retention_mult := 1.0;
     SimulationParams.pay_rate_mult := 1.0;
     SimulationParams.renewal_mult := 1.0 |}.

(** The end-to-end parameter set with a decay half-life of zero. *)
Definition zero_half_life : SimulationParams.t :=
  {| SimulationParams.cpm := 5.0;
     SimulationParams.ctr := 0.02;
     SimulationParams.cvr := 0.25;
     SimulationParams.organic_ratio := 0.30;
     SimulationParams.ecpm_d0 := 12.0;
     SimulationParams.impressions_d0 := 6.0;
     SimulationParams.ecpm_saturation_ratio := 0.50;
     SimulationParams.impressions_saturation_ratio := 0.40;
     SimulationParams.decay_half_life := 0;
     SimulationParams.retention_mult := 1.0;
     SimulationParams.pay_rate_mult := 1.0;
     SimulationParams.renewal_mult := 1.0 |}.

(** The stock configuration with a negative CPM. *)
Definition negative_cpm : AppConfig.t :=
  {| ua :=
       {| UAMetrics.cpm := -5.0; UAMetrics.ctr := 0.02;
          UAMetrics.cvr := 0.25; UAMetrics.organic_ratio := 0.30 |};
     ads := AdsMetrics.default;
     retention := RetentionMetrics.default;
     subscription := SubscriptionMetrics.default;
     simulation := SimulationConfig.default;
     simulation_days := 365 |}.

(** The retention of the weekly subscribers of the end-to-end scenario
    over the first three cycles. *)
Definition weekly_retention (j : Z) : Q :=
  if (j =? 0)%Z then 1.00 else if (j =? 1)%Z then 0.50 else 0.42.

(** Every install is organic. *)
Definition all_organic : AppConfig.t :=
  {| ua :=
       {| UAMetrics.cpm := 5.0; UAMetrics.ctr := 0.02;
          UAMetrics.cvr := 0.25; UAMetrics.organic_ratio := 1.0 |};
     ads := AdsMetrics.default;
     retention := RetentionMetrics.default;
     subscription := SubscriptionMetrics.default;
     simulation := Examples.no_variation;
     simulation_days := 14 |}.

(** [Examples.fixed_cpm] with the subscriptions on sale one day before
    the install. *)
Definition early_exploitation : AppConfig.t :=
  {| ua := UAMetrics.default;
     ads := AdsMetrics.default;
     retention := RetentionMetrics.default;
     subscription :=
       {| SubscriptionMetrics.exploitation_start_day := -1;
          SubscriptionMetrics.platform_fee_rate := 0.30;
          SubscriptionMetrics.weekly :=
            SubscriptionMetrics.weekly
              (subscription (Examples.end_to_end 0.30 0.42));
          SubscriptionMetrics.monthly :=
            SubscriptionMetrics.monthly SubscriptionMetrics.default;
          SubscriptionMetrics.yearly :=
            SubscriptionMetrics.yearly SubscriptionMetrics.default;
          SubscriptionMetrics.lifetime :=
            SubscriptionMetrics.lifetime SubscriptionMetrics.default |};
     simulation := simulation Examples.fixed_cpm;
     simulation_days := 14 |}.

(** The end-to-end scenario with the variation coefficients of
    [Examples.fixed_cpm], which puts it in stochastic mode. *)
Definition varied_end_to_end : AppConfig.t :=
  {| ua := ua (Examples.end_to_end 0.30 0.42);
     ads := ads (Examples.end_to_end 0.30 0.42);
     retention := retention (Examples.end_to_end 0.30 0.42);
     subscription := subscription (Examples.end_to_end 0.30 0.42);
     simulation := simulation Examples.fixed_cpm;
     simulation_days := 14 |}.

End Cases.

(* ------------------------------------------------------------------ *)
(** ** Proof steps shared by the lemmas below *)

(** Runs the next call of a monadic sequence that is known to return. *)
Ltac ok_step :=
  match goal with
  | R : returns ?m |- context [bind ?m _] =>
      let v := fresh "v" in
      let E := fresh "E" in
      destruct R as [v E]; rewrite E; cbn [bind]
  end.

(** Inverts the next draw of a sampling sequence that returned. *)
Ltac sample_step E :=
  match goal with
  | R : bind ?m _ = Ok _ |- _ =>
      destruct m as [[? ?]| |] eqn:E; cbn [bind] in R;
      [|discriminate R|discriminate R]
  end.

(* ------------------------------------------------------------------ *)
(** ** Facts about the builtins *)

Module PyFacts.

Lemma lt_true (a b : Q) : Py.lt a b = true <-> a < b.
Proof.
  unfold Py.lt. rewrite negb_true_iff.
  split; intro E.
  - apply Qnot_le_lt. intro L. apply Qle_bool_iff in L. congruence.
  - destruct (Qle_bool b a) eqn:L; [|reflexivity].
    apply Qle_bool_iff in L. exfalso. exact (Qlt_not_le _ _ E L).
Qed.

Lemma lt_false (a b : Q) : Py.lt a b = false <-> b <= a.
Proof.
  unfold Py.lt. rewrite negb_false_iff. apply Qle_bool_iff.
Qed.

Lemma le_true (a b : Q) : Py.le a b = true <-> a <= b.
Proof. apply Qle_bool_iff. Qed.

Lemma eq_true (a b : Q) : Py.eq a b = true <-> a == b.
Proof. apply Qeq_bool_iff. Qed.

Lemma eq_false (a b : Q) : Py.eq a b = false <-> ~ a == b.
Proof.
  unfold Py.eq. split; intro E.
  - intro K. apply Qeq_bool_iff in K. congruence.
  - destruct (Qeq_bool a b) eqn:K; [|reflexivity].
    apply Qeq_bool_iff in K. contradiction.
Qed.

Lemma truediv_ok (a b : Q) : ~ b == 0 -> Py.truediv a b = Ok (a / b).
Proof. intro E. unfold Py.truediv. apply eq_false in E. now rewrite E. Qed.


Lemma truediv_int_ok (a b : Z) :
  b <> 0%Z -> Py.truediv_int a b = Ok (inject_Z a / inject_Z b).
Proof.
  intro E. unfold Py.truediv_int. apply Z.eqb_neq in E. now rewrite E.
Qed.

(** *** The range of a double *)

Lemma float_max_large : 1 <= Py.float_max.
Proof. apply Qle_bool_imp_le. vm_compute. reflexivity. Qed.

Lemma float_min_small : Py.float_tiny < Py.float_min /\ Py.float_min < 1.
Proof.
  split; apply Qnot_le_lt; intro K; apply Qle_bool_iff in K;
    vm_compute in K; discriminate K.
Qed.

Lemma float_tiny_small : 0 < Py.float_tiny /\ Py.float_tiny < 1.
Proof.
  split; [reflexivity|].
  apply Qnot_le_lt. intro K. apply Qle_bool_iff in K. vm_compute in K.
  discriminate K.
Qed.


Lemma overflows_true (x : Q) :
  Py.float_max < x \/ x < - Py.float_max -> Py.overflows x = true.
Proof.
  intro H. unfold Py.overflows. apply orb_true_iff.
  destruct H as [H|H]; [left | right]; now apply lt_true.
Qed.

Lemma range_normal (x : Q) : F.normal x -> F.range x = Fin x.
Proof.
  pose proof float_max_large as M. pose proof float_tiny_small as [T0 T1].
  pose proof float_min_small as [T2 T3].
  intros [[Lo Hi]|[Lo Hi]]; unfold F.range, Py.underflows.
  - replace (Py.lt Py.float_max x) with false
      by (symmetry; now apply lt_false).
    replace (Py.lt x (- Py.float_max)) with false
      by (symmetry; apply lt_false; lra).
    replace (Py.le x Py.float_tiny) with false
      by (symmetry; apply not_true_is_false; intro K; apply le_true in K;
          lra).
    now rewrite andb_false_r.
  - replace (Py.lt Py.float_max x) with false
      by (symmetry; apply lt_false; lra).
    replace (Py.lt x (- Py.float_max)) with false
      by (symmetry; now apply lt_false).
    replace (Py.le (- Py.float_tiny) x) with false
      by (symmetry; apply not_true_is_false; intro K; apply le_true in K;
          lra).
    reflexivity.
Qed.

Lemma range_zero (x : Q) : x == 0 -> F.range x = Fin 0.
Proof.
  intro Z0. pose proof float_max_large as M.
  pose proof float_tiny_small as [T0 T1].
  unfold F.range, Py.underflows.
  replace (Py.lt Py.float_max x) with false
    by (symmetry; apply lt_false; lra).
  replace (Py.lt x (- Py.float_max)) with false
    by (symmetry; apply lt_false; lra).
  replace (Py.le (- Py.float_tiny) x) with true
    by (symmetry; apply le_true; lra).
  replace (Py.le x Py.float_tiny) with true
    by (symmetry; apply le_true; lra).
  reflexivity.
Qed.



(** The four outcomes of bringing a result into range. *)
Lemma range_cases (x : Q) :
  F.range x = PInf /\ Py.float_max < x
  \/ F.range x = NInf /\ x < - Py.float_max
  \/ F.range x = Fin 0 /\ - Py.float_tiny <= x <= Py.float_tiny
  \/ F.range x = Fin x /\ (Py.float_tiny < x \/ x < - Py.float_tiny).
Proof.
  unfold F.range, Py.underflows.
  destruct (Py.lt Py.float_max x) eqn:A;
    [left; split; [reflexivity | now apply lt_true]|].
  destruct (Py.lt x (- Py.float_max)) eqn:B;
    [right; left; split; [reflexivity | now apply lt_true]|].
  apply lt_false in A, B.
  destruct (Py.le (- Py.float_tiny) x) eqn:C; cbn [andb].
  - destruct (Py.le x Py.float_tiny) eqn:D.
    + right. right. left. apply le_true in C, D. auto.
    + right. right. right. split; [reflexivity|]. left.
      apply Qnot_le_lt. intro K. apply le_true in K. congruence.
  - right. right. right. split; [reflexivity|]. right.
    apply Qnot_le_lt. intro K. apply le_true in K. congruence.
Qed.

(** *** Powers *)





(** *** [math.exp] *)

Lemma math_exp_ok {L : Libm} (x : Q) :
  x <= Py.exp_max_arg -> Py.math_exp x = Ok (exp x).
Proof.
  intro H. unfold Py.math_exp. apply lt_false in H. now rewrite H.
Qed.

Lemma math_exp_overflow {L : Libm} (x : Q) :
  Py.exp_max_arg < x -> Py.math_exp x = Raise OverflowError.
Proof.
  intro H. unfold Py.math_exp. apply lt_true in H. now rewrite H.
Qed.

(** [max] and [min] pick one of their arguments and bound both. *)
Lemma max_lower (a b : Q) : a <= Py.max a b /\ b <= Py.max a b.
Proof.
  unfold Py.max. destruct (Py.lt a b) eqn:E.
  - apply lt_true in E. split; [now apply Qlt_le_weak | apply Qle_refl].
  - apply lt_false in E. split; [apply Qle_refl | exact E].
Qed.

Lemma min_upper (a b : Q) : Py.min a b <= a /\ Py.min a b <= b.
Proof.
  unfold Py.min. destruct (Py.lt b a) eqn:E.
  - apply lt_true in E. split; [now apply Qlt_le_weak | apply Qle_refl].
  - apply lt_false in E. split; [apply Qle_refl | exact E].
Qed.

Lemma min_lower (a b c : Q) : c <= a -> c <= b -> c <= Py.min a b.
Proof. intros. unfold Py.min. now destruct (Py.lt b a). Qed.

(** *** Lists of ints *)

Lemma fold_max_spec (l : list Z) (x : Z) :
  let m := fold_left Z.max l x in
  (m = x \/ In m l) /\ (x <= m)%Z /\ (forall y, In y l -> (y <= m)%Z).
Proof.
  revert x. induction l as [|a l IH]; intro x; simpl.
  - split; [now left|]. split; [lia | tauto].
  - destruct (IH (Z.max x a)) as (S1 & S2 & S3).
    split; [|split].
    + destruct S1 as [S1|S1]; [|now right; right].
      rewrite S1. destruct (Z.max_spec x a) as [[_ E]|[_ E]]; rewrite E;
        [right; now left | now left].
    + lia.
    + intros y [<-|Hy]; [lia | now apply S3].
Qed.

Lemma fold_min_spec (l : list Z) (x : Z) :
  let m := fold_left Z.min l x in
  (m = x \/ In m l) /\ (m <= x)%Z /\ (forall y, In y l -> (m <= y)%Z).
Proof.
  revert x. induction l as [|a l IH]; intro x; simpl.
  - split; [now left|]. split; [lia | tauto].
  - destruct (IH (Z.min x a)) as (S1 & S2 & S3).
    split; [|split].
    + destruct S1 as [S1|S1]; [|now right; right].
      rewrite S1. destruct (Z.min_spec x a) as [[_ E]|[_ E]]; rewrite E;
        [now left | right; now left].
    + lia.
    + intros y [<-|Hy]; [lia | now apply S3].
Qed.

Lemma max_list_ok (l : list Z) (k : Z) :
  In k l ->
  exists m, Py.max_list l = Ok m /\ In m l /\ forall y, In y l -> (y <= m)%Z.
Proof.
  destruct l as [|x t]; [intros []|]. intros _.
  exists (fold_left Z.max t x). split; [reflexivity|].
  destruct (fold_max_spec t x) as (S1 & S2 & S3). split.
  - destruct S1 as [->|S1]; [now left | now right].
  - intros y [<-|Hy]; [exact S2 | now apply S3].
Qed.

Lemma min_list_ok (l : list Z) (k : Z) :
  In k l ->
  exists m, Py.min_list l = Ok m /\ In m l /\ forall y, In y l -> (m <= y)%Z.
Proof.
  destruct l as [|x t]; [intros []|]. intros _.
  exists (fold_left Z.min t x). split; [reflexivity|].
  destruct (fold_min_spec t x) as (S1 & S2 & S3). split.
  - destruct S1 as [->|S1]; [now left | now right].
  - intros y [<-|Hy]; [exact S2 | now apply S3].
Qed.

Lemma in_insert (x y : Z) (l : list Z) :
  In y (Py.insert x l) <-> y = x \/ In y l.
Proof.
  induction l as [|a l IH]; simpl.
  - intuition.
  - destruct (x <=? a)%Z; simpl; [intuition|].
    rewrite IH. intuition.
Qed.

Lemma in_sorted (y : Z) (l : list Z) : In y (Py.sorted l) <-> In y l.
Proof.
  induction l as [|a l IH]; simpl; [tauto|].
  rewrite in_insert, IH. intuition.
Qed.

(** *** Dicts *)

Lemma get_in_keys (d : Py.dict) (k : Z) :
  In k (Py.keys d) -> exists v, Py.get d k = Some v.
Proof.
  induction d as [|[k' v'] d IH]; simpl; [intros []|].
  intros [E|E].
  - subst. rewrite Z.eqb_refl. now exists v'.
  - destruct (k' =? k)%Z; [now exists v' | now apply IH].
Qed.

Lemma get_not_in_keys (d : Py.dict) (k : Z) :
  ~ In k (Py.keys d) -> Py.get d k = None.
Proof.
  induction d as [|[k' v'] d IH]; simpl; [reflexivity|].
  intro N. destruct (Z.eqb_spec k' k); [exfalso; auto|]. apply IH. tauto.
Qed.

Lemma contains_true (d : Py.dict) (k : Z) :
  Py.contains d k = true <-> In k (Py.keys d).
Proof.
  unfold Py.contains. split.
  - intro E. destruct (in_dec Z.eq_dec k (Py.keys d)) as [I|N]; [exact I|].
    rewrite (get_not_in_keys _ _ N) in E. discriminate.
  - intro I. destruct (get_in_keys _ _ I) as [v ->]. reflexivity.
Qed.

Lemma getitem_in_keys (d : Py.dict) (k : Z) :
  In k (Py.keys d) -> returns (Py.getitem d k).
Proof.
  intro I. unfold Py.getitem. destruct (get_in_keys _ _ I) as [v ->].
  now exists v.
Qed.

End PyFacts.

(* ------------------------------------------------------------------ *)
(** ** Retention lookups *)

Section RetentionLookup.
Context {libm : Libm}.
Import PyFacts.

(** The interpolation branch is reached only with a key on each side, and
    then nothing in it raises. *)
Lemma retention_at_day_of_returns (curve : Py.dict) (day lo : Z) :
  In lo (Py.keys curve) -> (lo <= day)%Z ->
  returns (RetentionMetrics.retention_at_day_of curve day).
Proof.
  intros Ilo Hlo. unfold RetentionMetrics.retention_at_day_of.
  destruct (Py.contains curve day) eqn:C.
  - apply getitem_in_keys, contains_true, C.
  - assert (N : ~ In day (Py.keys curve)).
    { intro I. apply contains_true in I. congruence. }
    destruct (max_list_ok (Py.sorted (Py.keys curve)) lo) as (m & -> & Im & Um).
    { now apply in_sorted. }
    cbn [bind]. destruct (m <? day)%Z eqn:L.
    + cbn [bind]. apply getitem_in_keys. now apply in_sorted.
    + apply Z.ltb_ge in L.
      assert (day <> m) by (intros ->; apply N; now apply in_sorted).
      assert (day <> lo) by (intros ->; now apply N).
      destruct (max_list_ok
                  (filter (fun d => (d <? day)%Z) (Py.sorted (Py.keys curve)))
                  lo) as (p & -> & Ip & _).
      { apply filter_In. split; [now apply in_sorted | apply Z.ltb_lt; lia]. }
      destruct (min_list_ok
                  (filter (fun d => (day <? d)%Z) (Py.sorted (Py.keys curve)))
                  m) as (n & -> & In_ & _).
      { apply filter_In. split; [exact Im | apply Z.ltb_lt; lia]. }
      apply filter_In in Ip as [Ip Lp]. apply filter_In in In_ as [In_ Ln].
      apply Z.ltb_lt in Lp, Ln.
      apply (proj1 (in_sorted _ _)) in Ip. apply (proj1 (in_sorted _ _)) in In_.
      cbn [bind].
      destruct (getitem_in_keys _ _ Ip) as [vp ->].
      destruct (getitem_in_keys _ _ In_) as [vn ->].
      cbn [bind]. rewrite truediv_int_ok by lia. cbn [bind].
      eexists. reflexivity.
Qed.

Lemma get_retention_at_day_returns (r : RetentionMetrics.t) (day : Z) :
  (0 <= day)%Z -> returns (RetentionMetrics.get_retention_at_day r day).
Proof.
  intro D. apply (retention_at_day_of_returns _ day 0%Z); [|exact D].
  simpl. now left.
Qed.

(** A day below every key finds no lower neighbour: [max([])]. *)
Lemma get_retention_at_day_negative (r : RetentionMetrics.t) (day : Z) :
  (day < 0)%Z ->
  RetentionMetrics.get_retention_at_day r day = Raise ValueError.
Proof.
  intro D. unfold RetentionMetrics.get_retention_at_day,
    RetentionMetrics.retention_at_day_of.
  assert (C : Py.contains (RetentionMetrics.get_curve r) day = false).
  { destruct (Py.contains _ day) eqn:C; [|reflexivity].
    apply contains_true in C. simpl in C. lia. }
  rewrite C.
  change (Py.sorted (Py.keys (RetentionMetrics.get_curve r)))
    with [0; 1; 3; 7; 14; 30; 60; 90; 180; 365]%Z.
  cbn [Py.max_list fold_left bind].
  replace (Z.max _ 365 <? day)%Z with false by (symmetry; apply Z.ltb_ge; lia).
  cbn [filter].
  repeat match goal with
         | |- context [(?k <? day)%Z] =>
             replace (k <? day)%Z with false by (symmetry; apply Z.ltb_ge; lia)
         end.
  reflexivity.
Qed.

Lemma retention_at_cycle_of_returns (curve : Py.dict) (cycle lo hi : Z) :
  In lo (Py.keys curve) -> In hi (Py.keys curve) ->
  (lo <= cycle <= hi)%Z ->
  returns (SubscriptionRetentionCurve.retention_at_cycle_of curve cycle).
Proof.
  intros Ilo Ihi [Hlo Hhi].
  unfold SubscriptionRetentionCurve.retention_at_cycle_of.
  destruct (Py.contains curve cycle) eqn:C.
  - apply getitem_in_keys, contains_true, C.
  - assert (N : ~ In cycle (Py.keys curve)).
    { intro I. apply contains_true in I. congruence. }
    destruct (cycle <=? 0)%Z; [eexists; reflexivity|].
    destruct (max_list_ok (Py.sorted (Py.keys curve)) lo) as (m & -> & Im & Um).
    { now apply in_sorted. }
    cbn [bind].
    assert (hi <= m)%Z by (apply Um; now apply in_sorted).
    replace (m <? cycle)%Z with false by (symmetry; apply Z.ltb_ge; lia).
    assert (cycle <> hi) by (intros ->; now apply N).
    assert (cycle <> lo) by (intros ->; now apply N).
    destruct (max_list_ok
                (filter (fun c => (c <? cycle)%Z) (Py.sorted (Py.keys curve)))
                lo) as (p & -> & Ip & _).
    { apply filter_In. split; [now apply in_sorted | apply Z.ltb_lt; lia]. }
    destruct (min_list_ok
                (filter (fun c => (cycle <? c)%Z) (Py.sorted (Py.keys curve)))
                hi) as (n & -> & In_ & _).
    { apply filter_In. split; [now apply in_sorted | apply Z.ltb_lt; lia]. }
    apply filter_In in Ip as [Ip Lp]. apply filter_In in In_ as [In_ Ln].
    apply Z.ltb_lt in Lp, Ln.
      apply (proj1 (in_sorted _ _)) in Ip. apply (proj1 (in_sorted _ _)) in In_.
      cbn [bind].
    destruct (getitem_in_keys _ _ Ip) as [vp ->].
    destruct (getitem_in_keys _ _ In_) as [vn ->].
    cbn [bind]. rewrite truediv_int_ok by lia. cbn [bind].
    eexists. reflexivity.
Qed.

Lemma get_retention_at_cycle_nonpositive
    (c : SubscriptionRetentionCurve.t) (cycle : Z) :
  (cycle < 0)%Z ->
  SubscriptionRetentionCurve.get_retention_at_cycle c cycle = Ok 1.0.
Proof.
  intro D. unfold SubscriptionRetentionCurve.get_retention_at_cycle,
    SubscriptionRetentionCurve.retention_at_cycle_of.
  assert (C : Py.contains (SubscriptionRetentionCurve.get_curve c) cycle
              = false).
  { destruct (Py.contains _ cycle) eqn:C; [|reflexivity].
    apply contains_true in C. simpl in C. lia. }
  rewrite C.
  replace (cycle <=? 0)%Z with true by (symmetry; apply Z.leb_le; lia).
  reflexivity.
Qed.

Lemma get_retention_at_cycle_returns
    (c : SubscriptionRetentionCurve.t) (cycle : Z) :
  (cycle <= 52)%Z ->
  returns (SubscriptionRetentionCurve.get_retention_at_cycle c cycle).
Proof.
  intro D. destruct (Z_lt_le_dec cycle 0) as [Neg|Pos].
  - rewrite get_retention_at_cycle_nonpositive by exact Neg.
    eexists. reflexivity.
  - apply (retention_at_cycle_of_returns _ cycle 0%Z 52%Z);
      [simpl; tauto | simpl; tauto | lia].
Qed.






End RetentionLookup.

Section RetentionTheorems.
Context {libm : Libm}.

(** C6.  A calendar retention lookup below the smallest key is not clamped:
    [get_retention_at_day] at day -1 raises [ValueError], whatever the
    curve, because the search for the anchor before the day takes the
    maximum of an empty list. *)
Theorem negative_day_lookup_raises (r : RetentionMetrics.t) :
  RetentionMetrics.get_retention_at_day r (-1) = Raise ValueError.
Proof. apply get_retention_at_day_negative. lia. Qed.

(** C7.  At a point that is a key of the curve, [get_retention_at_day] and
    [get_retention_at_cycle] return the value stored under that key, as it
    is stored. *)
Theorem anchor_lookup_is_exact (r : RetentionMetrics.t)
    (c : SubscriptionRetentionCurve.t) (point : Z) (v : Q) :
  (In (point, v) (RetentionMetrics.get_curve r) ->
   RetentionMetrics.get_retention_at_day r point = Ok v) /\
  (In (point, v) (SubscriptionRetentionCurve.get_curve c) ->
   SubscriptionRetentionCurve.get_retention_at_cycle c point = Ok v).
Proof.
  split; intro I; cbn [RetentionMetrics.get_curve
                         SubscriptionRetentionCurve.get_curve In] in I;
    repeat (destruct I as [I|I]; [injection I as <- <-; reflexivity|]);
    contradiction.
Qed.


End RetentionTheorems.


(* ------------------------------------------------------------------ *)
(** ** The parameter sampler *)

Section SamplerFacts.
Import PyFacts AppConfig SimulationConfig.

Lemma is_deterministic_iff (cfg : AppConfig.t) :
  Sampler._is_deterministic cfg = true <->
  cpm_variation (simulation cfg) < 0.001 /\
  ctr_variation (simulation cfg) < 0.001 /\
  cvr_variation (simulation cfg) < 0.001 /\
  ecpm_variation (simulation cfg) < 0.001 /\
  retention_variation (simulation cfg) < 0.001 /\
  pay_rate_variation (simulation cfg) < 0.001 /\
  sub_ret_variation (simulation cfg) < 0.001.
Proof.
  unfold Sampler._is_deterministic. cbn [forallb].
  rewrite !andb_true_iff, !lt_true. tauto.
Qed.

Lemma rejection_loop_band (fuel : nat) (mean std lo hi v : Q) (g g' : rng) :
  Sampler.rejection_loop fuel mean std lo hi g = Ok (v, g') ->
  mean * lo <= v <= mean * hi.
Proof.
  revert g. induction fuel as [|fuel IH]; intro g; cbn [Sampler.rejection_loop].
  - discriminate.
  - destruct (normal mean std g) as [[value g1]| |]; cbn [bind];
      try discriminate.
    destruct (Py.le (mean * lo) value && Py.le value (mean * hi))%bool eqn:T.
    + intro E. injection E as <- <-.
      apply andb_true_iff in T as [T1 T2].
      apply le_true in T1, T2. now split.
    + apply IH.
Qed.

(** A field whose own coefficient is negligible is not sampled at all. *)
Lemma sample_with_variation_fixed (fuel : nat) (mean variation lo hi : Q)
    (g : rng) :
  variation < 0.001 ->
  Sampler.sample_with_variation fuel mean variation lo hi g = Ok (mean, g).
Proof.
  intro V. unfold Sampler.sample_with_variation.
  apply lt_true in V. rewrite V, orb_true_r. reflexivity.
Qed.

Lemma sample_with_variation_cases (fuel : nat) (mean variation lo hi v : Q)
    (g g' : rng) :
  Sampler.sample_with_variation fuel mean variation lo hi g = Ok (v, g') ->
  (variation < 0.001 /\ v = mean /\ g' = g)
  \/ (0.001 <= variation /\ mean * lo <= v <= mean * hi).
Proof.
  unfold Sampler.sample_with_variation.
  destruct (Py.lt variation 0.001) eqn:V.
  - rewrite orb_true_r. intro E. injection E as <- <-.
    left. apply lt_true in V. auto.
  - apply lt_false in V.
    destruct (Py.eq variation 0) eqn:Z0.
    + apply eq_true in Z0. rewrite Z0 in V. exfalso. revert V. clear.
      intro V. apply (Qle_not_lt _ _ V). reflexivity.
    + cbn [orb]. intro E. right. split; [exact V|].
      eapply rejection_loop_band, E.
Qed.

End SamplerFacts.

Section SamplerTheorems.
Import PyFacts AppConfig SimulationConfig.

Lemma organic_clamp (x : Q) :
  0.05 <= Py.min 0.8 (Py.max 0.05 x) <= 0.8.
Proof.
  split.
  - apply min_lower; [lra | apply max_lower].
  - apply min_upper.
Qed.

(** What a successful stochastic draw looks like, field by field. *)
Lemma sample_params_stochastic (cfg : AppConfig.t) (fuel : nat) (g g' : rng)
    (p : SimulationParams.t) :
  Sampler._is_deterministic cfg = false ->
  Sampler._sample_params cfg fuel g = Ok (p, g') ->
  drawn fuel (UAMetrics.cpm (ua cfg)) (cpm_variation (simulation cfg))
    0.3 2.0 (SimulationParams.cpm p) /\
  drawn fuel (UAMetrics.ctr (ua cfg)) (ctr_variation (simulation cfg))
    0.3 2.0 (SimulationParams.ctr p) /\
  drawn fuel (UAMetrics.cvr (ua cfg)) (cvr_variation (simulation cfg))
    0.3 2.0 (SimulationParams.cvr p) /\
  (exists noise,
     SimulationParams.organic_ratio p =
       Py.min 0.8
         (Py.max 0.05 (UAMetrics.organic_ratio (ua cfg) + noise))) /\
  drawn fuel (AdsMetrics.ecpm_d0 (ads cfg))
    (ecpm_variation (simulation cfg)) 0.3 2.0
    (SimulationParams.ecpm_d0 p) /\
  drawn fuel (AdsMetrics.impressions_per_dau_d0 (ads cfg))
    (ecpm_variation (simulation cfg)) 0.3 2.0
    (SimulationParams.impressions_d0 p) /\
  drawn fuel 1.0 (retention_variation (simulation cfg)) 0.6 1.5
    (SimulationParams.retention_mult p) /\
  drawn fuel 1.0 (pay_rate_variation (simulation cfg)) 0.5 2.0
    (SimulationParams.pay_rate_mult p) /\
  drawn fuel 1.0 (sub_ret_variation (simulation cfg)) 0.97 1.03
    (SimulationParams.renewal_mult p).
Proof.
  intros D R. unfold Sampler._sample_params in R.
  change (forallb _ _) with (Sampler._is_deterministic cfg) in R.
  rewrite D in R.
  sample_step E1. sample_step E2. sample_step E3. sample_step E4.
  sample_step E5. sample_step E6. sample_step E7. sample_step E8.
  sample_step E9.
  injection R as <- <-. cbn. unfold drawn.
  repeat split; eauto.
Qed.

(** The test of the rejection loop, read as a band of multipliers. *)
Lemma interval_in_band (mean lo hi v : Q) :
  lo <= 1 <= hi -> mean * lo <= v <= mean * hi -> in_band mean lo hi v.
Proof.
  intros [L1 H1] [Lo Hi].
  destruct (Q_dec mean 0) as [[Neg|Pos]|Zero].
  - exists lo. split; [split; [apply Qle_refl | lra]|].
    assert (mean * hi <= mean * lo) by nra.
    nra.
  - exists (v / mean). split; [split|].
    + apply Qle_shift_div_l; [exact Pos | lra].
    + apply Qle_shift_div_r; [exact Pos | lra].
    + field. lra.
  - exists 1. split; [now split|].
    rewrite Zero in *. lra.
Qed.

(** For a mean that is not negative the band is the interval from [lo] times
    the mean to [hi] times the mean. *)
Lemma in_band_interval (mean lo hi v : Q) :
  0 <= mean -> in_band mean lo hi v -> lo * mean <= v <= hi * mean.
Proof.
  intros P (r & [Lo Hi] & ->). split; nra.
Qed.

Lemma drawn_in_band (fuel : nat) (mean variation lo hi v : Q) :
  lo <= 1 <= hi ->
  drawn fuel mean variation lo hi v -> in_band mean lo hi v.
Proof.
  intros B (g & h & E).
  destruct (sample_with_variation_cases _ _ _ _ _ _ _ _ E)
    as [(_ & -> & _)|(_ & I)].
  - exists 1. split; [exact B | ring].
  - now apply interval_in_band.
Qed.

Lemma in_band_of_one (lo hi v : Q) : in_band 1.0 lo hi v -> lo <= v <= hi.
Proof.
  intros (r & B & E). assert (v == r) by (rewrite E; field).
  lra.
Qed.

Lemma drawn_fixed (fuel : nat) (mean variation lo hi v : Q) :
  variation < 0.001 -> drawn fuel mean variation lo hi v -> v = mean.
Proof.
  intros V (g & h & E).
  rewrite sample_with_variation_fixed in E by exact V. congruence.
Qed.

Lemma sample_params_deterministic (cfg : AppConfig.t) (fuel : nat) (g : rng) :
  Sampler._is_deterministic cfg = true ->
  Sampler._sample_params cfg fuel g = Ok (configured_means cfg, g).
Proof.
  intro D. unfold Sampler._sample_params.
  change (forallb _ _) with (Sampler._is_deterministic cfg).
  rewrite D. reflexivity.
Qed.

(** C3.  The sampler is in deterministic mode exactly when each of the seven
    variation coefficients (CPM, CTR, CVR, eCPM, retention, pay rate,
    subscription retention) is below 0.001; in that mode it returns, without
    drawing from the generator, the parameter set whose every field is its
    configured mean and whose three multipliers are 1.0; otherwise it is in
    the other mode, where the organic ratio is perturbed and clamped. *)
Theorem deterministic_mode_returns_means (cfg : AppConfig.t) (fuel : nat)
    (g : rng) :
  let sim := simulation cfg in
  let all_negligible :=
    cpm_variation sim < 0.001 /\ ctr_variation sim < 0.001 /\
    cvr_variation sim < 0.001 /\ ecpm_variation sim < 0.001 /\
    retention_variation sim < 0.001 /\ pay_rate_variation sim < 0.001 /\
    sub_ret_variation sim < 0.001 in
  (Sampler._is_deterministic cfg = true <-> all_negligible) /\
  (all_negligible ->
   exists p,
     Sampler._sample_params cfg fuel g = Ok (p, g) /\
     SimulationParams.cpm p = UAMetrics.cpm (ua cfg) /\
     SimulationParams.ctr p = UAMetrics.ctr (ua cfg) /\
     SimulationParams.cvr p = UAMetrics.cvr (ua cfg) /\
     SimulationParams.organic_ratio p = UAMetrics.organic_ratio (ua cfg) /\
     SimulationParams.ecpm_d0 p = AdsMetrics.ecpm_d0 (ads cfg) /\
     SimulationParams.impressions_d0 p =
       AdsMetrics.impressions_per_dau_d0 (ads cfg) /\
     SimulationParams.ecpm_saturation_ratio p =
       AdsMetrics.ecpm_saturation_ratio (ads cfg) /\
     SimulationParams.impressions_saturation_ratio p =
       AdsMetrics.impressions_saturation_ratio (ads cfg) /\
     SimulationParams.decay_half_life p =
       AdsMetrics.decay_half_life_days (ads cfg) /\
     SimulationParams.retention_mult p = 1.0 /\
     SimulationParams.pay_rate_mult p = 1.0 /\
     SimulationParams.renewal_mult p = 1.0) /\
  (~ all_negligible ->
   forall p g',
     Sampler._sample_params cfg fuel g = Ok (p, g') ->
     exists noise,
       SimulationParams.organic_ratio p =
         Py.min 0.8
           (Py.max 0.05 (UAMetrics.organic_ratio (ua cfg) + noise))).
Proof.
  intros sim all_negligible. split; [apply is_deterministic_iff|]. split.
  - intro A. apply is_deterministic_iff in A.
    exists (configured_means cfg).
    split; [now apply sample_params_deterministic|]. cbn. repeat split.
  - intros N p g' R.
    destruct (Sampler._is_deterministic cfg) eqn:D.
    + exfalso. apply N, is_deterministic_iff, D.
    + now destruct (sample_params_stochastic _ _ _ _ _ D R)
        as (_ & _ & _ & S4 & _).
Qed.

(** C9.  In stochastic mode every parameter the sampler returns lies in its
    multiplicative band around the configured mean: it is the mean times a
    factor in [0.3, 2.0] for CPM, CTR, CVR, eCPM at D0 and impressions at D0,
    in [0.6, 1.5] for the retention multiplier, in [0.5, 2.0] for the
    pay-rate multiplier and in [0.97, 1.03] for the renewal multiplier (the
    mean of a multiplier is 1.0); the organic ratio lies in [0.05, 0.80]. *)
Theorem sampled_parameters_within_bands (cfg : AppConfig.t) (fuel : nat)
    (g g' : rng) (p : SimulationParams.t) :
  Sampler._is_deterministic cfg = false ->
  Sampler._sample_params cfg fuel g = Ok (p, g') ->
  in_band (UAMetrics.cpm (ua cfg)) 0.3 2.0 (SimulationParams.cpm p) /\
  in_band (UAMetrics.ctr (ua cfg)) 0.3 2.0 (SimulationParams.ctr p) /\
  in_band (UAMetrics.cvr (ua cfg)) 0.3 2.0 (SimulationParams.cvr p) /\
  in_band (AdsMetrics.ecpm_d0 (ads cfg)) 0.3 2.0
    (SimulationParams.ecpm_d0 p) /\
  in_band (AdsMetrics.impressions_per_dau_d0 (ads cfg)) 0.3 2.0
    (SimulationParams.impressions_d0 p) /\
  (0.6 <= SimulationParams.retention_mult p <= 1.5) /\
  (0.5 <= SimulationParams.pay_rate_mult p <= 2.0) /\
  (0.97 <= SimulationParams.renewal_mult p <= 1.03) /\
  (0.05 <= SimulationParams.organic_ratio p <= 0.80).
Proof.
  intros D R.
  destruct (sample_params_stochastic _ _ _ _ _ D R)
    as (S1 & S2 & S3 & (noise & S4) & S5 & S6 & S7 & S8 & S9).
  apply drawn_in_band in S1, S2, S3, S5, S6, S7, S8, S9;
    try (split; lra).
  apply in_band_of_one in S7, S8, S9.
  pose proof (organic_clamp (UAMetrics.organic_ratio (ua cfg) + noise)) as O.
  rewrite <- S4 in O. destruct O as [O1 O2].
  repeat split; try assumption; try tauto; lra.
Qed.

(** C10.  In stochastic mode a field whose own variation coefficient is
    below 0.001 comes back as exactly its configured mean (1.0 for a
    multiplier), and [sample_with_variation] takes nothing from the
    generator for it. *)
Theorem negligible_field_is_not_sampled (cfg : AppConfig.t) (fuel : nat)
    (g g' : rng) (p : SimulationParams.t) :
  Sampler._is_deterministic cfg = false ->
  Sampler._sample_params cfg fuel g = Ok (p, g') ->
  let sim := simulation cfg in
  (cpm_variation sim < 0.001 ->
   SimulationParams.cpm p = UAMetrics.cpm (ua cfg)) /\
  (ctr_variation sim < 0.001 ->
   SimulationParams.ctr p = UAMetrics.ctr (ua cfg)) /\
  (cvr_variation sim < 0.001 ->
   SimulationParams.cvr p = UAMetrics.cvr (ua cfg)) /\
  (ecpm_variation sim < 0.001 ->
   SimulationParams.ecpm_d0 p = AdsMetrics.ecpm_d0 (ads cfg) /\
   SimulationParams.impressions_d0 p =
     AdsMetrics.impressions_per_dau_d0 (ads cfg)) /\
  (retention_variation sim < 0.001 ->
   SimulationParams.retention_mult p = 1.0) /\
  (pay_rate_variation sim < 0.001 ->
   SimulationParams.pay_rate_mult p = 1.0) /\
  (sub_ret_variation sim < 0.001 ->
   SimulationParams.renewal_mult p = 1.0) /\
  (forall mean variation lo hi (s : rng),
     variation < 0.001 ->
     Sampler.sample_with_variation fuel mean variation lo hi s
     = Ok (mean, s)).
Proof.
  intros D R sim.
  destruct (sample_params_stochastic _ _ _ _ _ D R)
    as (S1 & S2 & S3 & _ & S5 & S6 & S7 & S8 & S9).
  repeat split; intros;
    try (eapply drawn_fixed; eassumption).
  now apply sample_with_variation_fixed.
Qed.

End SamplerTheorems.

(* ------------------------------------------------------------------ *)
(** ** The LTV accumulator: what in it can raise *)

Section AccumulatorFacts.
Context {libm : Libm}.
Import PyFacts AppConfig.

Lemma returns_ok {A : Type} (a : A) : returns (Ok a).
Proof. now exists a. Qed.

Lemma exponent_nonpos (day h : Z) :
  (0 < day)%Z -> (0 < h)%Z -> inject_Z (- day) / inject_Z h <= 0.
Proof.
  intros D H.
  assert (Ph : 0 < inject_Z h).
  { change 0 with (inject_Z 0). rewrite <- Zlt_Qlt. lia. }
  assert (Nd : inject_Z (- day) <= 0).
  { change 0 with (inject_Z 0). rewrite <- Zle_Qle. lia. }
  apply Qle_shift_div_r; [exact Ph|]. lra.
Qed.

(** With a positive half-life the exponent of the decay is not positive,
    so [math.exp] cannot overflow. *)
Lemma decay_returns (h d : Z) :
  (0 < h)%Z -> (0 < d)%Z ->
  (x <- Py.truediv_int (- d) h ;; Py.math_exp x)
  = Ok (exp (inject_Z (- d) / inject_Z h)).
Proof.
  intros H D. rewrite truediv_int_ok by lia. cbn [bind].
  apply math_exp_ok. pose proof (exponent_nonpos d h D H).
  assert (0 <= Py.exp_max_arg) by discriminate. lra.
Qed.

Lemma get_arpdau_at_day_returns (p : SimulationParams.t) (d : Z) :
  (0 < SimulationParams.decay_half_life p)%Z ->
  returns (SimulationParams.get_arpdau_at_day p d).
Proof.
  intro N. unfold SimulationParams.get_arpdau_at_day,
    SimulationParams.get_ecpm_at_day, SimulationParams.get_impressions_at_day.
  destruct (Z.leb_spec d 0) as [Le|Gt]; cbn [bind]; [apply returns_ok|].
  pose proof (decay_returns _ d N Gt) as E. cbn [bind] in E.
  destruct (Py.truediv_int (- d) (SimulationParams.decay_half_life p))
    as [x| |]; cbn [bind] in *; try discriminate E.
  rewrite E. cbn [bind]. apply returns_ok.
Qed.

Lemma _get_retention_at_day_returns (cfg : AppConfig.t) (d : Z) (m : Q) :
  (0 <= d)%Z -> returns (Simulator._get_retention_at_day cfg d m).
Proof.
  intro D. unfold Simulator._get_retention_at_day.
  pose proof (get_retention_at_day_returns (retention cfg) d D) as R.
  ok_step. apply returns_ok.
Qed.

Lemma get_renewal_rate_returns (plan : SubscriptionPlan.t) (cycle : Z) :
  (cycle <= 52)%Z ->
  returns (SubscriptionPlan.get_renewal_rate plan cycle).
Proof.
  intro C. unfold SubscriptionPlan.get_renewal_rate.
  destruct (36500 <=? _)%Z; [apply returns_ok|].
  destruct (cycle <=? 0)%Z; [apply returns_ok|].
  pose proof (get_retention_at_cycle_returns
                (SubscriptionPlan.sub_retention plan) cycle C) as R1.
  pose proof (get_retention_at_cycle_returns
                (SubscriptionPlan.sub_retention plan) (cycle - 1)
                ltac:(lia)) as R2.
  ok_step. ok_step.
  destruct (Py.le v0 0) eqn:L; [apply returns_ok|].
  rewrite truediv_ok; [apply returns_ok|].
  intro Z0. rewrite Z0 in L. discriminate L.
Qed.

Lemma renewals_returns (fuel : nat) (plan : SubscriptionPlan.t)
    (params : SimulationParams.t) (subs : Q) (days cycle next_day : Z)
    (current : Q) :
  (53 - cycle <= Z.of_nat fuel)%Z ->
  returns (Simulator.renewals fuel plan params subs days cycle next_day
             current).
Proof.
  revert cycle next_day current.
  induction fuel as [|fuel IH]; intros cycle next_day current F;
    cbn [Simulator.renewals].
  - replace (cycle <=? 52)%Z with false by (symmetry; apply Z.leb_gt; lia).
    rewrite andb_false_r. apply returns_ok.
  - destruct ((next_day <=? days)%Z && (cycle <=? 52)%Z)%bool eqn:T;
      [|apply returns_ok].
    apply andb_true_iff in T as [_ T]. apply Z.leb_le in T.
    pose proof (get_renewal_rate_returns plan cycle T) as R. ok_step.
    match goal with
    | |- context [Simulator.renewals fuel plan params subs days ?c ?n ?r] =>
        pose proof (IH c n r ltac:(lia)) as R'
    end.
    ok_step. apply returns_ok.
Qed.

Lemma plan_events_returns (cfg : AppConfig.t) (params : SimulationParams.t)
    (days : Z) (plan : SubscriptionPlan.t) :
  returns (Simulator.plan_events cfg params days plan).
Proof.
  unfold Simulator.plan_events.
  destruct (_ <=? days)%Z; [|apply returns_ok].
  destruct (_ <? 36500)%Z; [|apply returns_ok].
  match goal with
  | |- context [Simulator.renewals 52 plan params ?s days 1 ?n ?r] =>
      pose proof (renewals_returns 52 plan params s days 1 n r
                    ltac:(simpl; lia)) as R
  end.
  ok_step. apply returns_ok.
Qed.

Lemma all_events_returns (cfg : AppConfig.t) (params : SimulationParams.t)
    (days : Z) (plans : list SubscriptionPlan.t) :
  returns (Simulator.all_events cfg params days plans).
Proof.
  induction plans as [|plan plans IH]; cbn [Simulator.all_events];
    [apply returns_ok|].
  pose proof (plan_events_returns cfg params days plan) as R.
  ok_step. ok_step. apply returns_ok.
Qed.

Lemma iap_events_returns (cfg : AppConfig.t) (params : SimulationParams.t)
    (days : Z) :
  returns (Simulator.iap_events cfg params days).
Proof. apply all_events_returns. Qed.

(** C4.  A plan whose duration is at least 36500 days and whose first
    payment day is within the horizon contributes exactly one payment event,
    the first payment, whatever the horizon; no renewal is emitted. *)
Theorem lifetime_plan_pays_once (cfg : AppConfig.t)
    (params : SimulationParams.t) (days : Z) (plan : SubscriptionPlan.t) :
  let first_day :=
    (SubscriptionMetrics.exploitation_start_day (subscription cfg)
     + (if SubscriptionPlan.has_trial plan
        then SubscriptionPlan.trial_days plan else 0))%Z in
  let effective_pay_rate :=
    SubscriptionPlan.pay_rate plan * SimulationParams.pay_rate_mult params in
  let expected_subscribers :=
    if SubscriptionPlan.has_trial plan
    then effective_pay_rate * SubscriptionPlan.trial_to_paid_rate plan
    else effective_pay_rate in
  (36500 <= SubscriptionPlan.duration_days plan)%Z ->
  (first_day <= days)%Z ->
  Simulator.plan_events cfg params days plan
  = Ok [(first_day,
         expected_subscribers * 1.0 * SubscriptionPlan.price plan)].
Proof.
  intros first_day effective_pay_rate expected_subscribers Long F.
  unfold Simulator.plan_events.
  fold first_day. fold effective_pay_rate. fold expected_subscribers.
  replace (first_day <=? days)%Z with true by (symmetry; apply Z.leb_le; lia).
  replace (SubscriptionPlan.duration_days plan <? 36500)%Z with false
    by (symmetry; apply Z.ltb_ge; lia).
  reflexivity.
Qed.

End AccumulatorFacts.

Section CalculateLtv.
Context {libm : Libm}.
Import PyFacts AppConfig.

Lemma range_nonneg (n : Z) : Forall (fun d => (0 <= d)%Z) (Py.range n).
Proof.
  unfold Py.range. apply Forall_forall. intros d I.
  apply in_map_iff in I as (k & <- & _). lia.
Qed.

(** *** The ad-revenue loops *)

(** The ad loop returns when the ARPDAU of each of its days does. *)
Lemma iaa_sum_returns_when (cfg : AppConfig.t)
    (params : SimulationParams.t) (ds : list Z) (acc : Q) :
  Forall (fun d => (0 <= d)%Z) ds ->
  (forall d, In d ds ->
             returns (SimulationParams.get_arpdau_at_day params d)) ->
  returns (Simulator.iaa_sum cfg params ds acc).
Proof.
  intros F A. revert acc.
  induction F as [|d ds D F IH]; intro acc; cbn [Simulator.iaa_sum].
  - apply returns_ok.
  - pose proof (_get_retention_at_day_returns cfg d
                  (SimulationParams.retention_mult params) D) as R1.
    pose proof (A d (or_introl eq_refl)) as R2.
    ok_step. ok_step. apply IH. intros d' I. apply A. now right.
Qed.

Lemma iaa_sum_returns (cfg : AppConfig.t) (params : SimulationParams.t)
    (ds : list Z) (acc : Q) :
  (0 < SimulationParams.decay_half_life params)%Z ->
  Forall (fun d => (0 <= d)%Z) ds ->
  returns (Simulator.iaa_sum cfg params ds acc).
Proof.
  intros N F. apply iaa_sum_returns_when; [exact F|].
  intros d _. now apply get_arpdau_at_day_returns.
Qed.

Lemma keys_set (d : Py.dict) (k k' : Z) (v : Q) :
  In k' (Py.keys (Py.set d k v)) <-> k' = k \/ In k' (Py.keys d).
Proof.
  induction d as [|[a b] d IH]; cbn [Py.set Py.keys map fst In].
  - intuition.
  - destruct (Z.eqb_spec a k) as [->|N]; cbn [Py.keys map fst In].
    + intuition.
    + fold (Py.keys (Py.set d k v)). fold (Py.keys d).
      rewrite IH. intuition.
Qed.

(** The deterministic loop adds up the same terms as the stochastic one and
    keeps every milestone key. *)
Lemma iaa_loop_sum (cfg : AppConfig.t) (params : SimulationParams.t)
    (ds : list Z) (acc : Q) (marks : Py.dict) :
  match Simulator.iaa_sum cfg params ds acc with
  | Ok v =>
      exists marks',
        Simulator.iaa_loop cfg params ds acc marks = Ok (v, marks')
        /\ forall k, In k (Py.keys marks) -> In k (Py.keys marks')
  | Raise e => Simulator.iaa_loop cfg params ds acc marks = Raise e
  | OutOfFuel => Simulator.iaa_loop cfg params ds acc marks = OutOfFuel
  end.
Proof.
  revert acc marks.
  induction ds as [|d ds IH]; intros acc marks;
    cbn [Simulator.iaa_sum Simulator.iaa_loop].
  - exists marks. auto.
  - destruct (Simulator._get_retention_at_day cfg d _) as [r| |];
      cbn [bind]; try reflexivity.
    destruct (SimulationParams.get_arpdau_at_day params d) as [a| |];
      cbn [bind]; try reflexivity.
    match goal with
    | |- context [Simulator.iaa_loop cfg params ds ?c ?m] =>
        specialize (IH c m)
    end.
    destruct (Simulator.iaa_sum cfg params ds (acc + r * a)) as [v| |];
      try exact IH.
    destruct IH as (marks' & E & K). exists marks'. split; [exact E|].
    intros k I. apply K.
    destruct (Py.contains marks d); [|exact I].
    apply keys_set. now right.
Qed.

Lemma daily_loop_returns (cfg : AppConfig.t) (params : SimulationParams.t)
    (ds : list Z) (acc v : Q) :
  Simulator.iaa_sum cfg params ds acc = Ok v ->
  forall events ci cp net,
    returns (Simulator.daily_loop cfg params ds events ci cp net).
Proof.
  revert acc.
  induction ds as [|d ds IH]; intros acc S events ci cp net;
    cbn [Simulator.iaa_sum Simulator.daily_loop] in *.
  - apply returns_ok.
  - destruct (Simulator._get_retention_at_day cfg d _) as [r| |];
      cbn [bind] in *; try discriminate S.
    destruct (SimulationParams.get_arpdau_at_day params d) as [a| |];
      cbn [bind] in *; try discriminate S.
    destruct (Simulator.take_today events d 0 net) as [daily rest].
    match goal with
    | |- context [Simulator.daily_loop cfg params ds ?e ?a ?b ?n] =>
        pose proof (IH _ S e a b n) as R
    end.
    ok_step. apply returns_ok.
Qed.

(** *** The milestone table *)

Lemma iap_milestones_keys (ms : list Z) (events : list Simulator.event)
    (cum net : Q) (marks : Py.dict) (k : Z) :
  In k (Py.keys marks) ->
  In k (Py.keys (Simulator.iap_milestones ms events cum net marks)).
Proof.
  revert events cum marks.
  induction ms as [|m ms IH]; intros events cum marks I;
    cbn [Simulator.iap_milestones]; [exact I|].
  destruct (Simulator.take_due events m cum net) as [c rest].
  apply IH, keys_set. now right.
Qed.

Lemma milestone_breakdown_returns (ms : list Z) (days : Z)
    (a b : Py.dict) :
  (forall m, In m ms -> In m (Py.keys a) /\ In m (Py.keys b)) ->
  returns (Simulator.milestone_breakdown ms days a b).
Proof.
  induction ms as [|m ms IH]; intro K;
    cbn [Simulator.milestone_breakdown]; [apply returns_ok|].
  assert (R : returns (Simulator.milestone_breakdown ms days a b)).
  { apply IH. intros x I. apply K. now right. }
  destruct (m <=? days)%Z; [|exact R].
  destruct (K m (or_introl eq_refl)) as [Ka Kb].
  pose proof (getitem_in_keys _ _ Ka) as Ra.
  pose proof (getitem_in_keys _ _ Kb) as Rb.
  ok_step. ok_step. ok_step. apply returns_ok.
Qed.

(** *** The cost per install *)

(** With a CTR or a CVR of zero the paid CPI is infinite, without any
    division.  Otherwise it is the quotient, provided the two products of
    the divisor and the quotient itself are within the range of the normal
    doubles. *)
Lemma cpi_paid_spec (p : SimulationParams.t) :
  (SimulationParams.ctr p == 0 \/ SimulationParams.cvr p == 0 ->
   SimulationParams.cpi_paid p = Ok PInf) /\
  (~ SimulationParams.ctr p == 0 -> ~ SimulationParams.cvr p == 0 ->
   F.normal (1000 * SimulationParams.ctr p) ->
   F.normal (1000 * SimulationParams.ctr p * SimulationParams.cvr p) ->
   F.normal (SimulationParams.cpm p
             / (1000 * SimulationParams.ctr p * SimulationParams.cvr p)) ->
   SimulationParams.cpi_paid p =
     Ok (Fin (SimulationParams.cpm p
              / (1000 * SimulationParams.ctr p * SimulationParams.cvr p)))).
Proof.
  unfold SimulationParams.cpi_paid. split.
  - intros [Z0|Z0]; apply eq_true in Z0; rewrite Z0;
      [|rewrite orb_true_r]; reflexivity.
  - intros N1 N2 R1 R2 R3. pose proof N1 as B1. pose proof N2 as B2.
    apply eq_false in B1, B2. rewrite B1, B2. cbn [orb F.times].
    rewrite (range_normal _ R1). cbn [F.times].
    rewrite (range_normal _ R2). cbn [F.div].
    replace (Py.eq (1000 * SimulationParams.ctr p * SimulationParams.cvr p) 0)
      with false.
    + now rewrite (range_normal _ R3).
    + symmetry. apply eq_false. intro Z0.
      apply Qmult_integral in Z0 as [Z0|Z0]; [|contradiction].
      apply Qmult_integral in Z0 as [Z0|Z0]; [discriminate Z0|contradiction].
Qed.


Lemma inf_times_not_nan (positive : bool) (q : Q) :
  ~ q == 0 -> F.is_infinite (F.inf_times positive q).
Proof.
  intro N. unfold F.inf_times, F.is_infinite.
  destruct (q ?= 0) eqn:C.
  - apply Qeq_alt in C. contradiction.
  - destruct positive; auto.
  - destruct positive; auto.
Qed.

(** Whatever the paid CPI is when it is returned, it is not NaN, and with
    a CPM of zero and a CTR and CVR that are not zero it is zero. *)
Lemma cpi_paid_cases (p : SimulationParams.t) (c : pyfloat) :
  SimulationParams.cpi_paid p = Ok c ->
  c <> NaN /\
  (SimulationParams.cpm p == 0 ->
   ~ SimulationParams.ctr p == 0 -> ~ SimulationParams.cvr p == 0 ->
   exists q, c = Fin q /\ q == 0).
Proof.
  unfold SimulationParams.cpi_paid.
  destruct (Py.eq (SimulationParams.ctr p) 0) eqn:B1; cbn [orb].
  { intro E. injection E as <-. split; [discriminate|].
    intros _ N. apply eq_true in B1. contradiction. }
  destruct (Py.eq (SimulationParams.cvr p) 0) eqn:B2.
  { intro E. injection E as <-. split; [discriminate|].
    intros _ _ N. apply eq_true in B2. contradiction. }
  apply eq_false in B2.
  set (d := F.times (F.times (Fin 1000) (SimulationParams.ctr p))
              (SimulationParams.cvr p)).
  assert (D : d <> NaN).
  { unfold d. cbn [F.times].
    destruct (range_cases (1000 * SimulationParams.ctr p))
      as [[-> _]|[[-> _]|[[-> _]|[-> _]]]]; cbn [F.times F.mul].
    - destruct (inf_times_not_nan true _ B2) as [-> | ->]; discriminate.
    - destruct (inf_times_not_nan false _ B2) as [-> | ->]; discriminate.
    - destruct (range_cases (0 * SimulationParams.cvr p))
        as [[-> _]|[[-> _]|[[-> _]|[-> _]]]]; discriminate.
    - destruct (range_cases (1000 * SimulationParams.ctr p
                             * SimulationParams.cvr p))
        as [[-> _]|[[-> _]|[[-> _]|[-> _]]]]; discriminate. }
  destruct d as [y| | |]; cbn [F.div]; try contradiction.
  - destruct (Py.eq y 0) eqn:Y; [discriminate|].
    intro E. injection E as <-.
    destruct (range_cases (SimulationParams.cpm p / y))
      as [[R H]|[[R H]|[[R H]|[R H]]]]; rewrite R;
      (split; [discriminate|]); intros Z0 _ _.
    + exfalso. rewrite Z0 in H. unfold Qdiv in H. rewrite Qmult_0_l in H.
      pose proof float_max_large. lra.
    + exfalso. rewrite Z0 in H. unfold Qdiv in H. rewrite Qmult_0_l in H.
      pose proof float_max_large. lra.
    + exists 0. split; reflexivity.
    + exists (SimulationParams.cpm p / y). split; [reflexivity|].
      rewrite Z0. unfold Qdiv. apply Qmult_0_l.
  - intro E. injection E as <-. split; [discriminate|].
    intros _ _ _. exists 0. split; reflexivity.
  - intro E. injection E as <-. split; [discriminate|].
    intros _ _ _. exists 0. split; reflexivity.
Qed.

Lemma blended_cpi_returns (p : SimulationParams.t) :
  returns (SimulationParams.cpi_paid p) ->
  returns (SimulationParams.blended_cpi p).
Proof.
  intro R. unfold SimulationParams.blended_cpi. ok_step. apply returns_ok.
Qed.

(** *** [_calculate_ltv] *)

Lemma calculate_ltv_returns (cfg : AppConfig.t)
    (params : SimulationParams.t) (days : Z) (iaa : Q) :
  Simulator.iaa_sum cfg params (Py.range (days + 1)) 0 = Ok iaa ->
  returns (SimulationParams.cpi_paid params) ->
  exists r events,
    Simulator._calculate_ltv cfg params days = Ok r /\
    Simulator.iap_events cfg params days = Ok events /\
    LtvResult.ltv_iaa r = iaa /\
    LtvResult.ltv_iap r =
      Py.sum (billed cfg events)
      * (1 - SubscriptionMetrics.platform_fee_rate (subscription cfg)) /\
    LtvResult.ltv_total r = LtvResult.ltv_iaa r + LtvResult.ltv_iap r /\
    SimulationParams.blended_cpi params = Ok (LtvResult.blended_cpi r) /\
    SimulationParams.cpi_paid params = Ok (LtvResult.cpi_paid r).
Proof.
  intros S Rc. unfold Simulator._calculate_ltv, billed.
  destruct (iap_events_returns cfg params days) as [events Ev].
  destruct (blended_cpi_returns params Rc) as [b Eb].
  destruct Rc as [c Ec].
  destruct (Sampler._is_deterministic cfg).
  - pose proof (iaa_loop_sum cfg params (Py.range (days + 1)) 0
                  (map (fun m => (m, 0)) Simulator.milestones)) as K.
    rewrite S in K. destruct K as (marks' & -> & K). cbn [bind].
    rewrite Ev. cbn [bind].
    match goal with
    | |- context [Simulator.milestone_breakdown ?ms days ?a ?b] =>
        assert (R : returns (Simulator.milestone_breakdown ms days a b))
    end.
    { apply milestone_breakdown_returns. intros m I.
      apply in_sorted in I.
      assert (I0 : In m (Py.keys (map (fun m => (m, 0))
                                    Simulator.milestones))).
      { unfold Py.keys. rewrite map_map. cbn [fst]. now rewrite map_id. }
      split; [now apply K | now apply iap_milestones_keys]. }
    ok_step. rewrite Eb, Ec. cbn [bind].
    eexists. exists events. repeat split.
  - rewrite S. cbn [bind]. rewrite Ev. cbn [bind].
    match goal with
    | |- context [Simulator.daily_loop cfg params ?ds ?e ?a ?b ?n] =>
        pose proof (daily_loop_returns cfg params ds 0 iaa S e a b n) as R
    end.
    ok_step. rewrite Eb, Ec. cbn [bind].
    eexists. exists events. repeat split.
Qed.

(** The CPIs of a result are those of the parameter set. *)
Lemma calculate_ltv_cpi (cfg : AppConfig.t) (p : SimulationParams.t)
    (days : Z) (r : LtvResult.t) :
  Simulator._calculate_ltv cfg p days = Ok r ->
  SimulationParams.blended_cpi p = Ok (LtvResult.blended_cpi r) /\
  SimulationParams.cpi_paid p = Ok (LtvResult.cpi_paid r).
Proof.
  intro E. unfold Simulator._calculate_ltv in E.
  destruct (Sampler._is_deterministic cfg).
  - destruct (Simulator.iaa_loop cfg p _ 0 _) as [[iaa marks]| |];
      cbn [bind] in E; try discriminate E.
    destruct (Simulator.iap_events cfg p days) as [events| |];
      cbn [bind] in E; try discriminate E.
    destruct (Simulator.milestone_breakdown _ _ _ _) as [rows| |];
      cbn [bind] in E; try discriminate E.
    destruct (SimulationParams.blended_cpi p) as [b| |];
      cbn [bind] in E; try discriminate E.
    destruct (SimulationParams.cpi_paid p) as [c| |];
      cbn [bind] in E; try discriminate E.
    injection E as <-. split; reflexivity.
  - destruct (Simulator.iaa_sum cfg p _ 0) as [iaa| |];
      cbn [bind] in E; try discriminate E.
    destruct (Simulator.iap_events cfg p days) as [events| |];
      cbn [bind] in E; try discriminate E.
    destruct (Simulator.daily_loop _ _ _ _ _ _ _) as [rows| |];
      cbn [bind] in E; try discriminate E.
    destruct (SimulationParams.blended_cpi p) as [b| |];
      cbn [bind] in E; try discriminate E.
    destruct (SimulationParams.cpi_paid p) as [c| |];
      cbn [bind] in E; try discriminate E.
    injection E as <-. split; reflexivity.
Qed.

Lemma calculate_ltv_cpi_returns (cfg : AppConfig.t)
    (p : SimulationParams.t) (days : Z) (r : LtvResult.t) :
  Simulator._calculate_ltv cfg p days = Ok r ->
  returns (SimulationParams.cpi_paid p).
Proof.
  intro E. destruct (calculate_ltv_cpi cfg p days r E) as [_ C].
  now exists (LtvResult.cpi_paid r).
Qed.

Lemma calculate_ltv_inv (cfg : AppConfig.t)
    (params : SimulationParams.t) (days : Z) (r : LtvResult.t) :
  Simulator._calculate_ltv cfg params days = Ok r ->
  Simulator.iaa_sum cfg params (Py.range (days + 1)) 0
  = Ok (LtvResult.ltv_iaa r).
Proof.
  intro E.
  destruct (Simulator.iaa_sum cfg params (Py.range (days + 1)) 0)
    as [iaa| |] eqn:S.
  - destruct (calculate_ltv_returns cfg params days iaa S
                (calculate_ltv_cpi_returns _ _ _ _ E))
      as (r' & _ & E' & _ & <- & _).
    congruence.
  - exfalso. unfold Simulator._calculate_ltv in E.
    pose proof (iaa_loop_sum cfg params (Py.range (days + 1)) 0
                  (map (fun m => (m, 0)) Simulator.milestones)) as K.
    rewrite S in K.
    destruct (Sampler._is_deterministic cfg);
      [rewrite K in E | rewrite S in E]; discriminate E.
  - exfalso. unfold Simulator._calculate_ltv in E.
    pose proof (iaa_loop_sum cfg params (Py.range (days + 1)) 0
                  (map (fun m => (m, 0)) Simulator.milestones)) as K.
    rewrite S in K.
    destruct (Sampler._is_deterministic cfg);
      [rewrite K in E | rewrite S in E]; discriminate E.
Qed.

(** With a positive half-life the accumulator returns as soon as the paid
    CPI does. *)
Lemma calculate_ltv_total (cfg : AppConfig.t)
    (params : SimulationParams.t) (days : Z) :
  (0 < SimulationParams.decay_half_life params)%Z ->
  returns (SimulationParams.cpi_paid params) ->
  returns (Simulator._calculate_ltv cfg params days).
Proof.
  intros N Rc.
  destruct (iaa_sum_returns cfg params (Py.range (days + 1)) 0 N
              (range_nonneg _)) as [iaa S].
  destruct (calculate_ltv_returns cfg params days iaa S Rc)
    as (r & _ & E & _).
  now exists r.
Qed.

End CalculateLtv.

(* ------------------------------------------------------------------ *)
(** ** Sums of payment events *)

Section Sums.

Lemma fold_left_Qplus_acc (l : list Q) (a : Q) :
  fold_left Qplus l a == a + fold_left Qplus l 0.
Proof.
  revert a. induction l as [|x l IH]; intro a; cbn [fold_left].
  - ring.
  - rewrite (IH (a + x)), (IH (0 + x)). ring.
Qed.

Lemma sum_cons (x : Q) (l : list Q) : Py.sum (x :: l) == x + Py.sum l.
Proof.
  unfold Py.sum. cbn [fold_left]. rewrite fold_left_Qplus_acc. ring.
Qed.

Lemma sum_nil : Py.sum [] == 0.
Proof. reflexivity. Qed.

Lemma sum_scaled (k : Q) (l : list Simulator.event) :
  Py.sum (map (fun e => snd e * k) l) == Py.sum (map snd l) * k.
Proof.
  induction l as [|e l IH]; cbn [map].
  - rewrite sum_nil. ring.
  - rewrite !sum_cons, IH. ring.
Qed.

Lemma sum_insert_event (e : Simulator.event) (l : list Simulator.event) :
  Py.sum (map snd (Simulator.insert_event e l))
  == snd e + Py.sum (map snd l).
Proof.
  induction l as [|e' l IH]; cbn [Simulator.insert_event map].
  - apply sum_cons.
  - destruct (fst e <=? fst e')%Z; cbn [map].
    + rewrite !sum_cons. reflexivity.
    + rewrite !sum_cons, IH. ring.
Qed.

(** Sorting the events by day does not change what they add up to. *)
Lemma sum_sort_events (l : list Simulator.event) :
  Py.sum (map snd (Simulator.sort_events l)) == Py.sum (map snd l).
Proof.
  induction l as [|e l IH]; cbn [Simulator.sort_events fold_right map].
  - reflexivity.
  - fold (Simulator.sort_events l).
    rewrite sum_insert_event, sum_cons, IH. reflexivity.
Qed.

Lemma sum_billed (cfg : AppConfig.t) (l : list Simulator.event) :
  Py.sum (billed cfg l) == Py.sum (map snd l).
Proof.
  unfold billed. destruct (Sampler._is_deterministic cfg);
    [apply sum_sort_events | reflexivity].
Qed.

End Sums.

Section PlatformFee.
Context {libm : Libm}.
Import Examples.

(** The fee is read only where the revenue is netted. *)
Lemma iaa_sum_fee (cfg : AppConfig.t) (params : SimulationParams.t)
    (f : Q) (ds : list Z) (acc : Q) :
  Simulator.iaa_sum (with_platform_fee cfg f) params ds acc
  = Simulator.iaa_sum cfg params ds acc.
Proof.
  revert acc. induction ds as [|d ds IH]; intro acc;
    cbn [Simulator.iaa_sum]; [reflexivity|].
  change (Simulator._get_retention_at_day (with_platform_fee cfg f))
    with (Simulator._get_retention_at_day cfg).
  destruct (Simulator._get_retention_at_day cfg d _); cbn [bind];
    try reflexivity.
  destruct (SimulationParams.get_arpdau_at_day params d); cbn [bind];
    try reflexivity.
  apply IH.
Qed.

Lemma iap_events_fee (cfg : AppConfig.t) (params : SimulationParams.t)
    (f : Q) (days : Z) :
  Simulator.iap_events (with_platform_fee cfg f) params days
  = Simulator.iap_events cfg params days.
Proof.
  unfold Simulator.iap_events.
  change (SubscriptionMetrics.get_all_plans
            (AppConfig.subscription (with_platform_fee cfg f)))
    with (SubscriptionMetrics.get_all_plans (AppConfig.subscription cfg)).
  induction (SubscriptionMetrics.get_all_plans (AppConfig.subscription cfg))
    as [|plan plans IH]; cbn [Simulator.all_events]; [reflexivity|].
  rewrite IH. reflexivity.
Qed.

(** C5.  Whenever the accumulator returns for a parameter set and a
    horizon, the subscription LTV it reports under platform fee [f] is
    [(1 - f)] times the one it reports under fee 0, which is the plain sum of
    the payment events; equivalently every event's amount is multiplied by
    [(1 - f)]. *)
Theorem platform_fee_scales_subscription_ltv (cfg : AppConfig.t)
    (params : SimulationParams.t) (days : Z) (f : Q) :
  returns (Simulator._calculate_ltv (with_platform_fee cfg 0) params days) ->
  exists gross net events,
    Simulator._calculate_ltv (with_platform_fee cfg 0) params days
    = Ok gross /\
    Simulator._calculate_ltv (with_platform_fee cfg f) params days
    = Ok net /\
    Simulator.iap_events cfg params days = Ok events /\
    LtvResult.ltv_iap gross == Py.sum (map snd events) /\
    LtvResult.ltv_iap net == (1 - f) * LtvResult.ltv_iap gross /\
    LtvResult.ltv_iap net == Py.sum (map (fun e => snd e * (1 - f)) events).
Proof.
  intros [gross G].
  pose proof (calculate_ltv_inv _ _ _ _ G) as S.
  pose proof (calculate_ltv_cpi_returns _ _ _ _ G) as Rc.
  destruct (calculate_ltv_returns (with_platform_fee cfg 0) params days _ S
              Rc)
    as (gross' & events & G' & Ev & _ & Iap0 & _).
  assert (gross' = gross) by congruence. subst gross'.
  rewrite iaa_sum_fee in S. rewrite <- (iaa_sum_fee cfg params f) in S.
  destruct (calculate_ltv_returns (with_platform_fee cfg f) params days _ S
              Rc)
    as (net & events' & N & Ev' & _ & Iap & _).
  rewrite iap_events_fee in Ev, Ev'.
  assert (events' = events) by congruence. subst events'.
  change (billed (with_platform_fee cfg f) events)
    with (billed cfg events) in Iap.
  change (billed (with_platform_fee cfg 0) events)
    with (billed cfg events) in Iap0.
  cbn [with_platform_fee AppConfig.subscription
         SubscriptionMetrics.platform_fee_rate] in Iap, Iap0.
  exists gross, net, events. repeat split; try assumption.
  - rewrite Iap0, sum_billed. ring.
  - rewrite Iap, Iap0. ring.
  - rewrite Iap, sum_billed, sum_scaled. reflexivity.
Qed.

End PlatformFee.

(* ------------------------------------------------------------------ *)
(** ** The end-to-end scenario *)

Section EndToEnd.
Context {libm : Libm}.
Import Examples.

Lemma end_to_end_events_14 (fee c2 : Q) :
  Simulator.iap_events (end_to_end fee c2) end_to_end_params 14
  = Ok [ (0%Z, 0.02 * 1.0 * 1.0 * 2.99);
         (7%Z, 0.02 * 1.0 * (1.0 * (0.50 / 1.00 * 1.0)) * 2.99);
         (14%Z, 0.02 * 1.0
              * (1.0 * (0.50 / 1.00 * 1.0) * (c2 / 0.50 * 1.0)) * 2.99);
         (7%Z, 0 * 1.0 * 0.20 * 1.0 * 9.99);
         (7%Z, 0 * 1.0 * 0.25 * 1.0 * 49.99);
         (0%Z, 0 * 1.0 * 1.0 * 99.99) ].
Proof. cbv -[Qmult Qplus Qdiv Qminus Qinv]. reflexivity. Qed.

Lemma end_to_end_events_13 (fee c2 : Q) :
  Simulator.iap_events (end_to_end fee c2) end_to_end_params 13
  = Ok [ (0%Z, 0.02 * 1.0 * 1.0 * 2.99);
         (7%Z, 0.02 * 1.0 * (1.0 * (0.50 / 1.00 * 1.0)) * 2.99);
         (7%Z, 0 * 1.0 * 0.20 * 1.0 * 9.99);
         (7%Z, 0 * 1.0 * 0.25 * 1.0 * 49.99);
         (0%Z, 0 * 1.0 * 1.0 * 99.99) ].
Proof. cbv -[Qmult Qplus Qdiv Qminus Qinv]. reflexivity. Qed.

Lemma end_to_end_ltv (fee c2 : Q) (days : Z) :
  exists r events,
    Simulator._calculate_ltv (end_to_end fee c2) end_to_end_params days
    = Ok r /\
    Simulator.iap_events (end_to_end fee c2) end_to_end_params days
    = Ok events /\
    LtvResult.ltv_iap r == Py.sum (map snd events) * (1 - fee).
Proof.
  assert (Rc : returns (SimulationParams.cpi_paid end_to_end_params))
    by (eexists; reflexivity).
  destruct (calculate_ltv_total (end_to_end fee c2) end_to_end_params days)
    as [r E]; [reflexivity | exact Rc |].
  pose proof (calculate_ltv_inv _ _ _ _ E) as S.
  destruct (calculate_ltv_returns _ _ _ _ S Rc)
    as (r' & events & E' & Ev & _ & Iap & _).
  assert (r' = r) by congruence. subst r'.
  exists r, events. repeat split; try assumption.
  rewrite Iap, sum_billed. reflexivity.
Qed.

End EndToEnd.

Section EndToEndTheorems.
Import Examples.

(** C1, amended.  In the end-to-end scenario (CPM 5.0, CTR 2%, CVR 25%,
    organic 30%, no variation, one weekly plan at 2.99 with pay rate 2%, no
    trial, retention 50% at cycle 1 and [c2] at cycle 2, exploitation from
    day 0) the sampler returns the configured means, [cpi_paid] is 1.00 and
    [blended_cpi] is 0.70.  At horizon 14 the weekly plan is billed three
    times, on days 0, 7 and 14 (the horizon day counts), so the gross
    subscription LTV is 0.0897 + 0.02 * c2 * 2.99 and the net, after the 30%
    fee, 0.70 times that.  The figures 0.0897 and 0.06279 are the gross and
    net values at horizon 13. *)
Theorem end_to_end_scenario (libm : Libm) (c2 : Q) :
  (forall fee fuel g,
     Sampler._sample_params (end_to_end fee c2) fuel g
     = Ok (end_to_end_params, g)) /\
  (exists q,
     SimulationParams.cpi_paid end_to_end_params = Ok (Fin q)
     /\ q == 1.00) /\
  (exists q,
     SimulationParams.blended_cpi end_to_end_params = Ok (Fin q)
     /\ q == 0.70) /\
  (exists a0 a1 a2,
     Simulator.plan_events (end_to_end 0 c2) end_to_end_params 14
       (SubscriptionMetrics.weekly
          (AppConfig.subscription (end_to_end 0 c2)))
     = Ok [(0%Z, a0); (7%Z, a1); (14%Z, a2)]
     /\ a0 == 0.0598 /\ a1 == 0.0299 /\ a2 == 0.02 * c2 * 2.99) /\
  (exists gross net,
     Simulator._calculate_ltv (end_to_end 0 c2) end_to_end_params 14
     = Ok gross /\
     Simulator._calculate_ltv (end_to_end 0.30 c2) end_to_end_params 14
     = Ok net /\
     LtvResult.ltv_iap gross == 0.0897 + 0.02 * c2 * 2.99 /\
     LtvResult.ltv_iap net == 0.06279 + 0.70 * (0.02 * c2 * 2.99)) /\
  (exists gross net,
     Simulator._calculate_ltv (end_to_end 0 c2) end_to_end_params 13
     = Ok gross /\
     Simulator._calculate_ltv (end_to_end 0.30 c2) end_to_end_params 13
     = Ok net /\
     LtvResult.ltv_iap gross == 0.0897 /\
     LtvResult.ltv_iap net == 0.06279).
Proof.
  split; [reflexivity|].
  split; [eexists; split; [reflexivity | vm_compute; reflexivity]|].
  split; [eexists; split; [reflexivity | vm_compute; reflexivity]|].
  split.
  { do 3 eexists. split.
    - cbv -[Qmult Qplus Qdiv Qminus Qinv]. reflexivity.
    - repeat split; field. }
  split.
  - destruct (end_to_end_ltv 0 c2 14) as (gross & ev0 & G & Ev0 & I0).
    destruct (end_to_end_ltv 0.30 c2 14) as (net & ev1 & N & Ev1 & I1).
    rewrite end_to_end_events_14 in Ev0, Ev1.
    injection Ev0 as <-. injection Ev1 as <-.
    exists gross, net. repeat split; try assumption.
    + rewrite I0. cbn [map snd]. rewrite !sum_cons, sum_nil. field.
    + rewrite I1. cbn [map snd]. rewrite !sum_cons, sum_nil. field.
  - destruct (end_to_end_ltv 0 c2 13) as (gross & ev0 & G & Ev0 & I0).
    destruct (end_to_end_ltv 0.30 c2 13) as (net & ev1 & N & Ev1 & I1).
    rewrite end_to_end_events_13 in Ev0, Ev1.
    injection Ev0 as <-. injection Ev1 as <-.
    exists gross, net. repeat split; try assumption.
    + rewrite I0. cbn [map snd]. rewrite !sum_cons, sum_nil. field.
    + rewrite I1. cbn [map snd]. rewrite !sum_cons, sum_nil. field.
Qed.

(** C1 as stated, on the stock weekly curve (42% at cycle 2): at horizon 14
    the payments that are not zero fall on days 0, 7 and 14, the gross
    subscription LTV is 0.114816, not 0.0897, and the net 0.0803712, not
    0.06279. *)
Lemma end_to_end_day_14_counterexample :
  exists gross net,
    Simulator._calculate_ltv (L := rational_libm) (end_to_end 0 0.42)
      end_to_end_params 14 = Ok gross /\
    Simulator._calculate_ltv (L := rational_libm) (end_to_end 0.30 0.42)
      end_to_end_params 14 = Ok net /\
    map fst
      (filter (fun e => negb (Py.eq (snd e) 0))
         (match Simulator.iap_events (L := rational_libm)
                  (end_to_end 0 0.42) end_to_end_params 14 with
          | Ok events => events
          | _ => []
          end)) = [0; 7; 14]%Z /\
    LtvResult.ltv_iap gross == 0.114816 /\
    ~ LtvResult.ltv_iap gross == 0.0897 /\
    LtvResult.ltv_iap net == 0.0803712 /\
    ~ LtvResult.ltv_iap net == 0.06279.
Proof.
  do 2 eexists.
  split; [vm_compute; reflexivity|].
  split; [vm_compute; reflexivity|].
  split; [vm_compute; reflexivity|].
  cbn [LtvResult.ltv_iap].
  repeat split; try (vm_compute; reflexivity);
    intro K; vm_compute in K; discriminate K.
Qed.

End EndToEndTheorems.

(* ------------------------------------------------------------------ *)
(** ** The driver *)

Section Driver.
Context {libm : Libm}.
Import PyFacts AppConfig.

(** *** When the blended cost is infinite *)




(** *** One scenario *)

Lemma scenario_of_spec (params : SimulationParams.t) (r : LtvResult.t)
    (sc : Scenario.t) :
  Simulator.scenario_of params r = Ok sc ->
  Scenario.blended_cpi sc = LtvResult.blended_cpi r /\
  Scenario.cpi_paid sc = LtvResult.cpi_paid r /\
  Scenario.ltv_total sc = LtvResult.ltv_total r /\
  Scenario.organic_ratio sc = SimulationParams.organic_ratio params /\
  roas_consistent sc.
Proof.
  unfold Simulator.scenario_of. intro E.
  match type of E with
  | bind ?m _ = _ =>
      destruct m as [roas| |] eqn:R; cbn [bind] in E; try discriminate E
  end.
  match type of E with
  | bind ?m _ = _ =>
      destruct m as [curve| |]; cbn [bind] in E; try discriminate E
  end.
  injection E as <-. unfold roas_consistent, F.finite_positive. cbn.
  repeat split.
  - intros q [B P]. rewrite B in R.
    cbn [F.gt0 F.ne_inf F.rdiv] in R.
    pose proof P as P'. apply lt_true in P'. rewrite P' in R.
    cbn [andb] in R.
    rewrite truediv_ok in R
      by (intro Z0; rewrite Z0 in P; exact (Qlt_irrefl _ P)).
    cbn [bind] in R. congruence.
  - intros [B|B]; rewrite B in R; cbn in R; congruence.
  - intro B. rewrite B in R. cbn in R. congruence.
Qed.

Lemma closest_before_in (l : list Z) (m c : Z) :
  Simulator.closest_before l m c = c
  \/ In (Simulator.closest_before l m c) l.
Proof.
  revert c. induction l as [|d l IH]; intro c;
    cbn [Simulator.closest_before]; [now left|].
  destruct (d <=? m)%Z; [|now left].
  destruct (IH d) as [->|I]; right; [now left | now right].
Qed.

Lemma cumulative_ltv_at_returns (by_day : Py.dict) (m : Z) :
  returns (Simulator.cumulative_ltv_at by_day m).
Proof.
  unfold Simulator.cumulative_ltv_at.
  destruct (Py.contains by_day m) eqn:C.
  - apply getitem_in_keys, contains_true, C.
  - destruct (Z.eqb_spec
                (Simulator.closest_before (Py.sorted (Py.keys by_day)) m
                   (-1)) (-1)) as [_|N]; cbn [negb];
      [apply returns_ok|].
    apply getitem_in_keys.
    destruct (closest_before_in (Py.sorted (Py.keys by_day)) m (-1))
      as [K|K]; [contradiction | now apply in_sorted].
Qed.

Lemma roas_curve_of_returns (ms : list Z) (by_day : Py.dict) (q : Q) :
  0 < q -> returns (Simulator.roas_curve_of ms by_day (Fin q)).
Proof.
  intro P. induction ms as [|m ms IH]; cbn [Simulator.roas_curve_of];
    [apply returns_ok|].
  pose proof (cumulative_ltv_at_returns by_day m) as R. ok_step.
  cbn [F.rdiv].
  rewrite truediv_ok
    by (intro Z0; rewrite Z0 in P; exact (Qlt_irrefl _ P)).
  cbn [bind]. ok_step. apply returns_ok.
Qed.

Lemma scenario_of_returns (params : SimulationParams.t) (r : LtvResult.t) :
  returns (Simulator.scenario_of params r).
Proof.
  unfold Simulator.scenario_of.
  destruct (LtvResult.blended_cpi r) as [q| | |];
    cbn [F.gt0 F.ne_inf andb bind]; try apply returns_ok.
  destruct (Py.lt 0 q) eqn:P; cbn [andb bind]; [|apply returns_ok].
  apply lt_true in P. cbn [F.rdiv].
  rewrite truediv_ok
    by (intro Z0; rewrite Z0 in P; exact (Qlt_irrefl _ P)).
  cbn [bind].
  pose proof (roas_curve_of_returns Simulator.milestones
                (Simulator.breakdown_by_day (LtvResult.daily_breakdown r))
                q P) as R.
  ok_step. apply returns_ok.
Qed.

(** *** The loop *)



End Driver.

Section DriverTheorems.
Import Examples AppConfig.



End DriverTheorems.

(* ------------------------------------------------------------------ *)
(** ** Further properties of the engine *)

(* ------------------------------------------------------------------ *)
(** ** Further properties of the accumulator *)

Section RetentionClamp.
Context {libm : Libm}.

(** X1.  The retention the ad loop multiplies by is clamped: for every day
    from 0 on and every multiplier, [_get_retention_at_day] returns a value
    between 0.0001 and 1. *)
Theorem adjusted_retention_is_clamped (cfg : AppConfig.t) (day : Z)
    (retention_mult : Q) :
  (0 <= day)%Z ->
  exists v,
    Simulator._get_retention_at_day cfg day retention_mult = Ok v
    /\ 0.0001 <= v <= 1.0.
Proof.
  intro D. unfold Simulator._get_retention_at_day.
  destruct (get_retention_at_day_returns (AppConfig.retention cfg) day D)
    as [base ->].
  cbn [bind]. eexists. split; [reflexivity|]. split.
  - apply PyFacts.min_lower; [lra | apply PyFacts.max_lower].
  - apply PyFacts.min_upper.
Qed.

End RetentionClamp.

Section HalfLife.
Context {libm : Libm}.

Lemma range_succ_succ (n : Z) :
  (2 <= n)%Z -> exists rest, Py.range n = 0%Z :: 1%Z :: rest.
Proof.
  intro N. unfold Py.range.
  destruct (Z.to_nat n) as [|[|k]] eqn:E; try lia.
  cbn [seq map]. eexists. reflexivity.
Qed.

Lemma get_arpdau_at_day_zero_half_life (p : SimulationParams.t) (d : Z) :
  SimulationParams.decay_half_life p = 0%Z -> (0 < d)%Z ->
  SimulationParams.get_arpdau_at_day p d = Raise ZeroDivisionError.
Proof.
  intros Z0 D. unfold SimulationParams.get_arpdau_at_day,
    SimulationParams.get_ecpm_at_day.
  replace (d <=? 0)%Z with false by (symmetry; apply Z.leb_gt; lia).
  rewrite Z0. reflexivity.
Qed.

Lemma get_arpdau_at_day_nonpositive (p : SimulationParams.t) (d : Z) :
  (d <= 0)%Z -> returns (SimulationParams.get_arpdau_at_day p d).
Proof.
  intro N. unfold SimulationParams.get_arpdau_at_day,
    SimulationParams.get_ecpm_at_day, SimulationParams.get_impressions_at_day.
  apply Z.leb_le in N. rewrite N. cbn [bind]. eexists. reflexivity.
Qed.

Lemma iaa_sum_zero_half_life (cfg : AppConfig.t) (p : SimulationParams.t)
    (days : Z) :
  SimulationParams.decay_half_life p = 0%Z -> (1 <= days)%Z ->
  Simulator.iaa_sum cfg p (Py.range (days + 1)) 0 = Raise ZeroDivisionError.
Proof.
  intros Z0 D. destruct (range_succ_succ (days + 1)) as [rest ->]; [lia|].
  cbn [Simulator.iaa_sum].
  destruct (_get_retention_at_day_returns cfg 0
              (SimulationParams.retention_mult p)) as [r0 ->]; [lia|].
  cbn [bind].
  destruct (get_arpdau_at_day_nonpositive p 0) as [a0 ->]; [lia|].
  cbn [bind].
  destruct (_get_retention_at_day_returns cfg 1
              (SimulationParams.retention_mult p)) as [r1 ->]; [lia|].
  cbn [bind].
  rewrite get_arpdau_at_day_zero_half_life by (assumption || lia).
  reflexivity.
Qed.

Lemma iaa_sum_single_day (cfg : AppConfig.t) (p : SimulationParams.t)
    (days : Z) :
  (days <= 0)%Z ->
  returns (Simulator.iaa_sum cfg p (Py.range (days + 1)) 0).
Proof.
  intro D. unfold Py.range.
  destruct (Z.to_nat (days + 1)) as [|[|k]] eqn:E; try lia;
    cbn [seq map Simulator.iaa_sum Z.of_nat]; [eexists; reflexivity|].
  destruct (_get_retention_at_day_returns cfg 0
              (SimulationParams.retention_mult p)) as [r0 ->]; [lia|].
  cbn [bind Z.of_nat].
  destruct (get_arpdau_at_day_nonpositive p 0) as [a0 ->]; [lia|].
  cbn [bind]. eexists. reflexivity.
Qed.

(** What stops the ad loop stops [_calculate_ltv], with the same
    exception. *)
Lemma calculate_ltv_raises (cfg : AppConfig.t) (p : SimulationParams.t)
    (days : Z) (e : exn) :
  Simulator.iaa_sum cfg p (Py.range (days + 1)) 0 = Raise e ->
  Simulator._calculate_ltv cfg p days = Raise e.
Proof.
  intro S. unfold Simulator._calculate_ltv.
  pose proof (iaa_loop_sum cfg p (Py.range (days + 1)) 0
                (map (fun m => (m, 0)) Simulator.milestones)) as K.
  rewrite S in K.
  destruct (Sampler._is_deterministic cfg); [rewrite K | rewrite S];
    reflexivity.
Qed.

Lemma in_range (n d : Z) : In d (Py.range n) <-> (0 <= d < n)%Z.
Proof.
  unfold Py.range. rewrite in_map_iff. split.
  - intros (k & <- & I). apply in_seq in I. lia.
  - intro B. exists (Z.to_nat d). split; [lia|]. apply in_seq. lia.
Qed.

(** After day 0, with a half-life that is not zero, the ARPDAU returns when
    [math.exp] does and raises [OverflowError] when it overflows. *)
Lemma get_arpdau_at_day_exponent (p : SimulationParams.t) (d : Z) :
  SimulationParams.decay_half_life p <> 0%Z -> (0 < d)%Z ->
  let x := inject_Z (- d) / inject_Z (SimulationParams.decay_half_life p) in
  (x <= Py.exp_max_arg ->
   returns (SimulationParams.get_arpdau_at_day p d)) /\
  (Py.exp_max_arg < x ->
   SimulationParams.get_arpdau_at_day p d = Raise OverflowError).
Proof.
  intros N D x. unfold SimulationParams.get_arpdau_at_day,
    SimulationParams.get_ecpm_at_day, SimulationParams.get_impressions_at_day.
  replace (d <=? 0)%Z with false by (symmetry; apply Z.leb_gt; lia).
  rewrite PyFacts.truediv_int_ok by exact N. cbn [bind]. fold x. split.
  - intro B. rewrite PyFacts.math_exp_ok by exact B. cbn [bind].
    eexists. reflexivity.
  - intro B. rewrite PyFacts.math_exp_overflow by exact B. reflexivity.
Qed.

(** The ad loop stops with [OverflowError] at the first day whose decay
    overflows. *)
Lemma iaa_sum_overflow (cfg : AppConfig.t) (p : SimulationParams.t)
    (ds : list Z) (d0 : Z) (acc : Q) :
  SimulationParams.decay_half_life p <> 0%Z ->
  Forall (fun d => (0 <= d)%Z) ds ->
  In d0 ds -> (0 < d0)%Z ->
  Py.exp_max_arg
  < inject_Z (- d0) / inject_Z (SimulationParams.decay_half_life p) ->
  Simulator.iaa_sum cfg p ds acc = Raise OverflowError.
Proof.
  intros N F I D0 O. revert acc.
  induction F as [|d ds D F IH]; intro acc; [destruct I|].
  cbn [Simulator.iaa_sum].
  destruct (_get_retention_at_day_returns cfg d
              (SimulationParams.retention_mult p) D) as [r ->].
  cbn [bind].
  destruct (Z_le_gt_dec d 0) as [Le|Gt].
  - destruct (get_arpdau_at_day_nonpositive p d Le) as [a ->]. cbn [bind].
    destruct I as [->|I]; [lia|]. now apply IH.
  - destruct (get_arpdau_at_day_exponent p d N) as [A B]; [lia|].
    destruct (Qlt_le_dec Py.exp_max_arg
                (inject_Z (- d)
                 / inject_Z (SimulationParams.decay_half_life p)))
      as [Ov|Fit].
    + rewrite (B Ov). reflexivity.
    + destruct (A Fit) as [a ->]. cbn [bind].
      destruct I as [->|I]; [|now apply IH].
      exfalso. apply (Qlt_irrefl Py.exp_max_arg).
      eapply Qlt_le_trans; [exact O | exact Fit].
Qed.

(** X2.  When [_calculate_ltv] returns and what it raises.  With a positive
    decay half-life, or a horizon without a day after day 0, it returns
    exactly when the paid CPI does; so it does with a negative half-life as
    long as no exponent of the decay exceeds what [math.exp] accepts.  With
    a half-life of zero and a day after day 0 it raises
    [ZeroDivisionError]; with a negative half-life and a day of the horizon
    whose exponent [-day / half_life] is too large for [math.exp] it raises
    [OverflowError]. *)
Theorem calculate_ltv_returns_iff (cfg : AppConfig.t)
    (p : SimulationParams.t) (days : Z) :
  let h := SimulationParams.decay_half_life p in
  ((0 < h)%Z \/ (days <= 0)%Z ->
   (returns (Simulator._calculate_ltv cfg p days) <->
    returns (SimulationParams.cpi_paid p))) /\
  ((h < 0)%Z ->
   (forall d, (1 <= d <= days)%Z ->
              inject_Z (- d) / inject_Z h <= Py.exp_max_arg) ->
   (returns (Simulator._calculate_ltv cfg p days) <->
    returns (SimulationParams.cpi_paid p))) /\
  (h = 0%Z -> (1 <= days)%Z ->
   Simulator._calculate_ltv cfg p days = Raise ZeroDivisionError) /\
  (forall d,
     (h < 0)%Z -> (1 <= d <= days)%Z ->
     Py.exp_max_arg < inject_Z (- d) / inject_Z h ->
     Simulator._calculate_ltv cfg p days = Raise OverflowError).
Proof.
  intro h. unfold h. clear h.
  assert (back : forall iaa,
             Simulator.iaa_sum cfg p (Py.range (days + 1)) 0 = Ok iaa ->
             returns (Simulator._calculate_ltv cfg p days) <->
             returns (SimulationParams.cpi_paid p)).
  { intros iaa S. split.
    - intros [r E]. now apply (calculate_ltv_cpi_returns cfg p days r).
    - intro Rc.
      destruct (calculate_ltv_returns cfg p days iaa S Rc)
        as (r & _ & E & _).
      now exists r. }
  split; [|split; [|split]].
  - intros [N|D].
    + destruct (iaa_sum_returns cfg p (Py.range (days + 1)) 0 N
                  (range_nonneg _)) as [iaa S].
      now apply (back iaa).
    + destruct (iaa_sum_single_day cfg p days D) as [iaa S].
      now apply (back iaa).
  - intros N Fit.
    destruct (iaa_sum_returns_when cfg p (Py.range (days + 1)) 0
                (range_nonneg _)) as [iaa S]; [|now apply (back iaa)].
    intros d I. apply in_range in I.
    destruct (Z_le_gt_dec d 0) as [Le|Gt];
      [now apply get_arpdau_at_day_nonpositive|].
    apply get_arpdau_at_day_exponent; [lia | lia |]. apply Fit. lia.
  - intros Z0 D. apply calculate_ltv_raises.
    now apply iaa_sum_zero_half_life.
  - intros d N D O. apply calculate_ltv_raises.
    apply (iaa_sum_overflow cfg p _ d); try lia; try exact O.
    + apply range_nonneg.
    + apply in_range. lia.
Qed.

End HalfLife.

Section SamplerErrors.
Import AppConfig SimulationConfig.

Lemma normal_negative_scale (loc scale : Q) (g : rng) :
  scale < 0 -> normal loc scale g = Raise ValueError.
Proof.
  intro N. unfold normal. apply PyFacts.lt_true in N. now rewrite N.
Qed.

Lemma sample_with_variation_negative_mean (fuel : nat)
    (mean variation lo hi : Q) (g : rng) :
  mean < 0 -> 0.001 <= variation ->
  Sampler.sample_with_variation (S fuel) mean variation lo hi g
  = Raise ValueError.
Proof.
  intros M V. unfold Sampler.sample_with_variation.
  replace (Py.eq variation 0) with false
    by (symmetry; apply PyFacts.eq_false; intro Z0; rewrite Z0 in V;
        revert V; apply Qlt_not_le; reflexivity).
  replace (Py.lt variation 0.001) with false
    by (symmetry; now apply PyFacts.lt_false).
  cbn [orb Sampler.rejection_loop].
  rewrite normal_negative_scale by nra. reflexivity.
Qed.

Lemma sample_with_variation_zero_mean (fuel : nat)
    (mean variation lo hi : Q) (g : rng) :
  mean == 0 -> 0.001 <= variation ->
  exists v,
    Sampler.sample_with_variation (S fuel) mean variation lo hi g
    = Ok (v, fun n => g (S n)) /\ v == 0.
Proof.
  intros M V. unfold Sampler.sample_with_variation.
  replace (Py.eq variation 0) with false
    by (symmetry; apply PyFacts.eq_false; intro Z0; rewrite Z0 in V;
        revert V; apply Qlt_not_le; reflexivity).
  replace (Py.lt variation 0.001) with false
    by (symmetry; now apply PyFacts.lt_false).
  cbn [orb Sampler.rejection_loop]. unfold normal.
  replace (Py.lt (mean * variation) 0) with false
    by (symmetry; apply PyFacts.lt_false; rewrite M; lra).
  cbn [bind].
  assert (E : mean + mean * variation * g 0%nat == 0) by (rewrite M; ring).
  replace (Py.le (mean * lo) (mean + mean * variation * g 0%nat)) with true
    by (symmetry; apply PyFacts.le_true; rewrite E, M; lra).
  replace (Py.le (mean + mean * variation * g 0%nat) (mean * hi)) with true
    by (symmetry; apply PyFacts.le_true; rewrite E, M; lra).
  cbn [andb]. eexists. split; [reflexivity | exact E].
Qed.

(** X3.  The sampler on a mean that is negative or zero, when the CPM is
    varied: a negative CPM makes the draw raise [ValueError] (the standard
    deviation handed to the generator is negative), and a CPM of 0 is
    returned as 0. *)
Theorem sampler_on_degenerate_cpm (cfg : AppConfig.t) (fuel : nat)
    (g : rng) :
  0.001 <= cpm_variation (simulation cfg) ->
  (UAMetrics.cpm (ua cfg) < 0 ->
   Sampler._sample_params cfg (S fuel) g = Raise ValueError) /\
  (UAMetrics.cpm (ua cfg) == 0 ->
   forall p g',
     Sampler._sample_params cfg (S fuel) g = Ok (p, g') ->
     SimulationParams.cpm p == 0).
Proof.
  intro V.
  assert (D : Sampler._is_deterministic cfg = false).
  { destruct (Sampler._is_deterministic cfg) eqn:D; [|reflexivity].
    apply is_deterministic_iff in D. destruct D as [D _].
    exfalso. exact (Qlt_not_le _ _ D V). }
  split.
  - intro M. unfold Sampler._sample_params.
    change (forallb _ _) with (Sampler._is_deterministic cfg).
    rewrite D. rewrite sample_with_variation_negative_mean by assumption.
    reflexivity.
  - intros M p g' R. unfold Sampler._sample_params in R.
    change (forallb _ _) with (Sampler._is_deterministic cfg) in R.
    rewrite D in R.
    destruct (sample_with_variation_zero_mean fuel (UAMetrics.cpm (ua cfg))
                (cpm_variation (simulation cfg)) 0.3 2.0 g M V)
      as (v & E & Z0).
    rewrite E in R. cbn [bind] in R.
    sample_step E2. sample_step E3. sample_step E4.
    sample_step E5. sample_step E6. sample_step E7. sample_step E8.
    sample_step E9.
    injection R as <- <-. exact Z0.
Qed.

End SamplerErrors.

Section EventFacts.
Context {libm : Libm}.
Import AppConfig.

Lemma renewals_within_horizon (fuel : nat) (plan : SubscriptionPlan.t)
    (params : SimulationParams.t) (subs : Q) (days cycle next_day : Z)
    (current : Q) (events : list Simulator.event) :
  Simulator.renewals fuel plan params subs days cycle next_day current
  = Ok events ->
  Forall (fun e => (fst e <= days)%Z) events.
Proof.
  revert cycle next_day current events.
  induction fuel as [|fuel IH]; intros cycle next_day current events;
    cbn [Simulator.renewals];
    destruct ((next_day <=? days)%Z && (cycle <=? 52)%Z)%bool eqn:T;
    try discriminate; try (intro E; injection E as <-; constructor).
  apply andb_true_iff in T as [T _]. apply Z.leb_le in T.
  destruct (SubscriptionPlan.get_renewal_rate plan cycle) as [rate| |];
    cbn [bind]; try discriminate.
  match goal with
  | |- context [Simulator.renewals fuel plan params subs days ?c ?n ?r] =>
      destruct (Simulator.renewals fuel plan params subs days c n r)
        as [rest| |] eqn:R; cbn [bind]; try discriminate
  end.
  intro E. injection E as <-. constructor; [exact T|].
  eapply IH, R.
Qed.

Lemma plan_events_within_horizon (cfg : AppConfig.t)
    (params : SimulationParams.t) (days : Z) (plan : SubscriptionPlan.t)
    (events : list Simulator.event) :
  Simulator.plan_events cfg params days plan = Ok events ->
  Forall (fun e => (fst e <= days)%Z) events.
Proof.
  unfold Simulator.plan_events.
  destruct (_ <=? days)%Z eqn:F;
    [|intro E; injection E as <-; constructor].
  apply Z.leb_le in F.
  destruct (_ <? 36500)%Z.
  - match goal with
    | |- context [Simulator.renewals 52 plan params ?s days 1 ?n ?r] =>
        destruct (Simulator.renewals 52 plan params s days 1 n r)
          as [rest| |] eqn:R; cbn [bind]; try discriminate
    end.
    intro E. injection E as <-. constructor; [exact F|].
    eapply renewals_within_horizon, R.
  - intro E. injection E as <-. constructor; [exact F | constructor].
Qed.

Lemma all_events_within_horizon (cfg : AppConfig.t)
    (params : SimulationParams.t) (days : Z)
    (plans : list SubscriptionPlan.t) (events : list Simulator.event) :
  Simulator.all_events cfg params days plans = Ok events ->
  Forall (fun e => (fst e <= days)%Z) events.
Proof.
  revert events. induction plans as [|plan plans IH]; intro events;
    cbn [Simulator.all_events].
  - intro E. injection E as <-. constructor.
  - destruct (Simulator.plan_events cfg params days plan) as [es| |] eqn:P;
      cbn [bind]; try discriminate.
    destruct (Simulator.all_events cfg params days plans) as [es'| |];
      cbn [bind]; try discriminate.
    intro E. injection E as <-. apply Forall_app. split.
    + eapply plan_events_within_horizon, P.
    + now apply IH.
Qed.


End EventFacts.

Section Schedule.
Context {libm : Libm}.
Import AppConfig.

Lemma range_cons (n : Z) :
  (1 <= n)%Z -> Py.range n = 0%Z :: map Z.succ (Py.range (n - 1)).
Proof.
  intro N. unfold Py.range.
  replace (Z.to_nat n) with (S (Z.to_nat (n - 1))) by lia.
  cbn [seq map Z.of_nat]. f_equal.
  rewrite <- seq_shift, !map_map. apply map_ext. intro k. lia.
Qed.

Lemma range_empty (n : Z) : (n <= 0)%Z -> Py.range n = [].
Proof.
  intro N. unfold Py.range. replace (Z.to_nat n) with 0%nat by lia.
  reflexivity.
Qed.


Variable plan : SubscriptionPlan.t.
Variable params : SimulationParams.t.
Variable R : Z -> Q.
Variable days base : Z.
Variable subs : Q.

Let d := SubscriptionPlan.duration_days plan.
Let mult := SimulationParams.renewal_mult params.
Let price := SubscriptionPlan.price plan.

Hypothesis d_pos : (0 < d)%Z.
Hypothesis d_renews : (d < 36500)%Z.
Hypothesis curve :
  forall j, (0 <= j <= 52)%Z -> (base + j * d <= days)%Z ->
    SubscriptionRetentionCurve.get_retention_at_cycle
      (SubscriptionPlan.sub_retention plan) j = Ok (R j)
    /\ 0 < R j.

Lemma renewal_rate_on_curve (cycle : Z) :
  (1 <= cycle <= 52)%Z -> (base + cycle * d <= days)%Z ->
  SubscriptionPlan.get_renewal_rate plan cycle
  = Ok (R cycle / R (cycle - 1)).
Proof.
  intros C D. unfold SubscriptionPlan.get_renewal_rate.
  fold d.
  replace (36500 <=? d)%Z with false by (symmetry; apply Z.leb_gt; lia).
  replace (cycle <=? 0)%Z with false by (symmetry; apply Z.leb_gt; lia).
  destruct (curve cycle) as [-> _]; [lia | lia |].
  destruct (curve (cycle - 1)) as [-> P]; [lia | nia |].
  cbn [bind].
  replace (Py.le (R (cycle - 1)) 0) with false
    by (symmetry; apply not_true_is_false; intro K;
        apply PyFacts.le_true in K; exact (Qlt_not_le _ _ P K)).
  apply PyFacts.truediv_ok. intro Z0. rewrite Z0 in P.
  exact (Qlt_irrefl _ P).
Qed.

Lemma renewals_schedule (fuel : nat) :
  forall (cycle : Z) (current : Q) (events : list Simulator.event),
    (1 <= cycle)%Z -> (53 - cycle <= Z.of_nat fuel)%Z ->
    (base + (cycle - 1) * d <= days)%Z ->
    current == R (cycle - 1) / R 0%Z * mult ^ (cycle - 1) ->
    Simulator.renewals fuel plan params subs days cycle (base + cycle * d)
      current = Ok events ->
    Forall2 (billed_at base d subs mult price R) events
      (map (Z.add cycle)
         (Py.range (Z.min (53 - cycle) ((days - base) / d - cycle + 1)))).
Proof.
  induction fuel as [|fuel IH]; intros cycle current events C F Prev Cur;
    cbn [Simulator.renewals];
    destruct ((base + cycle * d <=? days)%Z && (cycle <=? 52)%Z)%bool eqn:T.
  - apply andb_true_iff in T as [_ T]. apply Z.leb_le in T. lia.
  - intro E. injection E as <-.
    rewrite range_empty; [constructor|].
    apply andb_false_iff in T as [T|T];
      [apply Z.leb_gt in T | apply Z.leb_gt in T; lia].
    assert ((days - base) / d < cycle)%Z
      by (apply Z.div_lt_upper_bound; [exact d_pos | nia]).
    lia.
  - apply andb_true_iff in T as [T1 T2].
    apply Z.leb_le in T1, T2.
    rewrite renewal_rate_on_curve by lia. cbn [bind].
    fold mult. fold price. fold d.
    replace (base + cycle * d + d)%Z with (base + (cycle + 1) * d)%Z by ring.
    set (current' := current * (R cycle / R (cycle - 1) * mult)).
    destruct (Simulator.renewals fuel plan params subs days (cycle + 1)
                (base + (cycle + 1) * d) current') as [rest| |] eqn:Rest;
      cbn [bind]; try discriminate.
    intro E. injection E as <-.
    assert (Cur' : current' == R cycle / R 0%Z * mult ^ cycle).
    { unfold current'. rewrite Cur.
      destruct (curve (cycle - 1)) as [_ P1]; [lia | lia |].
      destruct (curve 0%Z) as [_ P0]; [lia | nia |].
      assert (Pw : mult ^ cycle == mult ^ (cycle - 1) * mult).
      { rewrite <- (Qpower_1_r mult) at 3.
        rewrite <- Qpower_plus' by lia.
        replace (cycle - 1 + 1)%Z with cycle by ring. reflexivity. }
      rewrite Pw. field. split; intro Z0; [rewrite Z0 in P0 | rewrite Z0 in P1];
        eapply Qlt_irrefl; eassumption. }
    assert (M : (cycle <= (days - base) / d)%Z)
      by (apply Z.div_le_lower_bound; [exact d_pos | nia]).
    rewrite range_cons by lia. cbn [map].
    constructor.
    + split; [cbn [fst]; f_equal; ring|]. cbn [snd].
      rewrite Z.add_0_r. rewrite Cur'. reflexivity.
    + rewrite map_map.
      replace (Z.min (53 - cycle) ((days - base) / d - cycle + 1) - 1)%Z
        with (Z.min (53 - (cycle + 1))
                ((days - base) / d - (cycle + 1) + 1))%Z by lia.
      rewrite (map_ext _ (Z.add (cycle + 1))) by (intro k; lia).
      apply (IH (cycle + 1)%Z current' rest).
      * lia.
      * lia.
      * replace (cycle + 1 - 1)%Z with cycle by ring. lia.
      * replace (cycle + 1 - 1)%Z with cycle by ring. exact Cur'.
      * exact Rest.
  - intro E. injection E as <-.
    rewrite range_empty; [constructor|].
    apply andb_false_iff in T as [T|T]; apply Z.leb_gt in T; [|lia].
    assert ((days - base) / d < cycle)%Z
      by (apply Z.div_lt_upper_bound; [exact d_pos | nia]).
    lia.
Qed.

End Schedule.

Section PlanSchedule.
Context {libm : Libm}.
Import AppConfig.

Lemma renewals_days (plan : SubscriptionPlan.t) (params : SimulationParams.t)
    (subs : Q) (days base : Z) (fuel : nat) :
  let d := SubscriptionPlan.duration_days plan in
  (0 < d)%Z ->
  forall (cycle : Z) (current : Q) (events : list Simulator.event),
    (53 - cycle <= Z.of_nat fuel)%Z ->
    Simulator.renewals fuel plan params subs days cycle (base + cycle * d)
      current = Ok events ->
    map fst events
    = map (fun k => (base + (cycle + k) * d)%Z)
        (Py.range (Z.min (53 - cycle) ((days - base) / d - cycle + 1))).
Proof.
  intros d d_pos.
  induction fuel as [|fuel IH]; intros cycle current events F;
    cbn [Simulator.renewals];
    destruct ((base + cycle * d <=? days)%Z && (cycle <=? 52)%Z)%bool eqn:T.
  - apply andb_true_iff in T as [_ T]. apply Z.leb_le in T. lia.
  - intro E. injection E as <-.
    rewrite range_empty; [reflexivity|].
    apply andb_false_iff in T as [T|T]; apply Z.leb_gt in T; [|lia].
    assert ((days - base) / d < cycle)%Z
      by (apply Z.div_lt_upper_bound; [exact d_pos | nia]).
    lia.
  - apply andb_true_iff in T as [T1 T2].
    apply Z.leb_le in T1, T2.
    destruct (SubscriptionPlan.get_renewal_rate plan cycle) as [rate| |];
      cbn [bind]; try discriminate.
    fold d.
    replace (base + cycle * d + d)%Z with (base + (cycle + 1) * d)%Z by ring.
    match goal with
    | |- context [Simulator.renewals fuel plan params subs days ?c ?n ?r] =>
        destruct (Simulator.renewals fuel plan params subs days c n r)
          as [rest| |] eqn:Rest; cbn [bind]; try discriminate
    end.
    intro E. injection E as <-.
    assert (M : (cycle <= (days - base) / d)%Z)
      by (apply Z.div_le_lower_bound; [exact d_pos | nia]).
    rewrite range_cons by lia. cbn [map fst]. f_equal; [f_equal; ring|].
    rewrite map_map.
    rewrite (IH (cycle + 1)%Z _ rest ltac:(lia) Rest).
    replace (Z.min (53 - cycle) ((days - base) / d - cycle + 1) - 1)%Z
      with (Z.min (53 - (cycle + 1))
              ((days - base) / d - (cycle + 1) + 1))%Z by lia.
    apply map_ext. intro k.
    replace (cycle + Z.succ k)%Z with (cycle + 1 + k)%Z by lia. reflexivity.
  - intro E. injection E as <-.
    rewrite range_empty; [reflexivity|].
    apply andb_false_iff in T as [T|T]; apply Z.leb_gt in T; [|lia].
    assert ((days - base) / d < cycle)%Z
      by (apply Z.div_lt_upper_bound; [exact d_pos | nia]).
    lia.
Qed.

(** X4.  The billing days of a renewing plan: a plan with a duration [d]
    between 1 and 36499 days whose first billing day is within the horizon
    is billed on that day and every [d] days after it, up to the horizon
    and for at most 52 renewals. *)
Theorem billing_days (cfg : AppConfig.t) (params : SimulationParams.t)
    (days : Z) (plan : SubscriptionPlan.t) :
  let d := SubscriptionPlan.duration_days plan in
  let first_day :=
    (SubscriptionMetrics.exploitation_start_day (subscription cfg)
     + (if SubscriptionPlan.has_trial plan
        then SubscriptionPlan.trial_days plan else 0))%Z in
  (0 < d < 36500)%Z ->
  (first_day <= days)%Z ->
  exists events,
    Simulator.plan_events cfg params days plan = Ok events /\
    map fst events
    = map (fun k => (first_day + k * d)%Z)
        (Py.range (1 + Z.min 52 ((days - first_day) / d))).
Proof.
  intros d first_day [d_pos d_renews] F.
  destruct (plan_events_returns cfg params days plan) as [events E].
  exists events. split; [exact E|].
  unfold Simulator.plan_events in E. fold first_day in E. fold d in E.
  replace (first_day <=? days)%Z with true in E
    by (symmetry; apply Z.leb_le; lia).
  replace (d <? 36500)%Z with true in E by (symmetry; apply Z.ltb_lt; lia).
  match type of E with
  | bind ?m _ = _ => destruct m as [rest| |] eqn:Rest; cbn [bind] in E;
                     try discriminate E
  end.
  injection E as <-.
  replace (first_day + d)%Z with (first_day + 1 * d)%Z in Rest by ring.
  apply (renewals_days plan params _ days first_day 52 d_pos) in Rest;
    [|simpl; lia].
  assert (M : (0 <= (days - first_day) / d)%Z)
    by (apply Z.div_pos; lia).
  rewrite range_cons by lia. cbn [map fst]. f_equal; [ring|].
  rewrite Rest, map_map.
  replace (1 + Z.min 52 ((days - first_day) / d) - 1)%Z
    with (Z.min (53 - 1) ((days - first_day) / d - 1 + 1))%Z by lia.
  apply map_ext. intro k. fold d.
  replace (1 + Z.succ k)%Z with (Z.succ k + 1)%Z by lia.
  replace (Z.succ k) with (k + 1)%Z by lia. f_equal. ring.
Qed.

(** X5.  The amounts of a renewing plan follow its retention curve: when
    the curve is positive at the cycles billed, the payment of cycle [k]
    is expected_subscribers x (R(k) / R(0)) x renewal_mult^k x price, where
    [R] is the subscription retention at each cycle. *)
Theorem billing_amounts (cfg : AppConfig.t) (params : SimulationParams.t)
    (days : Z) (plan : SubscriptionPlan.t) (R : Z -> Q) :
  let d := SubscriptionPlan.duration_days plan in
  let first_day :=
    (SubscriptionMetrics.exploitation_start_day (subscription cfg)
     + (if SubscriptionPlan.has_trial plan
        then SubscriptionPlan.trial_days plan else 0))%Z in
  let effective_pay_rate :=
    SubscriptionPlan.pay_rate plan * SimulationParams.pay_rate_mult params in
  let expected_subscribers :=
    if SubscriptionPlan.has_trial plan
    then effective_pay_rate * SubscriptionPlan.trial_to_paid_rate plan
    else effective_pay_rate in
  (0 < d < 36500)%Z ->
  (first_day <= days)%Z ->
  (forall j, (0 <= j <= 52)%Z -> (first_day + j * d <= days)%Z ->
     SubscriptionRetentionCurve.get_retention_at_cycle
       (SubscriptionPlan.sub_retention plan) j = Ok (R j)
     /\ 0 < R j) ->
  exists events,
    Simulator.plan_events cfg params days plan = Ok events /\
    Forall2
      (billed_at first_day d expected_subscribers
         (SimulationParams.renewal_mult params)
         (SubscriptionPlan.price plan) R)
      events (Py.range (1 + Z.min 52 ((days - first_day) / d))).
Proof.
  intros d first_day effective_pay_rate expected_subscribers
    [d_pos d_renews] F Curve.
  destruct (plan_events_returns cfg params days plan) as [events E].
  exists events. split; [exact E|].
  unfold Simulator.plan_events in E.
  fold first_day in E. fold d in E. fold effective_pay_rate in E.
  fold expected_subscribers in E.
  replace (first_day <=? days)%Z with true in E
    by (symmetry; apply Z.leb_le; lia).
  replace (d <? 36500)%Z with true in E by (symmetry; apply Z.ltb_lt; lia).
  match type of E with
  | bind ?m _ = _ => destruct m as [rest| |] eqn:Rest; cbn [bind] in E;
                     try discriminate E
  end.
  injection E as <-.
  destruct (Curve 0%Z) as [_ P0]; [lia | lia |].
  assert (N0 : ~ R 0%Z == 0)
    by (intro Z0; rewrite Z0 in P0; exact (Qlt_irrefl _ P0)).
  replace (first_day + d)%Z with (first_day + 1 * d)%Z in Rest by ring.
  apply (renewals_schedule plan params R days first_day expected_subscribers
           d_pos d_renews Curve 52) in Rest.
  - assert (M : (0 <= (days - first_day) / d)%Z)
      by (apply Z.div_pos; lia).
    rewrite range_cons by lia. constructor.
    + split; [cbn [fst]; ring|]. cbn [snd]. cbn [Qpower]. field. exact N0.
    + replace (1 + Z.min 52 ((days - first_day) / d) - 1)%Z
        with (Z.min (53 - 1) ((days - first_day) / d - 1 + 1))%Z by lia.
      rewrite (map_ext Z.succ (Z.add 1)) by (intro k; lia).
      exact Rest.
  - lia.
  - simpl; lia.
  - lia.
  - cbn [Z.sub Z.add Z.opp Z.pos_sub Qpower]. field. exact N0.
Qed.

Lemma renewals_of_nobody (fuel : nat) (plan : SubscriptionPlan.t)
    (params : SimulationParams.t) (subs : Q) (days cycle next_day : Z)
    (current : Q) (events : list Simulator.event) :
  subs == 0 ->
  Simulator.renewals fuel plan params subs days cycle next_day current
  = Ok events ->
  Forall (fun e => snd e == 0) events.
Proof.
  intro Z0. revert cycle next_day current events.
  induction fuel as [|fuel IH]; intros cycle next_day current events;
    cbn [Simulator.renewals];
    destruct ((next_day <=? days)%Z && (cycle <=? 52)%Z)%bool;
    try discriminate; try (intro E; injection E as <-; constructor).
  destruct (SubscriptionPlan.get_renewal_rate plan cycle) as [rate| |];
    cbn [bind]; try discriminate.
  match goal with
  | |- context [Simulator.renewals fuel plan params subs days ?c ?n ?r] =>
      destruct (Simulator.renewals fuel plan params subs days c n r)
        as [rest| |] eqn:Rest; cbn [bind]; try discriminate
  end.
  intro E. injection E as <-. constructor.
  - cbn [snd]. rewrite Z0. ring.
  - eapply IH, Rest.
Qed.

(** X6.  A plan nobody buys is still billed, for nothing: when its pay
    rate is 0, or it has a trial nobody converts from, every payment of the
    plan is an amount of 0, and there is at least one such payment once
    its first billing day is within the horizon. *)
Theorem disabled_plan_bills_nothing (cfg : AppConfig.t)
    (params : SimulationParams.t) (days : Z) (plan : SubscriptionPlan.t) :
  SubscriptionPlan.pay_rate plan == 0
  \/ (SubscriptionPlan.has_trial plan = true
      /\ SubscriptionPlan.trial_to_paid_rate plan == 0) ->
  exists events,
    Simulator.plan_events cfg params days plan = Ok events /\
    Forall (fun e => snd e == 0) events /\
    ((SubscriptionMetrics.exploitation_start_day (subscription cfg)
      + (if SubscriptionPlan.has_trial plan
         then SubscriptionPlan.trial_days plan else 0) <= days)%Z ->
     events <> []).
Proof.
  intro Off.
  destruct (plan_events_returns cfg params days plan) as [events E].
  exists events. split; [exact E|].
  unfold Simulator.plan_events in E.
  set (subs :=
         if SubscriptionPlan.has_trial plan
         then SubscriptionPlan.pay_rate plan
              * SimulationParams.pay_rate_mult params
              * SubscriptionPlan.trial_to_paid_rate plan
         else SubscriptionPlan.pay_rate plan
              * SimulationParams.pay_rate_mult params) in E.
  assert (Z0 : subs == 0).
  { unfold subs. destruct Off as [P|[T C]].
    - destruct (SubscriptionPlan.has_trial plan); rewrite P; ring.
    - rewrite T, C. ring. }
  destruct (_ <=? days)%Z eqn:F.
  - destruct (_ <? 36500)%Z.
    + match type of E with
      | bind ?m _ = _ => destruct m as [rest| |] eqn:Rest; cbn [bind] in E;
                         try discriminate E
      end.
      injection E as <-. split; [|discriminate].
      constructor; [cbn [snd]; rewrite Z0; ring|].
      eapply renewals_of_nobody; eassumption.
    + injection E as <-. split; [|discriminate].
      constructor; [cbn [snd]; rewrite Z0; ring | constructor].
  - injection E as <-. split; [constructor|].
    apply Z.leb_gt in F. intro. lia.
Qed.

End PlanSchedule.


Section EventLists.

Lemma insert_event_sorted (e : Simulator.event) (l : list Simulator.event) :
  StronglySorted by_day l -> StronglySorted by_day (Simulator.insert_event e l).
Proof.
  induction 1 as [|a l S IH F]; cbn [Simulator.insert_event].
  - repeat constructor.
  - destruct (fst e <=? fst a)%Z eqn:C.
    + apply Z.leb_le in C. constructor; [now constructor|].
      constructor; [exact C|].
      eapply Forall_impl; [|exact F]. unfold by_day. intros; lia.
    + apply Z.leb_gt in C. constructor; [exact IH|].
      assert (K : forall x, In x (Simulator.insert_event e l) ->
                            x = e \/ In x l).
      { clear. induction l as [|b l IH]; cbn [Simulator.insert_event].
        - intros x [<-|[]]. now left.
        - destruct (fst e <=? fst b)%Z; intros x [<-|I]; auto.
          + right. now left.
          + destruct (IH _ I); auto. right. now right. }
      apply Forall_forall. intros x I. destruct (K x I) as [->|I'].
      * unfold by_day. lia.
      * rewrite Forall_forall in F. now apply F.
Qed.

Lemma sort_events_sorted (l : list Simulator.event) :
  StronglySorted by_day (Simulator.sort_events l).
Proof.
  induction l as [|e l IH]; cbn [Simulator.sort_events fold_right].
  - constructor.
  - now apply insert_event_sorted.
Qed.

Lemma net_due_nil (m : Z) (net : Q) : net_due m net [] == 0.
Proof. reflexivity. Qed.

Lemma net_due_cons (m : Z) (net : Q) (e : Simulator.event)
    (l : list Simulator.event) :
  net_due m net (e :: l)
  == (if (fst e <=? m)%Z then snd e * net else 0) + net_due m net l.
Proof.
  unfold net_due, due. cbn [filter].
  destruct (fst e <=? m)%Z; cbn [map].
  - apply sum_cons.
  - ring.
Qed.

Lemma net_due_insert (m : Z) (net : Q) (e : Simulator.event)
    (l : list Simulator.event) :
  net_due m net (Simulator.insert_event e l) == net_due m net (e :: l).
Proof.
  induction l as [|a l IH]; cbn [Simulator.insert_event]; [reflexivity|].
  destruct (fst e <=? fst a)%Z; [reflexivity|].
  rewrite net_due_cons, IH, !net_due_cons. ring.
Qed.

Lemma net_due_sort (m : Z) (net : Q) (l : list Simulator.event) :
  net_due m net (Simulator.sort_events l) == net_due m net l.
Proof.
  induction l as [|e l IH]; cbn [Simulator.sort_events fold_right];
    [reflexivity|].
  fold (Simulator.sort_events l).
  rewrite net_due_insert, !net_due_cons, IH. reflexivity.
Qed.

Lemma net_due_app (m : Z) (net : Q) (l l' : list Simulator.event) :
  net_due m net (l ++ l') == net_due m net l + net_due m net l'.
Proof.
  induction l as [|e l IH]; cbn [app].
  - rewrite net_due_nil. ring.
  - rewrite !net_due_cons, IH. ring.
Qed.

(** Raising the day adds the events that were overdue. *)
Lemma net_due_later (m m' : Z) (net : Q) (l : list Simulator.event) :
  (m <= m')%Z ->
  net_due m' net l == net_due m net l + net_due m' net (overdue m l).
Proof.
  intro Le. induction l as [|e l IH].
  - reflexivity.
  - unfold overdue. cbn [filter]. fold (overdue m l).
    destruct (fst e <=? m)%Z eqn:C; cbn [negb].
    + rewrite !net_due_cons, C, IH.
      replace (fst e <=? m')%Z with true
        by (symmetry; apply Z.leb_le; apply Z.leb_le in C; lia).
      ring.
    + rewrite !net_due_cons, C, IH. ring.
Qed.

Lemma overdue_sorted (m : Z) (l : list Simulator.event) :
  StronglySorted by_day l -> StronglySorted by_day (overdue m l).
Proof.
  induction 1 as [|a l S IH F]; cbn [overdue filter]; [constructor|].
  destruct (negb _); [|exact IH].
  constructor; [exact IH|].
  apply Forall_forall. intros x I. apply filter_In in I as [I _].
  rewrite Forall_forall in F. now apply F.
Qed.

(** On events sorted by day the inner [while] takes exactly the events that
    are due. *)
Lemma take_due_sorted (l : list Simulator.event) (m : Z) (cum net : Q) :
  StronglySorted by_day l ->
  snd (Simulator.take_due l m cum net) = overdue m l /\
  fst (Simulator.take_due l m cum net) == cum + net_due m net l.
Proof.
  intro S. revert cum. induction S as [|[d a] l S IH F]; intro cum;
    cbn [Simulator.take_due].
  - split; [reflexivity|]. rewrite net_due_nil. cbn [fst]. ring.
  - unfold overdue. cbn [filter fst]. fold (overdue m l).
    destruct (d <=? m)%Z eqn:C; cbn [negb].
    + destruct (IH (cum + a * net)) as [I1 I2]. split; [exact I1|].
      rewrite I2, net_due_cons. cbn [fst snd]. rewrite C. ring.
    + cbn [fst snd]. split.
      * f_equal. symmetry. apply Z.leb_gt in C.
        unfold overdue. clear IH.
        induction l as [|b l IHl]; [reflexivity|].
        cbn [filter]. inversion F as [|? ? Fb Fl]; subst.
        inversion S as [|? ? Sl Fbl]; subst.
        unfold by_day in Fb. cbn [fst] in Fb.
        replace (fst b <=? m)%Z with false
          by (symmetry; apply Z.leb_gt; lia).
        cbn [negb]. rewrite IHl by assumption. reflexivity.
      * rewrite net_due_cons. cbn [fst]. rewrite C.
        assert (Z0 : net_due m net l == 0).
        { apply Z.leb_gt in C. clear IH S.
          induction l as [|b l IHl]; [reflexivity|].
          inversion F as [|? ? Fb Fl]; subst.
          unfold by_day in Fb. cbn [fst] in Fb.
          rewrite net_due_cons.
          replace (fst b <=? m)%Z with false
            by (symmetry; apply Z.leb_gt; lia).
          rewrite (IHl Fl). ring. }
        rewrite Z0. ring.
Qed.

End EventLists.

Section Tables.
Context {libm : Libm}.
Import AppConfig.

Lemma get_set_same (d : Py.dict) (k : Z) (v : Q) :
  Py.get (Py.set d k v) k = Some v.
Proof.
  induction d as [|[a b] d IH]; cbn [Py.set Py.get].
  - now rewrite Z.eqb_refl.
  - destruct (Z.eqb_spec a k) as [->|N]; cbn [Py.get].
    + now rewrite Z.eqb_refl.
    + apply Z.eqb_neq in N. now rewrite N.
Qed.

Lemma get_set_other (d : Py.dict) (k k' : Z) (v : Q) :
  k' <> k -> Py.get (Py.set d k v) k' = Py.get d k'.
Proof.
  intro N. induction d as [|[a b] d IH]; cbn [Py.set Py.get].
  - replace (k =? k')%Z with false by (symmetry; apply Z.eqb_neq; lia).
    reflexivity.
  - destruct (Z.eqb_spec a k) as [->|Na]; cbn [Py.get].
    + replace (k =? k')%Z with false by (symmetry; apply Z.eqb_neq; lia).
      reflexivity.
    + destruct (a =? k')%Z; [reflexivity | exact IH].
Qed.

(** *** The subscription column of the milestone table *)

Lemma iap_milestones_other (ms : list Z) (l : list Simulator.event)
    (cum net : Q) (marks : Py.dict) (m : Z) :
  ~ In m ms ->
  Py.get (Simulator.iap_milestones ms l cum net marks) m = Py.get marks m.
Proof.
  revert l cum marks. induction ms as [|a ms IH]; intros l cum marks N;
    cbn [Simulator.iap_milestones]; [reflexivity|].
  destruct (Simulator.take_due l a cum net) as [c rest].
  rewrite IH by (intro I; apply N; now right).
  apply get_set_other. intros ->. apply N. now left.
Qed.

Lemma iap_milestones_spec (ms : list Z) :
  StronglySorted Z.lt ms ->
  forall (l : list Simulator.event) (cum net : Q) (marks : Py.dict) (m : Z),
    StronglySorted by_day l ->
    In m ms ->
    exists c,
      Py.get (Simulator.iap_milestones ms l cum net marks) m = Some c
      /\ c == cum + net_due m net l.
Proof.
  induction 1 as [|a ms S IH F]; intros l cum net marks m Sl I;
    [destruct I|].
  cbn [Simulator.iap_milestones].
  destruct (take_due_sorted l a cum net Sl) as [T1 T2].
  destruct (Simulator.take_due l a cum net) as [c rest].
  cbn [fst snd] in T1, T2. subst rest.
  destruct I as [<-|I].
  - exists c. split; [|exact T2].
    rewrite iap_milestones_other; [apply get_set_same|].
    intro I. rewrite Forall_forall in F. specialize (F _ I). lia.
  - destruct (IH (overdue a l) c net (Py.set marks a c) m
                (overdue_sorted a l Sl) I) as (c' & G & E).
    exists c'. split; [exact G|].
    rewrite Forall_forall in F. specialize (F _ I).
    rewrite E, T2, (net_due_later a m net l) by lia. ring.
Qed.

(** *** The ad column of the milestone table *)

Lemma iaa_sum_app (cfg : AppConfig.t) (p : SimulationParams.t)
    (l l' : list Z) (acc : Q) :
  Simulator.iaa_sum cfg p (l ++ l') acc
  = (c <- Simulator.iaa_sum cfg p l acc ;; Simulator.iaa_sum cfg p l' c).
Proof.
  revert acc. induction l as [|d l IH]; intro acc;
    cbn [app Simulator.iaa_sum bind]; [reflexivity|].
  destruct (Simulator._get_retention_at_day cfg d _); cbn [bind];
    try reflexivity.
  destruct (SimulationParams.get_arpdau_at_day p d); cbn [bind];
    try reflexivity.
  apply IH.
Qed.

Lemma iaa_loop_untouched (cfg : AppConfig.t) (p : SimulationParams.t)
    (ds : list Z) (acc v : Q) (marks marks' : Py.dict) (m : Z) :
  Simulator.iaa_loop cfg p ds acc marks = Ok (v, marks') ->
  ~ In m ds -> Py.get marks' m = Py.get marks m.
Proof.
  revert acc marks. induction ds as [|d ds IH]; intros acc marks E N;
    cbn [Simulator.iaa_loop] in E.
  - now injection E as <- <-.
  - destruct (Simulator._get_retention_at_day cfg d _) as [r| |];
      cbn [bind] in E; try discriminate E.
    destruct (SimulationParams.get_arpdau_at_day p d) as [a| |];
      cbn [bind] in E; try discriminate E.
    apply IH in E; [|intro I; apply N; now right].
    rewrite E. destruct (Py.contains marks d); [|reflexivity].
    apply get_set_other. intros ->. apply N. now left.
Qed.

(** The mark left at a milestone is the running total of the days up to
    it. *)
Lemma iaa_loop_mark (cfg : AppConfig.t) (p : SimulationParams.t)
    (pre post : list Z) (m : Z) (acc v : Q) (marks marks' : Py.dict) :
  Simulator.iaa_loop cfg p (pre ++ m :: post) acc marks = Ok (v, marks') ->
  In m (Py.keys marks) -> ~ In m post ->
  exists c,
    Simulator.iaa_sum cfg p (pre ++ [m]) acc = Ok c
    /\ Py.get marks' m = Some c.
Proof.
  revert acc marks. induction pre as [|d pre IH]; intros acc marks E K N;
    cbn [app Simulator.iaa_loop Simulator.iaa_sum] in *.
  - destruct (Simulator._get_retention_at_day cfg m _) as [r| |];
      cbn [bind] in *; try discriminate E.
    destruct (SimulationParams.get_arpdau_at_day p m) as [a| |];
      cbn [bind] in *; try discriminate E.
    exists (acc + r * a). split; [reflexivity|].
    rewrite (iaa_loop_untouched _ _ _ _ _ _ _ m E N).
    apply PyFacts.contains_true in K. rewrite K. apply get_set_same.
  - destruct (Simulator._get_retention_at_day cfg d _) as [r| |];
      cbn [bind] in *; try discriminate E.
    destruct (SimulationParams.get_arpdau_at_day p d) as [a| |];
      cbn [bind] in *; try discriminate E.
    apply IH in E; [exact E | | exact N].
    destruct (Py.contains marks d); [|exact K].
    apply keys_set. now right.
Qed.

Lemma range_split (m days : Z) :
  (0 <= m <= days)%Z ->
  Py.range (m + 1) = Py.range m ++ [m] /\
  exists post,
    Py.range (days + 1) = Py.range m ++ m :: post /\ ~ In m post.
Proof.
  intro B. unfold Py.range.
  replace (Z.to_nat (m + 1)) with (Z.to_nat m + 1)%nat by lia.
  replace (Z.to_nat (days + 1))
    with (Z.to_nat m + S (Z.to_nat (days - m)))%nat by lia.
  rewrite !seq_app, !map_app. cbn [seq map Nat.add].
  rewrite Z2Nat.id by lia. split; [reflexivity|].
  eexists. split; [reflexivity|].
  intro I. apply in_map_iff in I as (k & E & I).
  apply in_seq in I. lia.
Qed.

(** *** The rows *)

Lemma milestone_breakdown_rows (ms : list Z) (days : Z) (a b : Py.dict)
    (rows : list entry) :
  Simulator.milestone_breakdown ms days a b = Ok rows ->
  map day rows = filter (fun m => (m <=? days)%Z) ms /\
  Forall
    (fun row =>
       Py.get a (day row) = Some (cumulative_iaa row) /\
       Py.get b (day row) = Some (cumulative_iap row) /\
       cumulative_total row = cumulative_iaa row + cumulative_iap row)
    rows.
Proof.
  revert rows. induction ms as [|m ms IH]; intro rows;
    cbn [Simulator.milestone_breakdown filter].
  - intro E. injection E as <-. split; constructor.
  - destruct (m <=? days)%Z; [|apply IH].
    unfold Py.getitem.
    destruct (Py.get a m) as [x|] eqn:Ga; cbn [bind]; try discriminate.
    destruct (Py.get b m) as [y|] eqn:Gb; cbn [bind]; try discriminate.
    destruct (Simulator.milestone_breakdown ms days a b) as [rest| |];
      cbn [bind]; try discriminate.
    intro E. injection E as <-.
    destruct (IH rest eq_refl) as [D F].
    split; [cbn [map day]; now f_equal|].
    constructor; [cbn; auto | exact F].
Qed.

End Tables.

Section DeterministicTable.
Context {libm : Libm}.
Import AppConfig.

Lemma milestones_ascending : StronglySorted Z.lt Simulator.milestones.
Proof.
  unfold Simulator.milestones.
  repeat (apply SSorted_cons; [|repeat (apply Forall_cons; [lia|]);
                                apply Forall_nil]).
  apply SSorted_nil.
Qed.

Lemma milestones_nonneg (m : Z) : In m Simulator.milestones -> (0 <= m)%Z.
Proof. unfold Simulator.milestones. cbn [In]. lia. Qed.

Lemma sorted_milestones : Py.sorted Simulator.milestones = Simulator.milestones.
Proof. reflexivity. Qed.

Lemma keys_initial_marks :
  Py.keys (map (fun m : Z => (m, 0)) Simulator.milestones)
  = Simulator.milestones.
Proof. reflexivity. Qed.

(** What the deterministic accumulator computes, step by step. *)
Lemma calculate_ltv_deterministic (cfg : AppConfig.t)
    (p : SimulationParams.t) (days : Z) (r : LtvResult.t) :
  Sampler._is_deterministic cfg = true ->
  Simulator._calculate_ltv cfg p days = Ok r ->
  exists marks events,
    let zero := map (fun m : Z => (m, 0)) Simulator.milestones in
    let net :=
      1 - SubscriptionMetrics.platform_fee_rate (subscription cfg) in
    Simulator.iaa_loop cfg p (Py.range (days + 1)) 0 zero
    = Ok (LtvResult.ltv_iaa r, marks) /\
    Simulator.iap_events cfg p days = Ok events /\
    LtvResult.ltv_iap r
    = Py.sum (map snd (Simulator.sort_events events)) * net /\
    Simulator.milestone_breakdown Simulator.milestones days marks
      (Simulator.iap_milestones Simulator.milestones
         (Simulator.sort_events events) 0 net zero)
    = Ok (LtvResult.daily_breakdown r).
Proof.
  intros D E. unfold Simulator._calculate_ltv in E. rewrite D in E.
  rewrite sorted_milestones in E.
  destruct (Simulator.iaa_loop cfg p _ 0 _) as [[iaa marks]| |] eqn:A;
    cbn [bind] in E; try discriminate E.
  destruct (Simulator.iap_events cfg p days) as [events| |] eqn:Ev;
    cbn [bind] in E; try discriminate E.
  destruct (Simulator.milestone_breakdown _ _ _ _) as [rows| |] eqn:B;
    cbn [bind] in E; try discriminate E.
  destruct (SimulationParams.blended_cpi p) as [b| |];
    cbn [bind] in E; try discriminate E.
  destruct (SimulationParams.cpi_paid p) as [c| |];
    cbn [bind] in E; try discriminate E.
  injection E as <-.
  exists marks, events. cbn [LtvResult.ltv_iaa LtvResult.ltv_iap
                             LtvResult.daily_breakdown].
  cbn zeta. repeat split; [exact A | exact B].
Qed.

Lemma deterministic_rows (cfg : AppConfig.t) (p : SimulationParams.t)
    (days : Z) (r : LtvResult.t) :
  Sampler._is_deterministic cfg = true ->
  Simulator._calculate_ltv cfg p days = Ok r ->
  exists events,
    Simulator.iap_events cfg p days = Ok events /\
    map day (LtvResult.daily_breakdown r)
    = filter (fun m => (m <=? days)%Z) Simulator.milestones /\
    Forall
      (fun row =>
         Simulator.iaa_sum cfg p (Py.range (day row + 1)) 0
         = Ok (cumulative_iaa row) /\
         cumulative_iap row
         == net_due (day row)
              (1 - SubscriptionMetrics.platform_fee_rate (subscription cfg))
              events /\
         cumulative_total row = cumulative_iaa row + cumulative_iap row)
      (LtvResult.daily_breakdown r).
Proof.
  intros D E.
  destruct (calculate_ltv_deterministic cfg p days r D E)
    as (marks & events & Ea & Ev & _ & B).
  cbn zeta in *. exists events. split; [exact Ev|].
  apply milestone_breakdown_rows in B as [Days Rows].
  split; [exact Days|].
  assert (In_ms : forall row, In row (LtvResult.daily_breakdown r) ->
            In (day row) Simulator.milestones /\ (day row <= days)%Z).
  { intros row I. apply (in_map day) in I. rewrite Days in I.
    apply filter_In in I as [I Le]. apply Z.leb_le in Le. now split. }
  rewrite Forall_forall in Rows. apply Forall_forall. intros row I.
  destruct (Rows row I) as (Ga & Gb & T).
  destruct (In_ms row I) as [M Le].
  pose proof (milestones_nonneg _ M) as Nn.
  destruct (range_split (day row) days (conj Nn Le))
    as (Rg & post & Sp & Np).
  split; [|split; [|exact T]].
  - rewrite Sp in Ea.
    destruct (iaa_loop_mark cfg p _ _ _ _ _ _ _ Ea) as (c & S & G).
    + now rewrite keys_initial_marks.
    + exact Np.
    + rewrite Rg, S. congruence.
  - destruct (iap_milestones_spec Simulator.milestones milestones_ascending
                (Simulator.sort_events events) 0
                (1 - SubscriptionMetrics.platform_fee_rate (subscription cfg))
                (map (fun m : Z => (m, 0)) Simulator.milestones)
                (day row) (sort_events_sorted events) M) as (c & G & Ec).
    rewrite G in Gb. injection Gb as <-.
    rewrite Ec, net_due_sort. ring.
Qed.

End DeterministicTable.

Section Prefix.
Context {libm : Libm}.
Import AppConfig.

Lemma renewals_not_before (fuel : nat) (plan : SubscriptionPlan.t)
    (p : SimulationParams.t) (subs : Q) (days cycle next_day : Z) (r : Q)
    (l : list Simulator.event) :
  (0 <= SubscriptionPlan.duration_days plan)%Z ->
  Simulator.renewals fuel plan p subs days cycle next_day r = Ok l ->
  Forall (fun e => (next_day <= fst e)%Z) l.
Proof.
  intro Nn. revert cycle next_day r l.
  induction fuel as [|fuel IH]; intros cycle next_day r l E;
    cbn [Simulator.renewals] in E;
    destruct ((next_day <=? days)%Z && (cycle <=? 52)%Z)%bool;
    try discriminate E; try (injection E as <-; constructor).
  destruct (SubscriptionPlan.get_renewal_rate plan cycle) as [rate| |];
    cbn [bind] in E; try discriminate E.
  destruct (Simulator.renewals fuel plan p subs days _ _ _) as [rest| |] eqn:R;
    cbn [bind] in E; try discriminate E.
  injection E as <-. constructor; [cbn [fst]; lia|].
  apply IH in R. eapply Forall_impl; [|exact R]. cbn beta. intros; lia.
Qed.

Lemma due_none (m : Z) (l : list Simulator.event) :
  Forall (fun e => (m < fst e)%Z) l -> due m l = [].
Proof.
  induction 1 as [|e l H F IH]; cbn [due filter]; [reflexivity|].
  replace (fst e <=? m)%Z with false by (symmetry; apply Z.leb_gt; lia).
  exact IH.
Qed.

Lemma due_app (m : Z) (l l' : list Simulator.event) :
  due m (l ++ l') = due m l ++ due m l'.
Proof. apply filter_app. Qed.

(** With a shorter horizon the renewal loop yields the payments of the
    longer one that fall within it. *)
Lemma renewals_prefix (fuel : nat) (plan : SubscriptionPlan.t)
    (p : SimulationParams.t) (subs : Q) (m days cycle next_day : Z) (r : Q)
    (l : list Simulator.event) :
  (0 <= SubscriptionPlan.duration_days plan)%Z ->
  (m <= days)%Z ->
  Simulator.renewals fuel plan p subs days cycle next_day r = Ok l ->
  Simulator.renewals fuel plan p subs m cycle next_day r = Ok (due m l).
Proof.
  intros Nn Le. revert cycle next_day r l.
  induction fuel as [|fuel IH]; intros cycle next_day r l E.
  - cbn [Simulator.renewals] in *.
    destruct (next_day <=? days)%Z eqn:C1, (cycle <=? 52)%Z eqn:C2;
      cbn [andb] in E; try discriminate E; injection E as <-;
      cbn [due filter].
    + now rewrite andb_false_r.
    + replace (next_day <=? m)%Z with false
        by (symmetry; apply Z.leb_gt; apply Z.leb_gt in C1; lia).
      reflexivity.
    + now rewrite andb_false_r.
  - pose proof (renewals_not_before _ _ _ _ _ _ _ _ _ Nn E) as Nb.
    cbn [Simulator.renewals] in *.
    destruct (next_day <=? m)%Z eqn:Cm.
    + apply Z.leb_le in Cm.
      replace (next_day <=? days)%Z with true in E
        by (symmetry; apply Z.leb_le; lia).
      destruct (cycle <=? 52)%Z; cbn [andb] in *;
        [|injection E as <-; reflexivity].
      destruct (SubscriptionPlan.get_renewal_rate plan cycle) as [rate| |];
        cbn [bind] in *; try discriminate E.
      destruct (Simulator.renewals fuel plan p subs days _ _ _)
        as [rest| |] eqn:R; cbn [bind] in E; try discriminate E.
      injection E as <-. rewrite (IH _ _ _ _ R). cbn [bind due filter fst].
      replace (next_day <=? m)%Z with true
        by (symmetry; apply Z.leb_le; lia).
      reflexivity.
    + cbn [andb]. apply Z.leb_gt in Cm. f_equal. symmetry.
      apply due_none. eapply Forall_impl; [|exact Nb].
      cbn beta. intros; lia.
Qed.

Lemma plan_events_prefix (cfg : AppConfig.t) (p : SimulationParams.t)
    (m days : Z) (plan : SubscriptionPlan.t) (l : list Simulator.event) :
  (0 <= SubscriptionPlan.duration_days plan)%Z ->
  (m <= days)%Z ->
  Simulator.plan_events cfg p days plan = Ok l ->
  Simulator.plan_events cfg p m plan = Ok (due m l).
Proof.
  intros Nn Le E. unfold Simulator.plan_events in *.
  set (first_day := (_ + _)%Z) in *.
  destruct (first_day <=? m)%Z eqn:Cm.
  - apply Z.leb_le in Cm.
    replace (first_day <=? days)%Z with true in E
      by (symmetry; apply Z.leb_le; lia).
    destruct (SubscriptionPlan.duration_days plan <? 36500)%Z.
    + destruct (Simulator.renewals 52 plan p _ days _ _ _) as [rest| |] eqn:R;
        cbn [bind] in E; try discriminate E.
      injection E as <-.
      rewrite (renewals_prefix _ _ _ _ _ _ _ _ _ _ Nn Le R).
      cbn [bind due filter fst].
      replace (first_day <=? m)%Z with true
        by (symmetry; apply Z.leb_le; lia).
      reflexivity.
    + injection E as <-. cbn [due filter fst].
      replace (first_day <=? m)%Z with true
        by (symmetry; apply Z.leb_le; lia).
      reflexivity.
  - apply Z.leb_gt in Cm. f_equal. symmetry. apply due_none.
    destruct (first_day <=? days)%Z; [|injection E as <-; constructor].
    destruct (SubscriptionPlan.duration_days plan <? 36500)%Z.
    + destruct (Simulator.renewals 52 plan p _ days _ _ _) as [rest| |] eqn:R;
        cbn [bind] in E; try discriminate E.
      injection E as <-. constructor; [cbn [fst]; lia|].
      apply (renewals_not_before _ _ _ _ _ _ _ _ _ Nn) in R.
      eapply Forall_impl; [|exact R]. cbn beta. intros; lia.
    + injection E as <-. repeat constructor. cbn [fst]. lia.
Qed.

Lemma all_events_prefix (cfg : AppConfig.t) (p : SimulationParams.t)
    (m days : Z) (plans : list SubscriptionPlan.t)
    (l : list Simulator.event) :
  Forall (fun plan => (0 <= SubscriptionPlan.duration_days plan)%Z) plans ->
  (m <= days)%Z ->
  Simulator.all_events cfg p days plans = Ok l ->
  Simulator.all_events cfg p m plans = Ok (due m l).
Proof.
  intros F Le. revert l.
  induction F as [|plan plans Nn F IH]; intros l E;
    cbn [Simulator.all_events] in *.
  - injection E as <-. reflexivity.
  - destruct (Simulator.plan_events cfg p days plan) as [es| |] eqn:P;
      cbn [bind] in E; try discriminate E.
    destruct (Simulator.all_events cfg p days plans) as [es'| |];
      cbn [bind] in E; try discriminate E.
    injection E as <-.
    rewrite (plan_events_prefix _ _ _ _ _ _ Nn Le P), (IH _ eq_refl).
    cbn [bind]. now rewrite due_app.
Qed.

End Prefix.

Section StochasticTable.
Context {libm : Libm}.
Import AppConfig.

Lemma in_insert_event (e x : Simulator.event) (l : list Simulator.event) :
  In x (Simulator.insert_event e l) <-> x = e \/ In x l.
Proof.
  induction l as [|a l IH]; cbn [Simulator.insert_event In].
  - intuition.
  - destruct (fst e <=? fst a)%Z; cbn [In]; [intuition|].
    rewrite IH. intuition.
Qed.

Lemma in_sort_events (x : Simulator.event) (l : list Simulator.event) :
  In x (Simulator.sort_events l) <-> In x l.
Proof.
  induction l as [|a l IH]; cbn [Simulator.sort_events fold_right In];
    [tauto|].
  fold (Simulator.sort_events l). rewrite in_insert_event, IH. intuition.
Qed.

Lemma overdue_all (m : Z) (l : list Simulator.event) :
  Forall (fun e => (m < fst e)%Z) l -> overdue m l = l.
Proof.
  induction 1 as [|e l H F IH]; cbn [overdue filter]; [reflexivity|].
  replace (fst e <=? m)%Z with false by (symmetry; apply Z.leb_gt; lia).
  cbn [negb]. f_equal. exact IH.
Qed.

Lemma overdue_after (m : Z) (l : list Simulator.event) :
  Forall (fun e => (m < fst e)%Z) (overdue m l).
Proof.
  apply Forall_forall. intros e I. apply filter_In in I as [_ C].
  apply negb_true_iff, Z.leb_gt in C. exact C.
Qed.

(** On events sorted by day, none of them before [today], the inner
    [while] takes exactly the events that are due. *)
Lemma take_today_sorted (l : list Simulator.event) (today : Z)
    (acc net : Q) :
  StronglySorted by_day l ->
  Forall (fun e => (today <= fst e)%Z) l ->
  snd (Simulator.take_today l today acc net) = overdue today l /\
  fst (Simulator.take_today l today acc net) == acc + net_due today net l.
Proof.
  intro S. revert acc. induction S as [|[d a] l S IH F]; intros acc G;
    cbn [Simulator.take_today].
  - split; [reflexivity|]. rewrite net_due_nil. cbn [fst]. ring.
  - inversion G as [|? ? Gd Gl]; subst. cbn [fst] in Gd.
    destruct (Z.eqb_spec d today) as [->|N].
    + destruct (IH (acc + a * net) Gl) as [I1 I2]. split.
      * rewrite I1. unfold overdue. cbn [filter fst].
        now rewrite Z.leb_refl.
      * rewrite I2, net_due_cons. cbn [fst snd]. rewrite Z.leb_refl. ring.
    + assert (A : Forall (fun e => (today < fst e)%Z) ((d, a) :: l)).
      { constructor; [cbn [fst]; lia|].
        eapply Forall_impl; [|exact F]. unfold by_day. cbn [fst].
        intros; lia. }
      cbn [fst snd]. split.
      * symmetry. now apply overdue_all.
      * match goal with
        | |- _ == _ + ?x => assert (Z0 : x == 0)
        end.
        { unfold net_due. pose proof (due_none _ _ A) as Dn.
          unfold Simulator.event in *. now rewrite Dn. }
        rewrite Z0. ring.
Qed.

(** The rows of the daily loop started on day [k] with the totals [ciaa]
    and [ciap]. *)
Lemma daily_loop_rows (cfg : AppConfig.t) (p : SimulationParams.t)
    (net : Q) (n : nat) :
  forall (k : nat) (ev : list Simulator.event) (ciaa ciap : Q)
         (rows : list entry),
    StronglySorted by_day ev ->
    Forall (fun e => (Z.of_nat k <= fst e)%Z) ev ->
    Simulator.daily_loop cfg p (map Z.of_nat (seq k n)) ev ciaa ciap net
    = Ok rows ->
    map day rows = map Z.of_nat (seq k n) /\
    Forall
      (fun row =>
         exists j : nat,
           day row = Z.of_nat (k + j) /\
           Simulator.iaa_sum cfg p (map Z.of_nat (seq k (S j))) ciaa
           = Ok (cumulative_iaa row) /\
           cumulative_iap row == ciap + net_due (day row) net ev /\
           cumulative_total row = cumulative_iaa row + cumulative_iap row)
      rows.
Proof.
  induction n as [|n IH]; intros k ev ciaa ciap rows Srt G E;
    cbn [seq map Simulator.daily_loop] in E.
  - injection E as <-. split; constructor.
  - destruct (Simulator._get_retention_at_day cfg (Z.of_nat k) _)
      as [r| |] eqn:R; cbn [bind] in E; try discriminate E.
    destruct (SimulationParams.get_arpdau_at_day p (Z.of_nat k))
      as [a| |] eqn:A; cbn [bind] in E; try discriminate E.
    destruct (take_today_sorted ev (Z.of_nat k) 0 net Srt G) as [T1 T2].
    destruct (Simulator.take_today ev (Z.of_nat k) 0 net) as [daily ev'].
    cbn [fst snd] in T1, T2. subst ev'.
    destruct (Simulator.daily_loop cfg p _ _ _ _ net) as [rest| |] eqn:D;
      cbn [bind] in E; try discriminate E.
    injection E as <-.
    apply IH in D as [Days Rows].
    + split; [cbn [map day seq]; now f_equal|].
      constructor.
      * exists 0%nat. cbn [day cumulative_iaa cumulative_iap cumulative_total].
        rewrite Nat.add_0_r. split; [reflexivity|].
        cbn [seq map Simulator.iaa_sum]. rewrite R. cbn [bind].
        rewrite A. cbn [bind]. repeat split. rewrite T2. ring.
      * eapply Forall_impl; [|exact Rows]. cbn beta.
        intros row (j & Dj & Sj & Pj & Tj). exists (S j).
        split; [rewrite Dj; f_equal; lia|].
        split; [|split; [|exact Tj]].
        -- cbn [seq map Simulator.iaa_sum] in *. rewrite R. cbn [bind].
           rewrite A. cbn [bind]. exact Sj.
        -- rewrite Pj, T2.
           rewrite (net_due_later (Z.of_nat k) (day row) net ev)
             by (rewrite Dj; lia).
           ring.
    + now apply overdue_sorted.
    + eapply Forall_impl; [|apply overdue_after]. cbn beta. intros; lia.
Qed.

End StochasticTable.


Section Breakdown.
Context {libm : Libm}.
Import AppConfig.

Lemma plan_events_nonneg (cfg : AppConfig.t) (p : SimulationParams.t)
    (days : Z) (plan : SubscriptionPlan.t) (l : list Simulator.event) :
  (0 <= SubscriptionMetrics.exploitation_start_day (subscription cfg))%Z ->
  (0 <= SubscriptionPlan.duration_days plan)%Z ->
  (SubscriptionPlan.has_trial plan = true ->
   (0 <= SubscriptionPlan.trial_days plan)%Z) ->
  Simulator.plan_events cfg p days plan = Ok l ->
  Forall (fun e => (0 <= fst e)%Z) l.
Proof.
  intros Ne Nd Nt E. unfold Simulator.plan_events in E.
  set (first_day := (_ + _)%Z) in *.
  assert (Nf : (0 <= first_day)%Z).
  { subst first_day. destruct (SubscriptionPlan.has_trial plan);
      [specialize (Nt eq_refl)|]; lia. }
  destruct (first_day <=? days)%Z; [|injection E as <-; constructor].
  destruct (SubscriptionPlan.duration_days plan <? 36500)%Z.
  - destruct (Simulator.renewals 52 plan p _ days _ _ _) as [rest| |] eqn:R;
      cbn [bind] in E; try discriminate E.
    injection E as <-. constructor; [exact Nf|].
    apply (renewals_not_before _ _ _ _ _ _ _ _ _ Nd) in R.
    eapply Forall_impl; [|exact R]. cbn beta. intros; lia.
  - injection E as <-. repeat constructor. exact Nf.
Qed.

Lemma iap_events_nonneg (cfg : AppConfig.t) (p : SimulationParams.t)
    (days : Z) (l : list Simulator.event) :
  forward_schedule cfg ->
  Simulator.iap_events cfg p days = Ok l ->
  Forall (fun e => (0 <= fst e)%Z) l.
Proof.
  intros [Ne F]. unfold Simulator.iap_events. revert l.
  induction F as [|plan plans [Nd Nt] F IH]; intros l E;
    cbn [Simulator.all_events] in E.
  - injection E as <-. constructor.
  - destruct (Simulator.plan_events cfg p days plan) as [es| |] eqn:P;
      cbn [bind] in E; try discriminate E.
    destruct (Simulator.all_events cfg p days plans) as [es'| |];
      cbn [bind] in E; try discriminate E.
    injection E as <-. apply Forall_app. split.
    + exact (plan_events_nonneg _ _ _ _ _ Ne Nd Nt P).
    + now apply IH.
Qed.

(** X7.  No payment is dated after the horizon, and with a forward
    schedule none is dated before day 0. *)
Theorem payments_fall_within_the_horizon (cfg : AppConfig.t)
    (p : SimulationParams.t) (days : Z) :
  exists events,
    Simulator.iap_events cfg p days = Ok events /\
    Forall (fun e => (fst e <= days)%Z) events /\
    (forward_schedule cfg -> Forall (fun e => (0 <= fst e)%Z) events).
Proof.
  destruct (iap_events_returns cfg p days) as [events E].
  exists events. split; [exact E|]. split.
  - eapply all_events_within_horizon, E.
  - intro W. exact (iap_events_nonneg cfg p days events W E).
Qed.

Lemma iap_events_prefix (cfg : AppConfig.t) (p : SimulationParams.t)
    (m days : Z) (l : list Simulator.event) :
  forward_schedule cfg ->
  (m <= days)%Z ->
  Simulator.iap_events cfg p days = Ok l ->
  Simulator.iap_events cfg p m = Ok (due m l).
Proof.
  intros [_ F] Le. apply all_events_prefix; [|exact Le].
  eapply Forall_impl; [|exact F]. cbn beta. tauto.
Qed.

Lemma daily_loop_days (cfg : AppConfig.t) (p : SimulationParams.t)
    (net : Q) (ds : list Z) :
  forall (ev : list Simulator.event) (ciaa ciap : Q) (rows : list entry),
    Simulator.daily_loop cfg p ds ev ciaa ciap net = Ok rows ->
    map day rows = ds.
Proof.
  induction ds as [|d ds IH]; intros ev ciaa ciap rows E;
    cbn [Simulator.daily_loop] in E.
  - now injection E as <-.
  - destruct (Simulator._get_retention_at_day cfg d _) as [r| |];
      cbn [bind] in E; try discriminate E.
    destruct (SimulationParams.get_arpdau_at_day p d) as [a| |];
      cbn [bind] in E; try discriminate E.
    destruct (Simulator.take_today ev d 0 net) as [daily ev'].
    destruct (Simulator.daily_loop cfg p ds _ _ _ net) as [rest| |] eqn:D;
      cbn [bind] in E; try discriminate E.
    injection E as <-. cbn [map day]. f_equal. exact (IH _ _ _ _ D).
Qed.

(** What the stochastic accumulator computes, step by step. *)
Lemma calculate_ltv_stochastic (cfg : AppConfig.t)
    (p : SimulationParams.t) (days : Z) (r : LtvResult.t) :
  Sampler._is_deterministic cfg = false ->
  Simulator._calculate_ltv cfg p days = Ok r ->
  exists events,
    Simulator.iap_events cfg p days = Ok events /\
    Simulator.daily_loop cfg p (Py.range (days + 1))
      (Simulator.sort_events events) 0 0
      (1 - SubscriptionMetrics.platform_fee_rate (subscription cfg))
    = Ok (LtvResult.daily_breakdown r).
Proof.
  intros D E. unfold Simulator._calculate_ltv in E. rewrite D in E.
  destruct (Simulator.iaa_sum cfg p _ 0) as [iaa| |];
    cbn [bind] in E; try discriminate E.
  destruct (Simulator.iap_events cfg p days) as [events| |];
    cbn [bind] in E; try discriminate E.
  destruct (Simulator.daily_loop _ _ _ _ _ _ _) as [rows| |] eqn:B;
    cbn [bind] in E; try discriminate E.
  destruct (SimulationParams.blended_cpi p) as [b| |];
    cbn [bind] in E; try discriminate E.
  destruct (SimulationParams.cpi_paid p) as [c| |];
    cbn [bind] in E; try discriminate E.
  injection E as <-. exists events. split; [reflexivity | exact B].
Qed.

Lemma stochastic_rows (cfg : AppConfig.t) (p : SimulationParams.t)
    (days : Z) (r : LtvResult.t) :
  Sampler._is_deterministic cfg = false ->
  forward_schedule cfg ->
  Simulator._calculate_ltv cfg p days = Ok r ->
  exists events,
    Simulator.iap_events cfg p days = Ok events /\
    map day (LtvResult.daily_breakdown r) = Py.range (days + 1) /\
    Forall
      (fun row =>
         Simulator.iaa_sum cfg p (Py.range (day row + 1)) 0
         = Ok (cumulative_iaa row) /\
         cumulative_iap row
         == net_due (day row)
              (1 - SubscriptionMetrics.platform_fee_rate (subscription cfg))
              events /\
         cumulative_total row = cumulative_iaa row + cumulative_iap row)
      (LtvResult.daily_breakdown r).
Proof.
  intros D W E.
  destruct (calculate_ltv_stochastic cfg p days r D E) as (events & Ev & B).
  exists events. split; [exact Ev|].
  unfold Py.range in B at 1.
  apply daily_loop_rows in B as [Days Rows].
  - split; [exact Days|].
    eapply Forall_impl; [|exact Rows]. cbn beta.
    intros row (j & Dj & Sj & Pj & Tj). cbn [Nat.add] in Dj.
    split; [|split; [|exact Tj]].
    + unfold Py.range. rewrite Dj.
      replace (Z.to_nat (Z.of_nat j + 1)) with (S j) by lia. exact Sj.
    + rewrite Pj, net_due_sort. ring.
  - apply sort_events_sorted.
  - apply Forall_forall. intros e I. apply (proj1 (in_sort_events _ _)) in I.
    pose proof (iap_events_nonneg cfg p days events W Ev) as Nn.
    rewrite Forall_forall in Nn. specialize (Nn e I). cbn. lia.
Qed.

Lemma breakdown_rows (cfg : AppConfig.t) (p : SimulationParams.t)
    (days : Z) (r : LtvResult.t) :
  forward_schedule cfg ->
  Simulator._calculate_ltv cfg p days = Ok r ->
  exists events,
    Simulator.iap_events cfg p days = Ok events /\
    Forall
      (fun row =>
         (0 <= day row <= days)%Z /\
         Simulator.iaa_sum cfg p (Py.range (day row + 1)) 0
         = Ok (cumulative_iaa row) /\
         cumulative_iap row
         == net_due (day row)
              (1 - SubscriptionMetrics.platform_fee_rate (subscription cfg))
              events /\
         cumulative_total row = cumulative_iaa row + cumulative_iap row)
      (LtvResult.daily_breakdown r).
Proof.
  intros W E.
  assert (exists events,
    Simulator.iap_events cfg p days = Ok events /\
    (forall row, In row (LtvResult.daily_breakdown r) ->
                 (0 <= day row <= days)%Z) /\
    Forall
      (fun row =>
         Simulator.iaa_sum cfg p (Py.range (day row + 1)) 0
         = Ok (cumulative_iaa row) /\
         cumulative_iap row
         == net_due (day row)
              (1 - SubscriptionMetrics.platform_fee_rate (subscription cfg))
              events /\
         cumulative_total row = cumulative_iaa row + cumulative_iap row)
      (LtvResult.daily_breakdown r)) as (events & Ev & Rg & Rows).
  { destruct (Sampler._is_deterministic cfg) eqn:D.
    - destruct (deterministic_rows cfg p days r D E)
        as (events & Ev & Days & Rows).
      exists events. repeat split; try assumption;
        apply (in_map day) in H; rewrite Days in H;
        apply filter_In in H as [M Le].
      + now apply milestones_nonneg.
      + now apply Z.leb_le.
    - destruct (stochastic_rows cfg p days r D W E)
        as (events & Ev & Days & Rows).
      exists events. repeat split; try assumption;
        apply (in_map day) in H; rewrite Days in H;
        unfold Py.range in H; apply in_map_iff in H as (k & <- & I);
        apply in_seq in I; lia. }
  exists events. split; [exact Ev|].
  rewrite Forall_forall in Rows. apply Forall_forall. intros row I.
  split; [now apply Rg | now apply Rows].
Qed.

(** X8.  Each row of the breakdown is the LTV at that row's day: run
    with the row's day as the horizon, the accumulator returns the row's
    cumulative ad revenue as [ltv_iaa], its cumulative subscription
    revenue as [ltv_iap] and its total as [ltv_total]. *)
Theorem breakdown_row_is_ltv_at_its_day (cfg : AppConfig.t)
    (p : SimulationParams.t) (days : Z) (r : LtvResult.t) (row : entry) :
  forward_schedule cfg ->
  Simulator._calculate_ltv cfg p days = Ok r ->
  In row (LtvResult.daily_breakdown r) ->
  exists r',
    Simulator._calculate_ltv cfg p (day row) = Ok r' /\
    LtvResult.ltv_iaa r' = cumulative_iaa row /\
    LtvResult.ltv_iap r' == cumulative_iap row /\
    LtvResult.ltv_total r' == cumulative_total row.
Proof.
  intros W E I.
  destruct (breakdown_rows cfg p days r W E) as (events & Ev & Rows).
  rewrite Forall_forall in Rows.
  destruct (Rows row I) as (Rg & Sa & Pa & Ta).
  destruct (calculate_ltv_returns cfg p (day row) _ Sa
              (calculate_ltv_cpi_returns _ _ _ _ E))
    as (r' & events' & E' & Ev' & Ia & Ip & It & _).
  rewrite (iap_events_prefix cfg p (day row) days events W (proj2 Rg) Ev)
    in Ev'.
  injection Ev' as <-.
  assert (P : LtvResult.ltv_iap r' == cumulative_iap row).
  { rewrite Ip, sum_billed, Pa. unfold net_due. now rewrite sum_scaled. }
  exists r'. repeat split; try assumption.
  rewrite It, Ta, Ia, P. reflexivity.
Qed.

(** X9.  The days of the breakdown: the milestone days up to the horizon
    in deterministic mode, every day from 0 to the horizon otherwise. *)
Theorem breakdown_days (cfg : AppConfig.t) (p : SimulationParams.t)
    (days : Z) (r : LtvResult.t) :
  Simulator._calculate_ltv cfg p days = Ok r ->
  map day (LtvResult.daily_breakdown r)
  = if Sampler._is_deterministic cfg
    then filter (fun m => (m <=? days)%Z) Simulator.milestones
    else Py.range (days + 1).
Proof.
  intro E. destruct (Sampler._is_deterministic cfg) eqn:D.
  - destruct (deterministic_rows cfg p days r D E) as (_ & _ & Days & _).
    exact Days.
  - destruct (calculate_ltv_stochastic cfg p days r D E) as (events & _ & B).
    exact (daily_loop_days _ _ _ _ _ _ _ _ B).
Qed.

End Breakdown.

Section ByDay.

Lemma keys_set_new (d : Py.dict) (k : Z) (v : Q) :
  ~ In k (Py.keys d) -> Py.keys (Py.set d k v) = Py.keys d ++ [k].
Proof.
  induction d as [|[a b] d IH]; cbn [Py.set Py.keys map fst app In];
    intro N; [reflexivity|].
  destruct (Z.eqb_spec a k) as [->|Na]; [exfalso; apply N; now left|].
  cbn [map fst]. f_equal. apply IH. intro I. apply N. now right.
Qed.

Lemma breakdown_by_day_fold (rows : list entry) :
  forall d0 : Py.dict,
    NoDup (Py.keys d0 ++ map day rows) ->
    Forall (fun row => (0 <= day row)%Z) rows ->
    let d :=
      fold_left
        (fun d e =>
           if (0 <=? day e)%Z then Py.set d (day e) (cumulative_total e)
           else d) rows d0 in
    Py.keys d = Py.keys d0 ++ map day rows /\
    (forall k, ~ In k (map day rows) -> Py.get d k = Py.get d0 k) /\
    (forall row, In row rows ->
                 Py.get d (day row) = Some (cumulative_total row)).
Proof.
  induction rows as [|row rows IH]; intros d0 Nd Nn; cbn [fold_left map].
  - rewrite app_nil_r. repeat split. intros row [].
  - inversion Nn as [|? ? N0 Nn']; subst.
    replace (0 <=? day row)%Z with true by (symmetry; apply Z.leb_le; lia).
    assert (Nk : ~ In (day row) (Py.keys d0)).
    { intro I. apply NoDup_remove_2 in Nd. apply Nd, in_or_app. now left. }
    assert (Nr : ~ In (day row) (map day rows)).
    { intro I. apply NoDup_remove_2 in Nd. apply Nd, in_or_app. now right. }
    destruct (IH (Py.set d0 (day row) (cumulative_total row)))
      as (K & O & G).
    + rewrite keys_set_new by exact Nk. rewrite <- app_assoc. exact Nd.
    + exact Nn'.
    + cbv zeta. split; [|split].
      * rewrite K, keys_set_new by exact Nk. now rewrite <- app_assoc.
      * intros k N. rewrite O by (intro I; apply N; now right).
        apply get_set_other. intros ->. apply N. now left.
      * intros x [<-|I]; [|now apply G].
        rewrite O by exact Nr. apply get_set_same.
Qed.

Lemma breakdown_by_day_spec (rows : list entry) :
  NoDup (map day rows) ->
  Forall (fun row => (0 <= day row)%Z) rows ->
  Py.keys (Simulator.breakdown_by_day rows) = map day rows /\
  (forall row, In row rows ->
     Py.get (Simulator.breakdown_by_day rows) (day row)
     = Some (cumulative_total row)).
Proof.
  intros Nd Nn.
  destruct (breakdown_by_day_fold rows [] Nd Nn) as (K & _ & G).
  split; [exact K | exact G].
Qed.

Lemma sorted_ascending (l : list Z) :
  StronglySorted Z.lt l -> Py.sorted l = l.
Proof.
  induction 1 as [|a l S IH F]; cbn [Py.sorted fold_right]; [reflexivity|].
  fold (Py.sorted l). rewrite IH.
  destruct l as [|b l]; cbn [Py.insert]; [reflexivity|].
  inversion F as [|? ? Lt _]; subst.
  replace (a <=? b)%Z with true by (symmetry; apply Z.leb_le; lia).
  reflexivity.
Qed.

Lemma last_cons (a : Z) (l : list Z) (c : Z) : last (a :: l) c = last l a.
Proof.
  revert a c. induction l as [|b l IH]; intros a c; [reflexivity|].
  change (last (a :: b :: l) c) with (last (b :: l) c).
  now rewrite !IH.
Qed.

Lemma closest_before_last (l : list Z) (m c : Z) :
  Forall (fun d => (d <= m)%Z) l ->
  Simulator.closest_before l m c = last l c.
Proof.
  intro F. revert c. induction F as [|d l Le F IH]; intro c;
    cbn [Simulator.closest_before]; [reflexivity|].
  replace (d <=? m)%Z with true by (symmetry; apply Z.leb_le; lia).
  rewrite IH. symmetry. apply last_cons.
Qed.

Lemma ascending_nodup (l : list Z) : StronglySorted Z.lt l -> NoDup l.
Proof.
  induction 1 as [|a l S IH F]; constructor; [|exact IH].
  intro I. rewrite Forall_forall in F. specialize (F a I). lia.
Qed.

Lemma ascending_filter (f : Z -> bool) (l : list Z) :
  StronglySorted Z.lt l -> StronglySorted Z.lt (filter f l).
Proof.
  induction 1 as [|a l S IH F]; cbn [filter]; [constructor|].
  destruct (f a); [|exact IH].
  constructor; [exact IH|].
  apply Forall_forall. intros x I. apply filter_In in I as [I _].
  rewrite Forall_forall in F. now apply F.
Qed.

Lemma ascending_seq (n k : nat) :
  StronglySorted Z.lt (map Z.of_nat (seq k n)).
Proof.
  revert k. induction n as [|n IH]; intro k; cbn [seq map]; constructor.
  - apply IH.
  - apply Forall_forall. intros x I. apply in_map_iff in I as (j & <- & I).
    apply in_seq in I. lia.
Qed.

End ByDay.

Section Curve.
Context {libm : Libm}.
Import AppConfig.

Lemma breakdown_days_ascending (cfg : AppConfig.t) (p : SimulationParams.t)
    (days : Z) (r : LtvResult.t) :
  Simulator._calculate_ltv cfg p days = Ok r ->
  StronglySorted Z.lt (map day (LtvResult.daily_breakdown r)) /\
  Forall (fun row => (0 <= day row <= days)%Z) (LtvResult.daily_breakdown r).
Proof.
  intro E.
  assert (D : map day (LtvResult.daily_breakdown r)
              = filter (fun m => (m <=? days)%Z) Simulator.milestones
              \/ map day (LtvResult.daily_breakdown r) = Py.range (days + 1)).
  { destruct (Sampler._is_deterministic cfg) eqn:D.
    - left. destruct (deterministic_rows cfg p days r D E) as (_ & _ & Days & _).
      exact Days.
    - right.
      destruct (calculate_ltv_stochastic cfg p days r D E) as (ev & _ & B).
      exact (daily_loop_days _ _ _ _ _ _ _ _ B). }
  split.
  - destruct D as [-> | ->];
      [apply ascending_filter, milestones_ascending | apply ascending_seq].
  - apply Forall_forall. intros row I. apply (in_map day) in I.
    destruct D as [D|D]; rewrite D in I.
    + apply filter_In in I as [M Le]. apply Z.leb_le in Le.
      apply milestones_nonneg in M. lia.
    + unfold Py.range in I. apply in_map_iff in I as (k & <- & I).
      apply in_seq in I. lia.
Qed.

Lemma roas_curve_of_entries (ms : list Z) (by_day : Py.dict)
    (cpi : pyfloat) (curve : list (Z * pyfloat)) :
  Simulator.roas_curve_of ms by_day cpi = Ok curve ->
  map fst curve = ms /\
  forall m, In m ms ->
    exists c v,
      Simulator.cumulative_ltv_at by_day m = Ok c /\
      F.rdiv c cpi = Ok v /\ In (m, v) curve.
Proof.
  revert curve. induction ms as [|a ms IH]; intros curve E;
    cbn [Simulator.roas_curve_of] in E.
  - injection E as <-. split; [reflexivity | intros m []].
  - destruct (Simulator.cumulative_ltv_at by_day a) as [c| |] eqn:C;
      cbn [bind] in E; try discriminate E.
    destruct (F.rdiv c cpi) as [v| |] eqn:V;
      cbn [bind] in E; try discriminate E.
    destruct (Simulator.roas_curve_of ms by_day cpi) as [rest| |];
      cbn [bind] in E; try discriminate E.
    injection E as <-. destruct (IH rest eq_refl) as [K G].
    split; [cbn [map fst]; now f_equal|].
    intros m [<-|I].
    + exists c, v. repeat split; try assumption. now left.
    + destruct (G m I) as (c' & v' & C' & V' & I').
      exists c', v'. repeat split; try assumption. now right.
Qed.

Lemma scenario_of_finite (p : SimulationParams.t) (r : LtvResult.t)
    (sc : Scenario.t) (q : Q) :
  Simulator.scenario_of p r = Ok sc ->
  LtvResult.blended_cpi r = Fin q -> 0 < q ->
  Scenario.roas sc = Fin (LtvResult.ltv_total r / q) /\
  Simulator.roas_curve_of Simulator.milestones
    (Simulator.breakdown_by_day (LtvResult.daily_breakdown r)) (Fin q)
  = Ok (Scenario.roas_curve sc).
Proof.
  intros E B P. unfold Simulator.scenario_of in E. rewrite B in E.
  cbn [F.gt0 F.ne_inf F.rdiv] in E.
  rewrite (proj2 (PyFacts.lt_true 0 q) P) in E. cbn [andb] in E.
  rewrite PyFacts.truediv_ok in E
    by (intro Z0; rewrite Z0 in P; exact (Qlt_irrefl _ P)).
  cbn [bind] in E.
  destruct (Simulator.roas_curve_of _ _ _) as [curve| |];
    cbn [bind] in E; try discriminate E.
  injection E as <-. split; reflexivity.
Qed.

End Curve.

Section CurveTheorem.
Context {libm : Libm}.
Import AppConfig.

Lemma breakdown_lookup (cfg : AppConfig.t) (p : SimulationParams.t)
    (days : Z) (r : LtvResult.t) :
  Simulator._calculate_ltv cfg p days = Ok r ->
  Py.keys (Simulator.breakdown_by_day (LtvResult.daily_breakdown r))
  = map day (LtvResult.daily_breakdown r) /\
  (forall row, In row (LtvResult.daily_breakdown r) ->
     Py.get (Simulator.breakdown_by_day (LtvResult.daily_breakdown r))
       (day row) = Some (cumulative_total row)).
Proof.
  intro E.
  destruct (breakdown_days_ascending cfg p days r E) as [Asc Rg].
  apply breakdown_by_day_spec.
  - now apply ascending_nodup.
  - eapply Forall_impl; [|exact Rg]. cbn beta. intros; lia.
Qed.

Lemma roas_curve_at (p : SimulationParams.t) (r : LtvResult.t)
    (sc : Scenario.t) (q c : Q) (m : Z) :
  Simulator.scenario_of p r = Ok sc ->
  LtvResult.blended_cpi r = Fin q -> 0 < q ->
  In m Simulator.milestones ->
  Simulator.cumulative_ltv_at
    (Simulator.breakdown_by_day (LtvResult.daily_breakdown r)) m = Ok c ->
  In (m, Fin (c / q)) (Scenario.roas_curve sc).
Proof.
  intros Sc B P M A.
  destruct (scenario_of_finite p r sc q Sc B P) as [_ C].
  destruct (roas_curve_of_entries _ _ _ _ C) as [_ G].
  destruct (G m M) as (c' & v & C' & V & I).
  rewrite A in C'. injection C' as <-.
  cbn [F.rdiv] in V.
  rewrite PyFacts.truediv_ok in V
    by (intro Z0; rewrite Z0 in P; exact (Qlt_irrefl _ P)).
  cbn [bind] in V. injection V as <-. exact I.
Qed.

Lemma roas_curve_at_row (cfg : AppConfig.t) (p : SimulationParams.t)
    (days : Z) (r : LtvResult.t) (sc : Scenario.t) (q : Q) (row : entry) :
  Simulator._calculate_ltv cfg p days = Ok r ->
  Simulator.scenario_of p r = Ok sc ->
  LtvResult.blended_cpi r = Fin q -> 0 < q ->
  In row (LtvResult.daily_breakdown r) ->
  In (day row) Simulator.milestones ->
  In (day row, Fin (cumulative_total row / q)) (Scenario.roas_curve sc).
Proof.
  intros E Sc B P I M.
  destruct (breakdown_lookup cfg p days r E) as [Keys Get].
  apply (roas_curve_at p r sc q _ _ Sc B P M).
  unfold Simulator.cumulative_ltv_at.
  replace (Py.contains _ (day row)) with true.
  - unfold Py.getitem. now rewrite (Get row I).
  - symmetry. apply PyFacts.contains_true. rewrite Keys. now apply in_map.
Qed.

(** X10.  With a finite positive blended CPI the ROAS curve has one point
    per milestone day; at a milestone that is a day of the breakdown the
    point is that row's cumulative total over the blended CPI, and at a
    milestone after the horizon it is the last row's total over the
    blended CPI. *)
Theorem roas_curve_reads_the_breakdown (cfg : AppConfig.t)
    (p : SimulationParams.t) (days : Z) (r : LtvResult.t)
    (sc : Scenario.t) (q : Q) :
  Simulator._calculate_ltv cfg p days = Ok r ->
  Simulator.scenario_of p r = Ok sc ->
  LtvResult.blended_cpi r = Fin q -> 0 < q ->
  map fst (Scenario.roas_curve sc) = Simulator.milestones /\
  (forall row,
     In row (LtvResult.daily_breakdown r) ->
     In (day row) Simulator.milestones ->
     In (day row, Fin (cumulative_total row / q)) (Scenario.roas_curve sc)) /\
  (forall rows row m,
     LtvResult.daily_breakdown r = rows ++ [row] ->
     In m Simulator.milestones -> (days < m)%Z ->
     In (m, Fin (cumulative_total row / q)) (Scenario.roas_curve sc)).
Proof.
  intros E Sc B P.
  destruct (scenario_of_finite p r sc q Sc B P) as [_ C].
  destruct (roas_curve_of_entries _ _ _ _ C) as [K _].
  destruct (breakdown_days_ascending cfg p days r E) as [Asc Rg].
  destruct (breakdown_lookup cfg p days r E) as [Keys Get].
  split; [exact K|]. split.
  - intros row I M. exact (roas_curve_at_row cfg p days r sc q row E Sc B P I M).
  - intros rows row m R M Lt.
    assert (I : In row (LtvResult.daily_breakdown r)).
    { rewrite R. apply in_or_app. right. now left. }
    apply (roas_curve_at p r sc q _ _ Sc B P M).
    unfold Simulator.cumulative_ltv_at.
    assert (Nk : ~ In m (Py.keys (Simulator.breakdown_by_day
                                    (LtvResult.daily_breakdown r)))).
    { rewrite Keys. intro J. apply in_map_iff in J as (x & <- & J).
      rewrite Forall_forall in Rg. specialize (Rg x J). lia. }
    replace (Py.contains _ m) with false.
    2:{ symmetry. destruct (Py.contains _ m) eqn:Ct; [|reflexivity].
        apply PyFacts.contains_true in Ct. contradiction. }
    rewrite Keys, (sorted_ascending _ Asc).
    rewrite closest_before_last.
    2:{ apply Forall_forall. intros d J. apply in_map_iff in J as (x & <- & J).
        rewrite Forall_forall in Rg. specialize (Rg x J). lia. }
    replace (last (map day (LtvResult.daily_breakdown r)) (-1)%Z)
      with (day row)
      by (rewrite R, map_app; cbn [map]; now rewrite last_last).
    rewrite Forall_forall in Rg. specialize (Rg row I).
    replace (day row =? -1)%Z with false
      by (symmetry; apply Z.eqb_neq; lia).
    cbn [negb]. unfold Py.getitem. now rewrite (Get row I).
Qed.

End CurveTheorem.

Section Repeats.
Context {libm : Libm}.
Import AppConfig.

Lemma run_loop_deterministic (n : nat) (cfg : AppConfig.t) (days : Z)
    (fuel : nat) (g : rng) (acc : list Scenario.t) (r : LtvResult.t)
    (sc : Scenario.t) :
  Sampler._is_deterministic cfg = true ->
  Simulator._calculate_ltv cfg (configured_means cfg) days = Ok r ->
  Simulator.scenario_of (configured_means cfg) r = Ok sc ->
  Simulator.run_loop n cfg days fuel g acc = Ok (acc ++ repeat sc n, g).
Proof.
  intros D E Sc. revert acc. induction n as [|n IH]; intro acc;
    cbn [Simulator.run_loop repeat].
  - now rewrite app_nil_r.
  - rewrite sample_params_deterministic by exact D. cbn [bind].
    rewrite E. cbn [bind]. rewrite Sc. cbn [bind].
    rewrite IH, <- app_assoc. reflexivity.
Qed.

(** X11.  In deterministic mode a run whose decay half-life is positive
    and whose configured means have a paid CPI (the division of the CPM by
    [1000 * ctr * cvr] does not raise) returns the chosen number of copies
    of one scenario, the one computed from the configured means, and leaves
    the generator as it was. *)
Theorem deterministic_run_repeats_one_scenario (self : Simulator.t)
    (days : option Z) (fuel : nat) (g : rng) :
  Sampler._is_deterministic (Simulator.config self) = true ->
  (0 < AdsMetrics.decay_half_life_days (ads (Simulator.config self)))%Z ->
  returns (SimulationParams.cpi_paid
             (configured_means (Simulator.config self))) ->
  exists sc,
    Simulator.run self days fuel g
    = Ok (repeat sc (Z.to_nat (Simulator.n_simulations self)), g) /\
    Scenario.ecpm_d0 sc = AdsMetrics.ecpm_d0 (ads (Simulator.config self)) /\
    Scenario.organic_ratio sc
    = UAMetrics.organic_ratio (ua (Simulator.config self)) /\
    Scenario.retention_mult sc = 1.0.
Proof.
  intros D N Rc. unfold Simulator.run.
  set (d := match days with Some _ => _ | None => _ end).
  destruct (calculate_ltv_total (Simulator.config self)
              (configured_means (Simulator.config self)) d N Rc) as [r E].
  destruct (scenario_of_returns (configured_means (Simulator.config self)) r)
    as [sc Sc].
  exists sc. split.
  - now rewrite (run_loop_deterministic _ _ _ _ _ [] r sc D E Sc).
  - unfold Simulator.scenario_of in Sc.
    match type of Sc with
    | bind ?m _ = _ => destruct m; cbn [bind] in Sc; try discriminate Sc
    end.
    match type of Sc with
    | bind ?m _ = _ => destruct m; cbn [bind] in Sc; try discriminate Sc
    end.
    injection Sc as <-. repeat split.
Qed.

End Repeats.

Section Unpaid.
Context {libm : Libm}.
Import AppConfig.

Lemma scenario_of_unpaid (p : SimulationParams.t) (r : LtvResult.t)
    (sc : Scenario.t) :
  Simulator.scenario_of p r = Ok sc ->
  (F.gt0 (LtvResult.blended_cpi r) && F.ne_inf (LtvResult.blended_cpi r))%bool
  = false ->
  Scenario.roas sc = Fin 0 /\
  Scenario.profitable sc = false /\
  Scenario.roas_curve sc = map (fun m => (m, Fin 0)) Simulator.milestones.
Proof.
  intros E G. unfold Simulator.scenario_of in E. rewrite G in E.
  cbn [bind] in E. injection E as <-. repeat split.
Qed.

Lemma unpaid_guard (p : SimulationParams.t) (b : pyfloat) :
  SimulationParams.blended_cpi p = Ok b ->
  SimulationParams.organic_ratio p == 1 \/ SimulationParams.cpm p == 0 \/
  SimulationParams.ctr p == 0 \/ SimulationParams.cvr p == 0 ->
  (F.gt0 b && F.ne_inf b)%bool = false.
Proof.
  intros E H. unfold SimulationParams.blended_cpi in E.
  destruct (SimulationParams.cpi_paid p) as [c| |] eqn:C;
    cbn [bind] in E; try discriminate E.
  injection E as <-.
  destruct (cpi_paid_cases p c C) as [Nn Zc].
  destruct c as [q| | |]; cbn [F.times F.mul]; try contradiction.
  - assert (Z0 : q * (1 - SimulationParams.organic_ratio p) == 0).
    { destruct (Qeq_dec (SimulationParams.ctr p) 0) as [C1|C1].
      { rewrite (proj1 (cpi_paid_spec p)) in C by now left.
        discriminate C. }
      destruct (Qeq_dec (SimulationParams.cvr p) 0) as [C2|C2].
      { rewrite (proj1 (cpi_paid_spec p)) in C by now right.
        discriminate C. }
      destruct H as [O|[M|[?|?]]]; try contradiction.
      - rewrite O. ring.
      - destruct (Zc M C1 C2) as (q' & Eq & Zq). injection Eq as <-.
        rewrite Zq. ring. }
    rewrite (PyFacts.range_zero _ Z0). reflexivity.
  - unfold F.inf_times. now destruct (_ ?= 0).
  - unfold F.inf_times. now destruct (_ ?= 0).
Qed.

(** X12.  Installs that cost nothing are never reported as profitable:
    when the organic ratio is 1, the CPM is 0, or the CTR or CVR is 0, the
    scenario has ROAS 0, is not profitable and has a ROAS curve that is 0
    at every milestone, whatever the LTV. *)
Theorem unpaid_installs_have_zero_roas (cfg : AppConfig.t)
    (p : SimulationParams.t) (days : Z) (r : LtvResult.t)
    (sc : Scenario.t) :
  Simulator._calculate_ltv cfg p days = Ok r ->
  Simulator.scenario_of p r = Ok sc ->
  SimulationParams.organic_ratio p == 1 \/ SimulationParams.cpm p == 0 \/
  SimulationParams.ctr p == 0 \/ SimulationParams.cvr p == 0 ->
  Scenario.roas sc = Fin 0 /\
  Scenario.profitable sc = false /\
  Scenario.roas_curve sc = map (fun m => (m, Fin 0)) Simulator.milestones /\
  Scenario.ltv_total sc = LtvResult.ltv_total r.
Proof.
  intros E Sc H. destruct (calculate_ltv_cpi cfg p days r E) as [B _].
  destruct (scenario_of_unpaid p r sc Sc (unpaid_guard p _ B H))
    as (R & P & C).
  destruct (scenario_of_spec p r sc Sc) as (_ & _ & T & _).
  now repeat split.
Qed.

End Unpaid.

Section Risk.
Context {libm : Libm}.
Import AppConfig.

Lemma indicator_sum {A : Type} (f : A -> bool) (l : list A) (a : Z) :
  fold_left Z.add (map (fun x => if f x then 1%Z else 0%Z) l) a
  = (a + Z.of_nat (length (filter f l)))%Z.
Proof.
  revert a. induction l as [|x l IH]; intro a; cbn [map fold_left filter].
  - cbn [length]. lia.
  - rewrite IH. destruct (f x); cbn [length]; lia.
Qed.

Lemma mean_indicator {A : Type} (f : A -> bool) (l : list A) :
  Statistics.mean (map (fun x => if f x then 1%Z else 0%Z) l)
  = inject_Z (Z.of_nat (length (filter f l)))
    / inject_Z (Z.of_nat (length l)).
Proof.
  unfold Statistics.mean. rewrite indicator_sum, length_map.
  reflexivity.
Qed.

Lemma filter_length_disjoint {A : Type} (f g : A -> bool) (l : list A) :
  (forall x, f x = true -> g x = false) ->
  (length (filter f l) + length (filter g l) <= length l)%nat.
Proof.
  intro Dj. induction l as [|x l IH]; cbn [filter length]; [lia|].
  destruct (f x) eqn:Fx; [rewrite (Dj x Fx)|destruct (g x)];
    cbn [length]; lia.
Qed.

Lemma profitable_not_below_half (a : pyfloat) :
  F.ge1 a = true -> Statistics.lt_half a = false.
Proof.
  destruct a as [q| | |]; cbn [F.ge1 Statistics.lt_half]; try congruence.
  intro G. apply PyFacts.le_true in G. apply PyFacts.lt_false. lra.
Qed.

Lemma run_loop_flags (n : nat) (cfg : AppConfig.t) (days : Z)
    (fuel : nat) (g g' : rng) (acc results : list Scenario.t) :
  Forall (fun sc => Scenario.profitable sc = F.ge1 (Scenario.roas sc)) acc ->
  Simulator.run_loop n cfg days fuel g acc = Ok (results, g') ->
  Forall (fun sc => Scenario.profitable sc = F.ge1 (Scenario.roas sc))
    results /\
  length results = (length acc + n)%nat.
Proof.
  revert g acc. induction n as [|n IH]; intros g acc A E;
    cbn [Simulator.run_loop] in E.
  - injection E as <- <-. split; [exact A | lia].
  - destruct (Sampler._sample_params cfg fuel g) as [[params g1]| |];
      cbn [bind] in E; try discriminate E.
    destruct (Simulator._calculate_ltv cfg params days) as [r| |];
      cbn [bind] in E; try discriminate E.
    destruct (Simulator.scenario_of params r) as [sc| |] eqn:Sc;
      cbn [bind] in E; try discriminate E.
    apply IH in E.
    + destruct E as [F Len]. split; [exact F|].
      rewrite Len, length_app. cbn [length]. lia.
    + apply Forall_app. split; [exact A|]. constructor; [|constructor].
      unfold Simulator.scenario_of in Sc.
      match type of Sc with
      | bind ?m _ = _ => destruct m; cbn [bind] in Sc; try discriminate Sc
      end.
      match type of Sc with
      | bind ?m _ = _ => destruct m; cbn [bind] in Sc; try discriminate Sc
      end.
      injection Sc as <-. reflexivity.
Qed.

Lemma filter_map_length {A B : Type} (h : A -> B) (f : B -> bool)
    (l : list A) :
  length (filter f (map h l)) = length (filter (fun x => f (h x)) l).
Proof.
  induction l as [|x l IH]; cbn [map filter]; [reflexivity|].
  destruct (f (h x)); cbn [length]; now rewrite IH.
Qed.

Lemma calculate_statistics_spec (results : list Scenario.t) :
  results <> [] ->
  exists k,
    Statistics._calculate_statistics results = Some k /\
    Statistics.probability_profitable k
    = inject_Z (Z.of_nat (length (filter (fun sc => F.ge1 (Scenario.roas sc))
                                    results)))
      / inject_Z (Z.of_nat (length results)) /\
    Statistics.probability_roas_below_50pct k
    = inject_Z (Z.of_nat (length (filter
                                    (fun sc =>
                                       Statistics.lt_half (Scenario.roas sc))
                                    results)))
      / inject_Z (Z.of_nat (length results)).
Proof.
  intro N. destruct results as [|sc0 rest]; [contradiction|].
  unfold Statistics._calculate_statistics. eexists. split; [reflexivity|].
  cbn [Statistics.probability_profitable
         Statistics.probability_roas_below_50pct].
  rewrite !mean_indicator, !filter_map_length, !length_map. split; reflexivity.
Qed.

Lemma share_bounds (a n : nat) :
  (0 < n)%nat -> (a <= n)%nat ->
  0 <= inject_Z (Z.of_nat a) / inject_Z (Z.of_nat n) <= 1.
Proof.
  intros P Le.
  assert (Pn : 0 < inject_Z (Z.of_nat n)).
  { change 0 with (inject_Z 0). rewrite <- Zlt_Qlt. lia. }
  assert (Na : 0 <= inject_Z (Z.of_nat a)).
  { change 0 with (inject_Z 0). rewrite <- Zle_Qle. lia. }
  assert (An : inject_Z (Z.of_nat a) <= inject_Z (Z.of_nat n)).
  { rewrite <- Zle_Qle. lia. }
  split.
  - apply Qle_shift_div_l; [exact Pn|]. lra.
  - apply Qle_shift_div_r; [exact Pn|]. lra.
Qed.

(** X13.  After a run of at least one scenario the two risk probabilities
    exist; the probability of profit is the share of the scenarios flagged
    profitable, each probability lies between 0 and 1, and together they
    are at most 1. *)
Theorem risk_probabilities (self : Simulator.t) (days : option Z)
    (fuel : nat) (g g' : rng) (results : list Scenario.t) :
  Simulator.run self days fuel g = Ok (results, g') ->
  (0 < Simulator.n_simulations self)%Z ->
  exists k,
    Statistics._calculate_statistics results = Some k /\
    Statistics.probability_profitable k
    == inject_Z (Z.of_nat (length (filter Scenario.profitable results)))
       / inject_Z (Simulator.n_simulations self) /\
    0 <= Statistics.probability_profitable k <= 1 /\
    0 <= Statistics.probability_roas_below_50pct k <= 1 /\
    Statistics.probability_profitable k
    + Statistics.probability_roas_below_50pct k <= 1.
Proof.
  intros E Pos. unfold Simulator.run in E.
  apply run_loop_flags in E as [Fl Len]; [|constructor].
  cbn [length Nat.add] in Len.
  destruct (calculate_statistics_spec results) as (k & K & Pp & Pb).
  { intros ->. cbn [length] in Len. lia. }
  exists k. split; [exact K|].
  set (n := length results) in *.
  set (a := length (filter (fun sc => F.ge1 (Scenario.roas sc)) results)) in *.
  set (b := length (filter (fun sc => Statistics.lt_half (Scenario.roas sc))
                      results)) in *.
  assert (Pn : (0 < n)%nat) by lia.
  assert (Ab : (a + b <= n)%nat).
  { apply filter_length_disjoint. intros sc. apply profitable_not_below_half. }
  assert (Qn : 0 < inject_Z (Z.of_nat n)).
  { change 0 with (inject_Z 0). rewrite <- Zlt_Qlt. lia. }
  rewrite Pp, Pb. split; [|split; [|split]].
  - replace (filter Scenario.profitable results)
      with (filter (fun sc => F.ge1 (Scenario.roas sc)) results).
    + fold a. replace (Simulator.n_simulations self) with (Z.of_nat n) by lia.
      reflexivity.
    + apply filter_ext_in. intros sc I. rewrite Forall_forall in Fl.
      symmetry. now apply Fl.
  - apply share_bounds; lia.
  - apply share_bounds; lia.
  - setoid_replace (inject_Z (Z.of_nat a) / inject_Z (Z.of_nat n)
                    + inject_Z (Z.of_nat b) / inject_Z (Z.of_nat n))
      with (inject_Z (Z.of_nat (a + b)) / inject_Z (Z.of_nat n)).
    + apply share_bounds; lia.
    + rewrite Nat2Z.inj_add, inject_Z_plus. field. lra.
Qed.

End Risk.

Section ConfiguredCosts.
Context {libm : Libm}.
Import AppConfig.

(** X14.  In deterministic mode every recorded scenario carries the paid
    and the blended CPI that the UA metrics of the configuration compute,
    and the ad curve the accumulator uses is the one the ads metrics of the
    configuration compute. *)
Theorem deterministic_run_uses_configured_metrics (self : Simulator.t)
    (days : option Z) (fuel : nat) (g g' : rng)
    (results : list Scenario.t) :
  Sampler._is_deterministic (Simulator.config self) = true ->
  Simulator.run self days fuel g = Ok (results, g') ->
  Forall
    (fun sc =>
       UACost.cpi_paid (ua (Simulator.config self))
       = Ok (Scenario.cpi_paid sc) /\
       UACost.blended_cpi (ua (Simulator.config self))
       = Ok (Scenario.blended_cpi sc))
    results /\
  forall d,
    SimulationParams.get_ecpm_at_day
      (configured_means (Simulator.config self)) d
    = AdsMetrics.get_ecpm_at_day (ads (Simulator.config self)) d /\
    SimulationParams.get_impressions_at_day
      (configured_means (Simulator.config self)) d
    = AdsMetrics.get_impressions_at_day (ads (Simulator.config self)) d /\
    SimulationParams.get_arpdau_at_day
      (configured_means (Simulator.config self)) d
    = AdsMetrics.get_arpdau_at_day (ads (Simulator.config self)) d.
Proof.
  intros D E. set (cfg := Simulator.config self) in *.
  split; [|intro d; repeat split].
  unfold Simulator.run in E. fold cfg in E.
  set (h := match days with Some _ => _ | None => _ end) in E.
  destruct (Z.to_nat (Simulator.n_simulations self)) as [|n] eqn:N.
  - cbn [Simulator.run_loop] in E. injection E as <- <-. constructor.
  - pose proof E as E0. cbn [Simulator.run_loop] in E0.
    rewrite sample_params_deterministic in E0 by exact D. cbn [bind] in E0.
    destruct (Simulator._calculate_ltv cfg (configured_means cfg) h)
      as [r| |] eqn:Lt; cbn [bind] in E0; try discriminate E0.
    destruct (Simulator.scenario_of (configured_means cfg) r)
      as [sc| |] eqn:Sc; cbn [bind] in E0; try discriminate E0.
    clear E0.
    rewrite (run_loop_deterministic _ _ _ _ _ [] r sc D Lt Sc) in E.
    injection E as <- <-. cbn [app].
    apply Forall_forall. intros x I.
    assert (x = sc) by (destruct I as [<-|I];
                        [reflexivity | now apply repeat_spec in I]).
    subst x.
    destruct (calculate_ltv_cpi cfg _ h r Lt) as [B C].
    destruct (scenario_of_spec _ r sc Sc) as (Eb & Ec & _).
    rewrite Eb, Ec. split; [exact C | exact B].
Qed.

End ConfiguredCosts.

Section DecayBounds.
Context {libm : Libm}.
Hypothesis exp_unit : forall x, x <= 0 -> 0 <= exp x <= 1.

Lemma decay_between (d0 ratio e : Q) :
  0 <= d0 -> 0 <= ratio <= 1 -> 0 <= e <= 1 ->
  d0 * ratio <= d0 * ratio + (d0 - d0 * ratio) * e <= d0.
Proof.
  intros D R E.
  assert (A : 0 <= d0 * (1 - ratio))
    by (apply Qmult_le_0_compat; lra).
  assert (B : 0 <= d0 * (1 - ratio) * e)
    by (apply Qmult_le_0_compat; lra).
  assert (C : 0 <= d0 * (1 - ratio) * (1 - e))
    by (apply Qmult_le_0_compat; lra).
  split; lra.
Qed.

Lemma decay_curve_between (d0 ratio : Q) (h d : Z) :
  (0 < h)%Z -> 0 <= d0 -> 0 <= ratio <= 1 ->
  exists v,
    (if (d <=? 0)%Z then Ok d0
     else
       x <- Py.truediv_int (- d) h ;;
       decay <- Py.math_exp x ;;
       Ok (d0 * ratio + (d0 - d0 * ratio) * decay)) = Ok v /\
    d0 * ratio <= v <= d0.
Proof.
  intros H D R. destruct (Z.leb_spec d 0) as [Le|Gt].
  - exists d0. split; [reflexivity|].
    assert (0 <= d0 * (1 - ratio)) by (apply Qmult_le_0_compat; lra).
    split; lra.
  - rewrite PyFacts.truediv_int_ok by lia. cbn [bind].
    rewrite PyFacts.math_exp_ok.
    2:{ pose proof (exponent_nonpos d h Gt H).
        assert (0 <= Py.exp_max_arg) by discriminate. lra. }
    cbn [bind]. eexists. split; [reflexivity|].
    apply decay_between; try assumption.
    apply exp_unit, exponent_nonpos; assumption.
Qed.

Lemma get_arpdau_at_day_nonneg (p : SimulationParams.t) (d : Z) (a : Q) :
  (0 < SimulationParams.decay_half_life p)%Z ->
  0 <= SimulationParams.ecpm_d0 p ->
  0 <= SimulationParams.impressions_d0 p ->
  0 <= SimulationParams.ecpm_saturation_ratio p <= 1 ->
  0 <= SimulationParams.impressions_saturation_ratio p <= 1 ->
  SimulationParams.get_arpdau_at_day p d = Ok a -> 0 <= a.
Proof.
  intros H E0 I0 Re Ri A.
  unfold SimulationParams.get_arpdau_at_day,
    SimulationParams.get_ecpm_at_day,
    SimulationParams.get_impressions_at_day in A.
  destruct (decay_curve_between _ _ _ d H E0 Re) as (e & Ee & Be).
  destruct (decay_curve_between _ _ _ d H I0 Ri) as (i & Ei & Bi).
  rewrite Ee in A. cbn [bind] in A. rewrite Ei in A. cbn [bind] in A.
  injection A as <-.
  assert (0 <= SimulationParams.ecpm_d0 p
               * SimulationParams.ecpm_saturation_ratio p)
    by (apply Qmult_le_0_compat; lra).
  assert (0 <= SimulationParams.impressions_d0 p
               * SimulationParams.impressions_saturation_ratio p)
    by (apply Qmult_le_0_compat; lra).
  assert (0 <= e * i) by (apply Qmult_le_0_compat; lra).
  apply Qle_shift_div_l; lra.
Qed.

(** X15.  With a positive half-life, non-negative day-0 values and
    saturation ratios between 0 and 1, the eCPM and the impressions of
    every day lie between their saturation value and their day-0 value,
    and the ARPDAU is their product over 1000. *)
Theorem ad_rates_between_saturation_and_day_0 (p : SimulationParams.t)
    (d : Z) :
  (0 < SimulationParams.decay_half_life p)%Z ->
  0 <= SimulationParams.ecpm_d0 p ->
  0 <= SimulationParams.impressions_d0 p ->
  0 <= SimulationParams.ecpm_saturation_ratio p <= 1 ->
  0 <= SimulationParams.impressions_saturation_ratio p <= 1 ->
  exists e i,
    SimulationParams.get_ecpm_at_day p d = Ok e /\
    SimulationParams.get_impressions_at_day p d = Ok i /\
    SimulationParams.get_arpdau_at_day p d = Ok (e * i / 1000) /\
    SimulationParams.ecpm_d0 p * SimulationParams.ecpm_saturation_ratio p
    <= e <= SimulationParams.ecpm_d0 p /\
    SimulationParams.impressions_d0 p
    * SimulationParams.impressions_saturation_ratio p
    <= i <= SimulationParams.impressions_d0 p.
Proof.
  intros H E0 I0 Re Ri.
  destruct (decay_curve_between _ _ _ d H E0 Re) as (e & Ee & Be).
  destruct (decay_curve_between _ _ _ d H I0 Ri) as (i & Ei & Bi).
  exists e, i. unfold SimulationParams.get_arpdau_at_day,
    SimulationParams.get_ecpm_at_day, SimulationParams.get_impressions_at_day.
  rewrite Ee, Ei. cbn [bind]. repeat split; tauto.
Qed.

End DecayBounds.

Section StochasticCosts.
Context {libm : Libm}.
Import AppConfig SimulationConfig.






End StochasticCosts.


Section Interpolation.
Context {libm : Libm}.
Import PyFacts.

(** What the interpolation needs of the two library functions, on the
    arguments it gives them: a rate in (0, 1] has a logarithm that is not
    positive, [exp] undoes [ln] there, and [exp] is monotone on the
    arguments that are not positive. *)
Hypothesis ln_unit : forall y, 0 < y -> y <= 1 -> ln y <= 0.
Hypothesis exp_ln : forall y, 0 < y -> exp (ln y) == y.
Hypothesis exp_mono : forall x y, x <= y -> y <= 0 -> exp x <= exp y.

Lemma log_linear_between (a b t : Q) :
  0 < a -> a <= 1 -> 0 < b -> b <= 1 -> 0 <= t <= 1 ->
  lies_between a b (exp (ln a + t * (ln b - ln a))).
Proof.
  intros Pa Ua Pb Ub T.
  pose proof (ln_unit a Pa Ua) as La. pose proof (ln_unit b Pb Ub) as Lb.
  pose proof (exp_ln a Pa) as Ea. pose proof (exp_ln b Pb) as Eb.
  set (la := ln a) in *. set (lb := ln b) in *.
  destruct (Qlt_le_dec lb la) as [Lt|Le].
  - right.
    assert (M : 0 <= t * (la - lb)) by (apply Qmult_le_0_compat; lra).
    assert (M' : 0 <= (1 - t) * (la - lb))
      by (apply Qmult_le_0_compat; lra).
    rewrite <- Ea, <- Eb. split; apply exp_mono; lra.
  - left.
    assert (M : 0 <= t * (lb - la)) by (apply Qmult_le_0_compat; lra).
    assert (M' : 0 <= (1 - t) * (lb - la))
      by (apply Qmult_le_0_compat; lra).
    rewrite <- Ea, <- Eb. split; apply exp_mono; lra.
Qed.

Lemma clamped_rate (v : Q) :
  v <= 1 -> 0 < Py.max v 0.001 /\ Py.max v 0.001 <= 1.
Proof.
  intro U. unfold Py.max. destruct (Py.lt v 0.001) eqn:C.
  - split; lra.
  - apply lt_false in C. split; lra.
Qed.

Lemma progress_unit (x p n : Z) :
  (p < x < n)%Z -> 0 <= inject_Z (x - p) / inject_Z (n - p) <= 1.
Proof.
  intro B.
  assert (Pn : 0 < inject_Z (n - p)).
  { change 0 with (inject_Z 0). rewrite <- Zlt_Qlt. lia. }
  assert (Px : 0 <= inject_Z (x - p)).
  { change 0 with (inject_Z 0). rewrite <- Zle_Qle. lia. }
  assert (Xn : inject_Z (x - p) <= inject_Z (n - p)).
  { rewrite <- Zle_Qle. lia. }
  split.
  - apply Qle_shift_div_l; [exact Pn|]. lra.
  - apply Qle_shift_div_r; [exact Pn|]. lra.
Qed.

Lemma get_in (d : Py.dict) (k : Z) (v : Q) :
  Py.get d k = Some v -> In (k, v) d.
Proof.
  induction d as [|[a b] d IH]; cbn [Py.get]; [discriminate|].
  destruct (Z.eqb_spec a k) as [->|N].
  - intro E. injection E as <-. now left.
  - intro E. right. now apply IH.
Qed.

(** The neighbours the interpolation branch picks on either side of a
    position [x] that is not a key. *)
Lemma neighbours (curve : Py.dict) (x lo hi : Z) :
  In lo (Py.keys curve) -> In hi (Py.keys curve) -> (lo < x < hi)%Z ->
  exists p n vp vn,
    Py.max_list (filter (fun d => (d <? x)%Z) (Py.sorted (Py.keys curve)))
    = Ok p /\
    Py.min_list (filter (fun d => (x <? d)%Z) (Py.sorted (Py.keys curve)))
    = Ok n /\
    Py.get curve p = Some vp /\ Py.get curve n = Some vn /\
    (p < x < n)%Z /\
    (forall k, In k (Py.keys curve) -> (k <= p)%Z \/ k = x \/ (n <= k)%Z).
Proof.
  intros Ilo Ihi B.
  destruct (max_list_ok
              (filter (fun d => (d <? x)%Z) (Py.sorted (Py.keys curve))) lo)
    as (p & Ep & Ip & Up).
  { apply filter_In. split; [now apply in_sorted | apply Z.ltb_lt; lia]. }
  destruct (min_list_ok
              (filter (fun d => (x <? d)%Z) (Py.sorted (Py.keys curve))) hi)
    as (n & En & In_ & Un).
  { apply filter_In. split; [now apply in_sorted | apply Z.ltb_lt; lia]. }
  apply filter_In in Ip as [Ip Lp]. apply filter_In in In_ as [In_ Ln].
  apply Z.ltb_lt in Lp, Ln.
  apply (proj1 (in_sorted _ _)) in Ip. apply (proj1 (in_sorted _ _)) in In_.
  destruct (get_in_keys _ _ Ip) as [vp Gp].
  destruct (get_in_keys _ _ In_) as [vn Gn].
  exists p, n, vp, vn. repeat split; try assumption.
  intros k Ik.
  destruct (Z.lt_trichotomy k x) as [Lt|[->|Gt]].
  - left. apply Up, filter_In. split; [now apply in_sorted|].
    now apply Z.ltb_lt.
  - right. now left.
  - right. right. apply Un, filter_In. split; [now apply in_sorted|].
    now apply Z.ltb_lt.
Qed.

Lemma retention_at_day_of_between (curve : Py.dict) (day lo hi : Z) :
  Forall (fun kv => snd kv <= 1) curve ->
  In lo (Py.keys curve) -> In hi (Py.keys curve) -> (lo < day < hi)%Z ->
  ~ In day (Py.keys curve) ->
  exists p n vp vn v,
    Py.get curve p = Some vp /\ Py.get curve n = Some vn /\
    (p < day < n)%Z /\
    (forall k, In k (Py.keys curve) -> (k <= p)%Z \/ (n <= k)%Z) /\
    RetentionMetrics.retention_at_day_of curve day = Ok v /\
    lies_between (Py.max vp 0.001) (Py.max vn 0.001) v.
Proof.
  intros U Ilo Ihi B N.
  destruct (neighbours curve day lo hi Ilo Ihi B)
    as (p & n & vp & vn & Ep & En & Gp & Gn & Bd & Adj).
  exists p, n, vp, vn. eexists.
  split; [exact Gp|]. split; [exact Gn|]. split; [exact Bd|].
  split.
  { intros k Ik. destruct (Adj k Ik) as [?|[->|?]]; auto. contradiction. }
  unfold RetentionMetrics.retention_at_day_of.
  replace (Py.contains curve day) with false.
  2:{ symmetry. destruct (Py.contains curve day) eqn:C; [|reflexivity].
      apply contains_true in C. contradiction. }
  destruct (max_list_ok (Py.sorted (Py.keys curve)) hi) as (m & -> & _ & Um).
  { now apply in_sorted. }
  cbn [bind].
  assert (hi <= m)%Z by (apply Um; now apply in_sorted).
  replace (m <? day)%Z with false by (symmetry; apply Z.ltb_ge; lia).
  rewrite Ep, En. cbn [bind]. unfold Py.getitem. rewrite Gp, Gn. cbn [bind].
  rewrite truediv_int_ok by lia. cbn [bind].
  split; [reflexivity|].
  rewrite Forall_forall in U.
  pose proof (U _ (get_in _ _ _ Gp)) as Up. pose proof (U _ (get_in _ _ _ Gn)) as Un.
  cbn [snd] in Up, Un.
  destruct (clamped_rate vp Up) as [Pa Ua].
  destruct (clamped_rate vn Un) as [Pb Ub].
  apply log_linear_between; try assumption.
  apply progress_unit. lia.
Qed.

Lemma retention_at_cycle_of_between (curve : Py.dict) (cycle lo hi : Z) :
  Forall (fun kv => snd kv <= 1) curve ->
  In lo (Py.keys curve) -> In hi (Py.keys curve) -> (lo < cycle < hi)%Z ->
  (0 < cycle)%Z ->
  ~ In cycle (Py.keys curve) ->
  exists p n vp vn v,
    Py.get curve p = Some vp /\ Py.get curve n = Some vn /\
    (p < cycle < n)%Z /\
    (forall k, In k (Py.keys curve) -> (k <= p)%Z \/ (n <= k)%Z) /\
    SubscriptionRetentionCurve.retention_at_cycle_of curve cycle = Ok v /\
    lies_between (Py.max vp 0.001) (Py.max vn 0.001) v.
Proof.
  intros U Ilo Ihi B Pos N.
  destruct (neighbours curve cycle lo hi Ilo Ihi B)
    as (p & n & vp & vn & Ep & En & Gp & Gn & Bd & Adj).
  exists p, n, vp, vn. eexists.
  split; [exact Gp|]. split; [exact Gn|]. split; [exact Bd|].
  split.
  { intros k Ik. destruct (Adj k Ik) as [?|[->|?]]; auto. contradiction. }
  unfold SubscriptionRetentionCurve.retention_at_cycle_of.
  replace (Py.contains curve cycle) with false.
  2:{ symmetry. destruct (Py.contains curve cycle) eqn:C; [|reflexivity].
      apply contains_true in C. contradiction. }
  replace (cycle <=? 0)%Z with false by (symmetry; apply Z.leb_gt; lia).
  destruct (max_list_ok (Py.sorted (Py.keys curve)) hi) as (m & -> & _ & Um).
  { now apply in_sorted. }
  cbn [bind].
  assert (hi <= m)%Z by (apply Um; now apply in_sorted).
  replace (m <? cycle)%Z with false by (symmetry; apply Z.ltb_ge; lia).
  rewrite Ep, En. cbn [bind]. unfold Py.getitem. rewrite Gp, Gn. cbn [bind].
  rewrite truediv_int_ok by lia. cbn [bind].
  split; [reflexivity|].
  rewrite Forall_forall in U.
  pose proof (U _ (get_in _ _ _ Gp)) as Up. pose proof (U _ (get_in _ _ _ Gn)) as Un.
  cbn [snd] in Up, Un.
  destruct (clamped_rate vp Up) as [Pa Ua].
  destruct (clamped_rate vn Un) as [Pb Ub].
  apply log_linear_between; try assumption.
  apply progress_unit. lia.
Qed.

(** X17.  Between two anchors the interpolated rate lies between the
    rates of the nearest anchor on either side, each raised to 0.001 if it
    is below: for a day that is not an anchor between day 0 and day 365 of
    the user retention curve, and for a cycle that is not an anchor between
    cycle 0 and cycle 52 of a subscription retention curve, provided no
    anchor is above 1. *)
Theorem interpolation_stays_between_neighbours (r : RetentionMetrics.t)
    (c : SubscriptionRetentionCurve.t) (day cycle : Z) :
  Forall (fun kv => snd kv <= 1) (RetentionMetrics.get_curve r) ->
  Forall (fun kv => snd kv <= 1) (SubscriptionRetentionCurve.get_curve c) ->
  (0 < day < 365)%Z ->
  ~ In day (Py.keys (RetentionMetrics.get_curve r)) ->
  (0 < cycle < 52)%Z ->
  ~ In cycle (Py.keys (SubscriptionRetentionCurve.get_curve c)) ->
  (exists p n vp vn v,
     Py.get (RetentionMetrics.get_curve r) p = Some vp /\
     Py.get (RetentionMetrics.get_curve r) n = Some vn /\
     (p < day < n)%Z /\
     (forall k, In k (Py.keys (RetentionMetrics.get_curve r)) ->
                (k <= p)%Z \/ (n <= k)%Z) /\
     RetentionMetrics.get_retention_at_day r day = Ok v /\
     lies_between (Py.max vp 0.001) (Py.max vn 0.001) v) /\
  (exists p n vp vn v,
     Py.get (SubscriptionRetentionCurve.get_curve c) p = Some vp /\
     Py.get (SubscriptionRetentionCurve.get_curve c) n = Some vn /\
     (p < cycle < n)%Z /\
     (forall k, In k (Py.keys (SubscriptionRetentionCurve.get_curve c)) ->
                (k <= p)%Z \/ (n <= k)%Z) /\
     SubscriptionRetentionCurve.get_retention_at_cycle c cycle = Ok v /\
     lies_between (Py.max vp 0.001) (Py.max vn 0.001) v).
Proof.
  intros Ur Uc Bd Nd Bc Nc. split.
  - apply (retention_at_day_of_between _ day 0 365); try assumption;
      cbn; tauto.
  - apply (retention_at_cycle_of_between _ cycle 0 52); try assumption;
      try lia; cbn; tauto.
Qed.

End Interpolation.

Section AdRevenue.
Context {libm : Libm}.
Import AppConfig PyFacts.
Hypothesis exp_unit : forall x, x <= 0 -> 0 <= exp x <= 1.

Lemma adjusted_retention_nonneg (cfg : AppConfig.t) (d : Z) (m r : Q) :
  Simulator._get_retention_at_day cfg d m = Ok r -> 0 <= r.
Proof.
  unfold Simulator._get_retention_at_day.
  destruct (RetentionMetrics.get_retention_at_day (retention cfg) d)
    as [b| |]; cbn [bind]; try discriminate.
  intro E. injection E as <-.
  apply min_lower; [lra|].
  pose proof (max_lower 0.0001 (b * m)) as [M _]. lra.
Qed.

Lemma iaa_sum_grows (cfg : AppConfig.t) (p : SimulationParams.t)
    (ds : list Z) (acc v : Q) :
  (0 < SimulationParams.decay_half_life p)%Z ->
  0 <= SimulationParams.ecpm_d0 p ->
  0 <= SimulationParams.impressions_d0 p ->
  0 <= SimulationParams.ecpm_saturation_ratio p <= 1 ->
  0 <= SimulationParams.impressions_saturation_ratio p <= 1 ->
  Simulator.iaa_sum cfg p ds acc = Ok v -> acc <= v.
Proof.
  intros H E0 I0 Re Ri. revert acc.
  induction ds as [|d ds IH]; intros acc E; cbn [Simulator.iaa_sum] in E.
  - injection E as <-. apply Qle_refl.
  - destruct (Simulator._get_retention_at_day cfg d _) as [r| |] eqn:R;
      cbn [bind] in E; try discriminate E.
    destruct (SimulationParams.get_arpdau_at_day p d) as [a| |] eqn:A;
      cbn [bind] in E; try discriminate E.
    apply IH in E.
    pose proof (adjusted_retention_nonneg _ _ _ _ R) as Nr.
    pose proof (get_arpdau_at_day_nonneg exp_unit p d a H E0 I0 Re Ri A) as Na.
    assert (0 <= r * a) by (apply Qmult_le_0_compat; assumption).
    lra.
Qed.

Lemma range_app (a b : Z) :
  (a <= b)%Z -> exists rest, Py.range b = Py.range a ++ rest.
Proof.
  intro Le. unfold Py.range.
  destruct (Z.le_gt_cases a 0) as [Na|Pa].
  - replace (Z.to_nat a) with 0%nat by lia. cbn [seq map app]. eauto.
  - replace (Z.to_nat b) with (Z.to_nat a + (Z.to_nat b - Z.to_nat a))%nat
      by lia.
    rewrite seq_app, map_app. eauto.
Qed.

(** X18.  With a positive half-life, non-negative day-0 values and
    saturation ratios between 0 and 1, the ad LTV is never negative and
    never shrinks when the horizon grows. *)
Theorem ad_ltv_grows_with_the_horizon (cfg : AppConfig.t)
    (p : SimulationParams.t) (m days : Z) (r1 r2 : LtvResult.t) :
  (0 < SimulationParams.decay_half_life p)%Z ->
  0 <= SimulationParams.ecpm_d0 p ->
  0 <= SimulationParams.impressions_d0 p ->
  0 <= SimulationParams.ecpm_saturation_ratio p <= 1 ->
  0 <= SimulationParams.impressions_saturation_ratio p <= 1 ->
  (m <= days)%Z ->
  Simulator._calculate_ltv cfg p m = Ok r1 ->
  Simulator._calculate_ltv cfg p days = Ok r2 ->
  0 <= LtvResult.ltv_iaa r1 <= LtvResult.ltv_iaa r2.
Proof.
  intros H E0 I0 Re Ri Le L1 L2.
  apply calculate_ltv_inv in L1, L2.
  split; [exact (iaa_sum_grows _ _ _ _ _ H E0 I0 Re Ri L1)|].
  destruct (range_app (m + 1) (days + 1)) as [rest R]; [lia|].
  rewrite R, iaa_sum_app, L1 in L2. cbn [bind] in L2.
  exact (iaa_sum_grows _ _ _ _ _ H E0 I0 Re Ri L2).
Qed.

End AdRevenue.

Section Stalled.
Context {libm : Libm}.
Import AppConfig.

(** Once the first pending event is dated before [today] the pointer of
    the daily loop never moves again. *)
Lemma daily_loop_stalled (cfg : AppConfig.t) (p : SimulationParams.t)
    (net : Q) (e : Simulator.event) (rest : list Simulator.event)
    (n : nat) :
  forall (k : nat) (ciaa ciap : Q) (rows : list entry),
    (fst e < Z.of_nat k)%Z ->
    Simulator.daily_loop cfg p (map Z.of_nat (seq k n)) (e :: rest) ciaa ciap
      net = Ok rows ->
    Forall (fun row => cumulative_iap row == ciap) rows.
Proof.
  induction n as [|n IH]; intros k ciaa ciap rows Lt E;
    cbn [seq map Simulator.daily_loop] in E.
  - injection E as <-. constructor.
  - destruct (Simulator._get_retention_at_day cfg (Z.of_nat k) _)
      as [r| |]; cbn [bind] in E; try discriminate E.
    destruct (SimulationParams.get_arpdau_at_day p (Z.of_nat k))
      as [a| |]; cbn [bind] in E; try discriminate E.
    destruct e as [d amount]. cbn [fst] in Lt.
    cbn [Simulator.take_today] in E.
    replace (d =? Z.of_nat k)%Z with false in E
      by (symmetry; apply Z.eqb_neq; lia).
    destruct (Simulator.daily_loop cfg p _ _ _ _ net) as [rows'| |] eqn:D;
      cbn [bind] in E; try discriminate E.
    injection E as <-.
    apply IH in D; [|cbn [fst]; lia].
    constructor; [cbn [cumulative_iap]; ring|].
    eapply Forall_impl; [|exact D]. cbn beta. intros row ->. ring.
Qed.

Lemma daily_loop_totals (cfg : AppConfig.t) (p : SimulationParams.t)
    (net : Q) (ds : list Z) :
  forall (ev : list Simulator.event) (ciaa ciap : Q) (rows : list entry),
    Simulator.daily_loop cfg p ds ev ciaa ciap net = Ok rows ->
    Forall (fun row => cumulative_total row
                       = cumulative_iaa row + cumulative_iap row) rows.
Proof.
  induction ds as [|d ds IH]; intros ev ciaa ciap rows B;
    cbn [Simulator.daily_loop] in B.
  - injection B as <-. constructor.
  - destruct (Simulator._get_retention_at_day cfg d _) as [x| |];
      cbn [bind] in B; try discriminate B.
    destruct (SimulationParams.get_arpdau_at_day p d) as [a| |];
      cbn [bind] in B; try discriminate B.
    destruct (Simulator.take_today ev d 0 net) as [daily ev'].
    destruct (Simulator.daily_loop cfg p ds _ _ _ net) as [rows'| |] eqn:Dl;
      cbn [bind] in B; try discriminate B.
    injection B as <-. constructor; [reflexivity|].
    exact (IH _ _ _ _ Dl).
Qed.

Lemma insert_event_head (e : Simulator.event) (l : list Simulator.event) :
  exists h t,
    Simulator.insert_event e l = h :: t /\ (fst h <= fst e)%Z /\
    match l with [] => True | x :: _ => (fst h <= fst x)%Z end.
Proof.
  destruct l as [|x l]; cbn [Simulator.insert_event].
  - exists e, []. repeat split. lia.
  - destruct (fst e <=? fst x)%Z eqn:C.
    + exists e, (x :: l). apply Z.leb_le in C. repeat split; lia.
    + exists x, (Simulator.insert_event e l). apply Z.leb_gt in C.
      repeat split; lia.
Qed.

Lemma sort_events_head (l : list Simulator.event) :
  Exists (fun e => (fst e < 0)%Z) l ->
  exists h t, Simulator.sort_events l = h :: t /\ (fst h < 0)%Z.
Proof.
  induction l as [|e l IH]; intro X; [inversion X|].
  cbn [Simulator.sort_events fold_right]. fold (Simulator.sort_events l).
  destruct (insert_event_head e (Simulator.sort_events l))
    as (h & t & -> & He & Hl).
  exists h, t. split; [reflexivity|].
  inversion X as [? ? Ne|? ? Xl]; subst; [lia|].
  destruct (IH Xl) as (h' & t' & E' & N'). rewrite E' in Hl. lia.
Qed.

(** X19.  In stochastic mode a payment dated before day 0 blocks the
    event pointer of the daily loop: every row of the breakdown then shows
    no subscription revenue, whatever [ltv_iap] is. *)
Theorem payment_before_day_0_empties_the_stochastic_breakdown
    (cfg : AppConfig.t) (p : SimulationParams.t) (days : Z)
    (r : LtvResult.t) (events : list Simulator.event) :
  Sampler._is_deterministic cfg = false ->
  Simulator._calculate_ltv cfg p days = Ok r ->
  Simulator.iap_events cfg p days = Ok events ->
  Exists (fun e => (fst e < 0)%Z) events ->
  Forall (fun row => cumulative_iap row == 0 /\
                     cumulative_total row == cumulative_iaa row)
    (LtvResult.daily_breakdown r) /\
  LtvResult.ltv_iap r
  == Py.sum (map snd events)
     * (1 - SubscriptionMetrics.platform_fee_rate (subscription cfg)).
Proof.
  intros D E Ev X.
  destruct (calculate_ltv_stochastic cfg p days r D E) as (events' & Ev' & B).
  rewrite Ev in Ev'. injection Ev' as <-.
  destruct (sort_events_head events X) as (h & t & Sh & Nh).
  rewrite Sh in B. unfold Py.range in B. split.
  - pose proof B as B'.
    apply daily_loop_stalled in B; [|cbn; lia].
    pose proof (daily_loop_totals _ _ _ _ _ _ _ _ B') as T.
    rewrite Forall_forall in *. intros row I.
    pose proof (B row I) as Z0. split; [exact Z0|].
    rewrite (T row I), Z0. ring.
  - destruct (calculate_ltv_returns cfg p days _
                (calculate_ltv_inv _ _ _ _ E)
                (calculate_ltv_cpi_returns _ _ _ _ E))
      as (r' & events' & E' & Ev' & _ & Ip & _).
    assert (r' = r) by congruence. subst r'.
    assert (events' = events) by congruence. subst events'.
    rewrite Ip, sum_billed. reflexivity.
Qed.

End Stalled.

Section Modes.
Context {libm : Libm}.
Import AppConfig.

Lemma iaa_sum_ext (cfg1 cfg2 : AppConfig.t) (p : SimulationParams.t)
    (ds : list Z) (acc : Q) :
  retention cfg1 = retention cfg2 ->
  Simulator.iaa_sum cfg1 p ds acc = Simulator.iaa_sum cfg2 p ds acc.
Proof.
  intro R. revert acc. induction ds as [|d ds IH]; intro acc;
    cbn [Simulator.iaa_sum]; [reflexivity|].
  unfold Simulator._get_retention_at_day. rewrite R.
  destruct (RetentionMetrics.get_retention_at_day (retention cfg2) d);
    cbn [bind]; try reflexivity.
  destruct (SimulationParams.get_arpdau_at_day p d); cbn [bind];
    try reflexivity.
  apply IH.
Qed.

Lemma iap_events_ext (cfg1 cfg2 : AppConfig.t) (p : SimulationParams.t)
    (days : Z) :
  subscription cfg1 = subscription cfg2 ->
  Simulator.iap_events cfg1 p days = Simulator.iap_events cfg2 p days.
Proof.
  intro S. unfold Simulator.iap_events. rewrite S.
  induction (SubscriptionMetrics.get_all_plans (subscription cfg2))
    as [|plan plans IH]; cbn [Simulator.all_events]; [reflexivity|].
  rewrite IH. unfold Simulator.plan_events. rewrite S. reflexivity.
Qed.

(** X20.  The LTV does not depend on the mode: two configurations with
    the same retention curve and the same subscription settings, whatever
    their variation coefficients, give for the same parameter set and
    horizon the same ad LTV, equal subscription and total LTV and the same
    CPIs; and if the accumulator returns for one it returns for the
    other. *)
Theorem ltv_does_not_depend_on_the_mode (cfg1 cfg2 : AppConfig.t)
    (p : SimulationParams.t) (days : Z) (r1 : LtvResult.t) :
  retention cfg1 = retention cfg2 ->
  subscription cfg1 = subscription cfg2 ->
  Simulator._calculate_ltv cfg1 p days = Ok r1 ->
  exists r2,
    Simulator._calculate_ltv cfg2 p days = Ok r2 /\
    LtvResult.ltv_iaa r2 = LtvResult.ltv_iaa r1 /\
    LtvResult.ltv_iap r2 == LtvResult.ltv_iap r1 /\
    LtvResult.ltv_total r2 == LtvResult.ltv_total r1 /\
    LtvResult.blended_cpi r2 = LtvResult.blended_cpi r1 /\
    LtvResult.cpi_paid r2 = LtvResult.cpi_paid r1.
Proof.
  intros R S E1.
  pose proof (calculate_ltv_inv cfg1 p days r1 E1) as I1.
  pose proof (calculate_ltv_cpi_returns cfg1 p days r1 E1) as Rc.
  destruct (calculate_ltv_returns cfg1 p days _ I1 Rc)
    as (r1' & ev1 & E1' & Ev1 & _ & P1 & T1 & B1 & C1).
  assert (r1' = r1) by congruence. subst r1'.
  rewrite (iaa_sum_ext cfg1 cfg2 p _ _ R) in I1.
  destruct (calculate_ltv_returns cfg2 p days _ I1 Rc)
    as (r2 & ev2 & E2 & Ev2 & A2 & P2 & T2 & B2 & C2).
  rewrite (iap_events_ext cfg1 cfg2 p days S) in Ev1.
  assert (ev2 = ev1) by congruence. subst ev2.
  assert (P : LtvResult.ltv_iap r2 == LtvResult.ltv_iap r1).
  { rewrite P1, P2, !sum_billed, S. reflexivity. }
  exists r2. split; [exact E2|]. split; [exact A2|]. split; [exact P|].
  split; [rewrite T1, T2, A2, P; reflexivity|].
  split; congruence.
Qed.

End Modes.

Section Headline.
Context {libm : Libm}.
Import AppConfig.

Lemma due_all (m : Z) (l : list Simulator.event) :
  Forall (fun e => (fst e <= m)%Z) l -> due m l = l.
Proof.
  induction 1 as [|e l H F IH]; cbn [due filter]; [reflexivity|].
  replace (fst e <=? m)%Z with true by (symmetry; apply Z.leb_le; lia).
  f_equal. exact IH.
Qed.

(** The row of the horizon day, when the breakdown has one, carries the
    totals of the result. *)
Lemma horizon_row (cfg : AppConfig.t) (p : SimulationParams.t) (days : Z)
    (r : LtvResult.t) (row : entry) :
  forward_schedule cfg ->
  Simulator._calculate_ltv cfg p days = Ok r ->
  In row (LtvResult.daily_breakdown r) -> day row = days ->
  cumulative_iaa row = LtvResult.ltv_iaa r /\
  cumulative_iap row == LtvResult.ltv_iap r /\
  cumulative_total row == LtvResult.ltv_total r.
Proof.
  intros W E I D.
  destruct (breakdown_rows cfg p days r W E) as (events & Ev & Rows).
  rewrite Forall_forall in Rows.
  destruct (Rows row I) as (_ & Sa & Pa & Ta). rewrite D in Sa, Pa.
  pose proof (calculate_ltv_inv cfg p days r E) as Inv.
  destruct (calculate_ltv_returns cfg p days _ Inv
              (calculate_ltv_cpi_returns _ _ _ _ E))
    as (r' & events' & E' & Ev' & _ & Ip & It & _).
  assert (r' = r) by congruence. subst r'.
  assert (events' = events) by congruence. subst events'.
  assert (A : cumulative_iaa row = LtvResult.ltv_iaa r) by congruence.
  assert (P : cumulative_iap row == LtvResult.ltv_iap r).
  { rewrite Pa, Ip, sum_billed. unfold net_due.
    rewrite (due_all days events), sum_scaled; [reflexivity|].
    eapply all_events_within_horizon, Ev. }
  split; [exact A|]. split; [exact P|].
  rewrite Ta, It, A, P. reflexivity.
Qed.

(** X21.  When the horizon is a milestone day, the ROAS curve ends on the
    ROAS: with a finite positive blended CPI and a forward schedule, the
    point of the curve at the horizon day is the total LTV over the blended
    CPI, which is the scenario's ROAS. *)
Theorem roas_curve_meets_roas_at_the_horizon (cfg : AppConfig.t)
    (p : SimulationParams.t) (days : Z) (r : LtvResult.t)
    (sc : Scenario.t) (q : Q) :
  forward_schedule cfg ->
  Simulator._calculate_ltv cfg p days = Ok r ->
  Simulator.scenario_of p r = Ok sc ->
  LtvResult.blended_cpi r = Fin q -> 0 < q ->
  In days Simulator.milestones ->
  exists v,
    In (days, Fin v) (Scenario.roas_curve sc) /\
    v == LtvResult.ltv_total r / q /\
    Scenario.roas sc = Fin (LtvResult.ltv_total r / q).
Proof.
  intros W E Sc B P M.
  assert (Ir : In days (map day (LtvResult.daily_breakdown r))).
  { destruct (Sampler._is_deterministic cfg) eqn:D.
    - destruct (deterministic_rows cfg p days r D E) as (_ & _ & -> & _).
      apply filter_In. split; [exact M | apply Z.leb_refl].
    - destruct (calculate_ltv_stochastic cfg p days r D E) as (ev & _ & L).
      rewrite (daily_loop_days _ _ _ _ _ _ _ _ L). unfold Py.range.
      apply milestones_nonneg in M. apply in_map_iff.
      exists (Z.to_nat days). split; [lia|]. apply in_seq. lia. }
  apply in_map_iff in Ir as (row & D & I).
  destruct (horizon_row cfg p days r row W E I D) as (_ & _ & T).
  exists (cumulative_total row / q). split; [|split].
  - rewrite <- D. apply (roas_curve_at_row cfg p days r sc q row E Sc B P I).
    now rewrite D.
  - rewrite T. reflexivity.
  - apply (scenario_of_finite p r sc q Sc B P).
Qed.

End Headline.

(* ------------------------------------------------------------------ *)
(** ** The theorems at work on the example configurations *)

Lemma deterministic_mode_returns_means_witness :
  exists p,
    Sampler._sample_params (Examples.end_to_end 0.30 0.42) 0
      Examples.mean_rng = Ok (p, Examples.mean_rng) /\
    SimulationParams.cpm p = 5.0 /\
    SimulationParams.retention_mult p = 1.0.
Proof.
  destruct (proj1 (proj2 (deterministic_mode_returns_means
                            (Examples.end_to_end 0.30 0.42) 0
                            Examples.mean_rng)))
    as (p & E & Cpm & _ & _ & _ & _ & _ & _ & _ & _ & Ret & _).
  - cbn. repeat split; reflexivity.
  - exists p. repeat split; assumption.
Defined.

Lemma sampled_parameters_within_bands_witness :
  in_band 5.0 0.3 2.0 (SimulationParams.cpm Examples.fixed_cpm_params) /\
  0.97 <= SimulationParams.renewal_mult Examples.fixed_cpm_params <= 1.03 /\
  0.05 <= SimulationParams.organic_ratio Examples.fixed_cpm_params <= 0.80.
Proof.
  destruct (sampled_parameters_within_bands Examples.fixed_cpm 1
              Examples.mean_rng Examples.mean_rng Examples.fixed_cpm_params)
    as (Cpm & _ & _ & _ & _ & _ & _ & Ren & Org).
  - reflexivity.
  - vm_compute. reflexivity.
  - repeat split; try apply Cpm; try apply Ren; apply Org.
Defined.

Lemma negligible_field_is_not_sampled_witness :
  SimulationParams.cpm Examples.fixed_cpm_params = 5.0.
Proof.
  destruct (negligible_field_is_not_sampled Examples.fixed_cpm 1
              Examples.mean_rng Examples.mean_rng Examples.fixed_cpm_params)
    as (Cpm & _).
  - reflexivity.
  - vm_compute. reflexivity.
  - apply Cpm. reflexivity.
Defined.

Lemma lifetime_plan_pays_once_witness :
  Simulator.plan_events (L := Examples.rational_libm) AppConfig.default
    Examples.end_to_end_params 3650
    (SubscriptionMetrics.lifetime SubscriptionMetrics.default)
  = Ok [(0%Z, 0.005 * 1.0 * 1.0 * 99.99)].
Proof.
  apply (@lifetime_plan_pays_once Examples.rational_libm AppConfig.default
           Examples.end_to_end_params 3650
           (SubscriptionMetrics.lifetime SubscriptionMetrics.default)).
  - cbn. lia.
  - cbn. lia.
Defined.

Lemma platform_fee_scales_subscription_ltv_witness :
  exists gross net,
    Simulator._calculate_ltv (L := Examples.rational_libm)
      (Examples.with_platform_fee (Examples.end_to_end 0.30 0.42) 0)
      Examples.end_to_end_params 14 = Ok gross /\
    Simulator._calculate_ltv (L := Examples.rational_libm)
      (Examples.with_platform_fee (Examples.end_to_end 0.30 0.42) 0.30)
      Examples.end_to_end_params 14 = Ok net /\
    LtvResult.ltv_iap net == (1 - 0.30) * LtvResult.ltv_iap gross.
Proof.
  destruct (@platform_fee_scales_subscription_ltv Examples.rational_libm
              (Examples.end_to_end 0.30 0.42) Examples.end_to_end_params 14
              0.30)
    as (gross & net & events & G & N & _ & _ & Scale & _).
  - eexists. vm_compute. reflexivity.
  - exists gross, net. repeat split; assumption.
Defined.

Lemma anchor_lookup_is_exact_witness :
  RetentionMetrics.get_retention_at_day (L := Examples.rational_libm)
    RetentionMetrics.default 7 = Ok 0.20 /\
  SubscriptionRetentionCurve.get_retention_at_cycle
    (L := Examples.rational_libm) SubscriptionRetentionCurve.default 12
  = Ok 0.18.
Proof.
  split.
  - apply (proj1 (@anchor_lookup_is_exact Examples.rational_libm
                    RetentionMetrics.default
                    SubscriptionRetentionCurve.default 7 0.20)).
    simpl. tauto.
  - apply (proj2 (@anchor_lookup_is_exact Examples.rational_libm
                    RetentionMetrics.default
                    SubscriptionRetentionCurve.default 12 0.18)).
    simpl. tauto.
Defined.



(* ------------------------------------------------------------------ *)
(** ** The stand-in library functions *)

Section RationalLibm.

Lemma rational_exp_unit (x : Q) :
  x <= 0 -> 0 <= exp (Libm := Examples.rational_libm) x <= 1.
Proof.
  intro N. cbn [exp Examples.rational_libm].
  assert (P : 0 < 1 - x) by lra. split.
  - apply Qle_shift_div_l; [exact P | lra].
  - apply Qle_shift_div_r; [exact P | lra].
Qed.

Lemma rational_ln_unit (y : Q) :
  0 < y -> y <= 1 -> ln (Libm := Examples.rational_libm) y <= 0.
Proof.
  intros P U. cbn [ln Examples.rational_libm].
  assert (1 <= 1 / y) by (apply Qle_shift_div_l; [exact P | lra]).
  lra.
Qed.

Lemma rational_exp_ln (y : Q) :
  0 < y ->
  exp (Libm := Examples.rational_libm)
    (ln (Libm := Examples.rational_libm) y) == y.
Proof.
  intro P. cbn [exp ln Examples.rational_libm]. field.
  split; [lra|]. intro Z0. lra.
Qed.

Lemma rational_exp_mono (x y : Q) :
  x <= y -> y <= 0 ->
  exp (Libm := Examples.rational_libm) x
  <= exp (Libm := Examples.rational_libm) y.
Proof.
  intros Le N. cbn [exp Examples.rational_libm].
  assert (Px : 0 < 1 - x) by lra. assert (Py : 0 < 1 - y) by lra.
  apply Qle_shift_div_l; [exact Py|].
  setoid_replace (1 / (1 - x) * (1 - y)) with ((1 - y) / (1 - x))
    by (field; lra).
  apply Qle_shift_div_r; [exact Px | lra].
Qed.

End RationalLibm.

(* ------------------------------------------------------------------ *)
(** ** The further properties at work on the example configurations *)

Lemma adjusted_retention_is_clamped_witness :
  exists v,
    Simulator._get_retention_at_day (L := Examples.rational_libm)
      AppConfig.default 5 1.0 = Ok v /\
    0.0001 <= v <= 1.0.
Proof.
  apply (@adjusted_retention_is_clamped Examples.rational_libm
           AppConfig.default 5 1.0).
  lia.
Defined.

Lemma calculate_ltv_returns_iff_witness :
  Simulator._calculate_ltv (L := Examples.rational_libm)
    (Examples.end_to_end 0.30 0.42) Cases.zero_half_life 14
  = Raise ZeroDivisionError /\
  Simulator._calculate_ltv (L := Examples.rational_libm)
    (Examples.end_to_end 0.30 0.42) Cases.negative_half_life 710
  = Raise OverflowError.
Proof.
  split.
  - apply (proj1 (proj2 (proj2
            (@calculate_ltv_returns_iff Examples.rational_libm
               (Examples.end_to_end 0.30 0.42) Cases.zero_half_life 14)))).
    + reflexivity.
    + lia.
  - apply (proj2 (proj2 (proj2
            (@calculate_ltv_returns_iff Examples.rational_libm
               (Examples.end_to_end 0.30 0.42) Cases.negative_half_life
               710))) 710%Z).
    + reflexivity.
    + lia.
    + reflexivity.
Defined.

Lemma sampler_on_degenerate_cpm_witness :
  Sampler._sample_params Cases.negative_cpm 1 Examples.mean_rng
  = Raise ValueError.
Proof.
  assert (V : 0.001 <= SimulationConfig.cpm_variation
                         (AppConfig.simulation Cases.negative_cpm))
    by (cbn; lra).
  apply (proj1 (sampler_on_degenerate_cpm Cases.negative_cpm 0
                  Examples.mean_rng V)).
  cbn. lra.
Defined.

Lemma billing_days_witness :
  exists events,
    Simulator.plan_events (L := Examples.rational_libm)
      (Examples.end_to_end 0.30 0.42) Examples.end_to_end_params 14
      (SubscriptionMetrics.weekly
         (AppConfig.subscription (Examples.end_to_end 0.30 0.42)))
    = Ok events /\
    map fst events = [0; 7; 14]%Z.
Proof.
  apply (@billing_days Examples.rational_libm
           (Examples.end_to_end 0.30 0.42) Examples.end_to_end_params 14
           (SubscriptionMetrics.weekly
              (AppConfig.subscription (Examples.end_to_end 0.30 0.42)))).
  - cbn. lia.
  - cbn. lia.
Defined.

Lemma billing_amounts_witness :
  exists events,
    Simulator.plan_events (L := Examples.rational_libm)
      (Examples.end_to_end 0.30 0.42) Examples.end_to_end_params 14
      (SubscriptionMetrics.weekly
         (AppConfig.subscription (Examples.end_to_end 0.30 0.42)))
    = Ok events /\
    Forall2
      (billed_at 0 7 (0.02 * 1.0) 1.0 2.99 Cases.weekly_retention)
      events [0; 1; 2]%Z.
Proof.
  apply (@billing_amounts Examples.rational_libm
           (Examples.end_to_end 0.30 0.42) Examples.end_to_end_params 14
           (SubscriptionMetrics.weekly
              (AppConfig.subscription (Examples.end_to_end 0.30 0.42)))
           Cases.weekly_retention).
  - cbn. lia.
  - cbn. lia.
  - cbn. intros j B H.
    assert (C : j = 0%Z \/ j = 1%Z \/ j = 2%Z) by lia.
    destruct C as [-> | [-> | ->]]; split; reflexivity.
Defined.

Lemma disabled_plan_bills_nothing_witness :
  exists events,
    Simulator.plan_events (L := Examples.rational_libm)
      AppConfig.default Examples.end_to_end_params 14
      (Examples.disabled
         (SubscriptionMetrics.monthly SubscriptionMetrics.default))
    = Ok events /\
    Forall (fun e => snd e == 0) events /\
    events <> [].
Proof.
  destruct (@disabled_plan_bills_nothing Examples.rational_libm
              AppConfig.default Examples.end_to_end_params 14
              (Examples.disabled
                 (SubscriptionMetrics.monthly SubscriptionMetrics.default)))
    as (events & E & Z0 & N).
  - left. reflexivity.
  - exists events. repeat split; try assumption. apply N. cbn. lia.
Defined.

Lemma payments_fall_within_the_horizon_witness :
  exists events,
    Simulator.iap_events (L := Examples.rational_libm)
      (Examples.end_to_end 0.30 0.42) Examples.end_to_end_params 14
    = Ok events /\
    Forall (fun e => (0 <= fst e <= 14)%Z) events.
Proof.
  destruct (@payments_fall_within_the_horizon Examples.rational_libm
              (Examples.end_to_end 0.30 0.42) Examples.end_to_end_params 14)
    as (events & E & Hi & Lo).
  exists events. split; [exact E|].
  assert (W : forward_schedule (Examples.end_to_end 0.30 0.42)).
  { split; [cbn; lia|]. repeat constructor; cbn; try lia; discriminate. }
  specialize (Lo W).
  rewrite Forall_forall in *. intros e I. split; [now apply Lo | now apply Hi].
Defined.

Lemma end_to_end_forward : forward_schedule (Examples.end_to_end 0.30 0.42).
Proof.
  split; [cbn; lia|]. repeat constructor; cbn; try lia; discriminate.
Qed.

Lemma breakdown_row_is_ltv_at_its_day_witness :
  exists r row r',
    Simulator._calculate_ltv (L := Examples.rational_libm)
      (Examples.end_to_end 0.30 0.42) Examples.end_to_end_params 14 = Ok r /\
    In row (LtvResult.daily_breakdown r) /\
    day row = 7%Z /\
    Simulator._calculate_ltv (L := Examples.rational_libm)
      (Examples.end_to_end 0.30 0.42) Examples.end_to_end_params 7 = Ok r' /\
    LtvResult.ltv_total r' == cumulative_total row.
Proof.
  assert (E : exists r row,
             Simulator._calculate_ltv (L := Examples.rational_libm)
               (Examples.end_to_end 0.30 0.42) Examples.end_to_end_params 14
             = Ok r /\
             In row (LtvResult.daily_breakdown r) /\ day row = 7%Z).
  { vm_compute. do 2 eexists. split; [reflexivity|].
    split; [do 3 right; left; reflexivity | reflexivity]. }
  destruct E as (r & row & E & I & D).
  destruct (@breakdown_row_is_ltv_at_its_day Examples.rational_libm
              (Examples.end_to_end 0.30 0.42) Examples.end_to_end_params 14
              r row end_to_end_forward E I) as (r' & E' & _ & _ & T).
  exists r, row, r'. rewrite D in E'. repeat split; assumption.
Defined.

Lemma breakdown_days_witness :
  exists r,
    Simulator._calculate_ltv (L := Examples.rational_libm)
      (Examples.end_to_end 0.30 0.42) Examples.end_to_end_params 14 = Ok r /\
    map day (LtvResult.daily_breakdown r) = [0; 1; 3; 7; 14]%Z.
Proof.
  assert (E : returns
                (Simulator._calculate_ltv (L := Examples.rational_libm)
                   (Examples.end_to_end 0.30 0.42) Examples.end_to_end_params
                   14)).
  { eexists. vm_compute. reflexivity. }
  destruct E as [r E]. exists r. split; [exact E|].
  exact (@breakdown_days Examples.rational_libm
           (Examples.end_to_end 0.30 0.42) Examples.end_to_end_params 14 r E).
Defined.

Lemma roas_curve_reads_the_breakdown_witness :
  exists r sc row v,
    Simulator._calculate_ltv (L := Examples.rational_libm)
      (Examples.end_to_end 0.30 0.42) Examples.end_to_end_params 14 = Ok r /\
    Simulator.scenario_of Examples.end_to_end_params r = Ok sc /\
    In row (LtvResult.daily_breakdown r) /\ day row = 14%Z /\
    map fst (Scenario.roas_curve sc) = Simulator.milestones /\
    In (14%Z, Fin v) (Scenario.roas_curve sc) /\
    In (21%Z, Fin v) (Scenario.roas_curve sc) /\
    In (365%Z, Fin v) (Scenario.roas_curve sc).
Proof.
  assert (E : exists r sc q rows row,
             Simulator._calculate_ltv (L := Examples.rational_libm)
               (Examples.end_to_end 0.30 0.42) Examples.end_to_end_params 14
             = Ok r /\
             Simulator.scenario_of Examples.end_to_end_params r = Ok sc /\
             LtvResult.blended_cpi r = Fin q /\ 0 < q /\
             LtvResult.daily_breakdown r = rows ++ [row] /\
             day row = 14%Z).
  { do 5 eexists. split; [vm_compute; reflexivity|].
    split; [vm_compute; reflexivity|].
    split; [vm_compute; reflexivity|].
    split; [vm_compute; reflexivity|].
    split; [exact (eq_refl : _ = [_; _; _; _] ++ [_]) | reflexivity]. }
  destruct E as (r & sc & q & rows & row & E & Sc & B & P & R & D).
  destruct (@roas_curve_reads_the_breakdown Examples.rational_libm
              (Examples.end_to_end 0.30 0.42) Examples.end_to_end_params 14
              r sc q E Sc B P) as (K & At & After).
  assert (I : In row (LtvResult.daily_breakdown r)).
  { rewrite R. apply in_or_app. right. now left. }
  exists r, sc, row, (cumulative_total row / q).
  split; [exact E|]. split; [exact Sc|]. split; [exact I|].
  split; [exact D|]. split; [exact K|]. split; [|split].
  - rewrite <- D. apply (At row I). rewrite D. cbn. tauto.
  - apply (After rows row 21%Z R); [cbn; tauto | lia].
  - apply (After rows row 365%Z R); [cbn; tauto | lia].
Defined.

Lemma deterministic_run_repeats_one_scenario_witness :
  exists sc,
    Simulator.run (L := Examples.rational_libm)
      (Simulator.init (Examples.end_to_end 0.30 0.42) (Some 3%Z))
      (Some 14%Z) 0 Examples.mean_rng
    = Ok ([sc; sc; sc], Examples.mean_rng) /\
    Scenario.retention_mult sc = 1.0.
Proof.
  destruct (@deterministic_run_repeats_one_scenario Examples.rational_libm
              (Simulator.init (Examples.end_to_end 0.30 0.42) (Some 3%Z))
              (Some 14%Z) 0 Examples.mean_rng)
    as (sc & E & _ & _ & M).
  - reflexivity.
  - cbn. lia.
  - eexists. vm_compute. reflexivity.
  - exists sc. split; [exact E | exact M].
Defined.

Lemma unpaid_installs_have_zero_roas_witness :
  exists r sc,
    Simulator._calculate_ltv (L := Examples.rational_libm)
      Cases.all_organic (configured_means Cases.all_organic) 14 = Ok r /\
    Simulator.scenario_of (configured_means Cases.all_organic) r = Ok sc /\
    Scenario.roas sc = Fin 0 /\
    Scenario.profitable sc = false /\
    0 < Scenario.ltv_total sc.
Proof.
  assert (E : exists r sc,
             Simulator._calculate_ltv (L := Examples.rational_libm)
               Cases.all_organic (configured_means Cases.all_organic) 14
             = Ok r /\
             Simulator.scenario_of (configured_means Cases.all_organic) r
             = Ok sc /\
             0 < LtvResult.ltv_total r).
  { do 2 eexists. split; [vm_compute; reflexivity|].
    split; vm_compute; reflexivity. }
  destruct E as (r & sc & E & Sc & P).
  destruct (@unpaid_installs_have_zero_roas Examples.rational_libm
              Cases.all_organic (configured_means Cases.all_organic) 14
              r sc E Sc) as (R & F & _ & T).
  - left. reflexivity.
  - exists r, sc. rewrite T. repeat split; assumption.
Defined.

Lemma risk_probabilities_witness :
  exists results g' k,
    Simulator.run (L := Examples.rational_libm)
      (Simulator.init (Examples.end_to_end 0.30 0.42) (Some 2%Z))
      (Some 14%Z) 0 Examples.mean_rng = Ok (results, g') /\
    Statistics._calculate_statistics results = Some k /\
    0 <= Statistics.probability_profitable k <= 1 /\
    Statistics.probability_profitable k
    + Statistics.probability_roas_below_50pct k <= 1.
Proof.
  assert (E : returns
                (Simulator.run (L := Examples.rational_libm)
                   (Simulator.init (Examples.end_to_end 0.30 0.42)
                      (Some 2%Z))
                   (Some 14%Z) 0 Examples.mean_rng)).
  { eexists. vm_compute. reflexivity. }
  destruct E as [[results g'] E].
  destruct (@risk_probabilities Examples.rational_libm
              (Simulator.init (Examples.end_to_end 0.30 0.42) (Some 2%Z))
              (Some 14%Z) 0 Examples.mean_rng g' results E)
    as (k & K & _ & Pp & _ & Sum).
  - cbn. lia.
  - exists results, g', k. repeat split; try assumption; apply Pp.
Defined.

Lemma deterministic_run_uses_configured_metrics_witness :
  exists results g',
    Simulator.run (L := Examples.rational_libm)
      (Simulator.init (Examples.end_to_end 0.30 0.42) (Some 2%Z))
      (Some 14%Z) 0 Examples.mean_rng = Ok (results, g') /\
    Forall
      (fun sc =>
         UACost.blended_cpi
           (AppConfig.ua (Examples.end_to_end 0.30 0.42))
         = Ok (Scenario.blended_cpi sc))
      results.
Proof.
  assert (E : returns
                (Simulator.run (L := Examples.rational_libm)
                   (Simulator.init (Examples.end_to_end 0.30 0.42)
                      (Some 2%Z))
                   (Some 14%Z) 0 Examples.mean_rng)).
  { eexists. vm_compute. reflexivity. }
  destruct E as [[results g'] E].
  destruct (@deterministic_run_uses_configured_metrics Examples.rational_libm
              (Simulator.init (Examples.end_to_end 0.30 0.42) (Some 2%Z))
              (Some 14%Z) 0 Examples.mean_rng g' results) as [F _].
  - reflexivity.
  - exact E.
  - exists results, g'. split; [exact E|].
    eapply Forall_impl; [|exact F]. cbn beta. intros sc [_ B]. exact B.
Defined.

Lemma ad_rates_between_saturation_and_day_0_witness :
  exists e i,
    SimulationParams.get_ecpm_at_day (L := Examples.rational_libm)
      Examples.end_to_end_params 10 = Ok e /\
    SimulationParams.get_impressions_at_day (L := Examples.rational_libm)
      Examples.end_to_end_params 10 = Ok i /\
    12.0 * 0.50 <= e <= 12.0 /\
    6.0 * 0.40 <= i <= 6.0.
Proof.
  destruct (@ad_rates_between_saturation_and_day_0 Examples.rational_libm
              rational_exp_unit Examples.end_to_end_params 10)
    as (e & i & Ee & Ei & _ & Be & Bi).
  - cbn. lia.
  - cbn. lra.
  - cbn. lra.
  - cbn. lra.
  - cbn. lra.
  - exists e, i. repeat split; try assumption; try apply Be; apply Bi.
Defined.


Lemma interpolation_stays_between_neighbours_witness :
  (exists p n vp vn v,
     Py.get (RetentionMetrics.get_curve RetentionMetrics.default) p
     = Some vp /\
     Py.get (RetentionMetrics.get_curve RetentionMetrics.default) n
     = Some vn /\
     (p < 5 < n)%Z /\
     (forall k,
        In k (Py.keys (RetentionMetrics.get_curve RetentionMetrics.default)) ->
        (k <= p)%Z \/ (n <= k)%Z) /\
     RetentionMetrics.get_retention_at_day (L := Examples.rational_libm)
       RetentionMetrics.default 5 = Ok v /\
     lies_between (Py.max vp 0.001) (Py.max vn 0.001) v) /\
  (exists p n vp vn v,
     Py.get (SubscriptionRetentionCurve.get_curve
               SubscriptionRetentionCurve.default) p = Some vp /\
     Py.get (SubscriptionRetentionCurve.get_curve
               SubscriptionRetentionCurve.default) n = Some vn /\
     (p < 7 < n)%Z /\
     (forall k,
        In k (Py.keys (SubscriptionRetentionCurve.get_curve
                         SubscriptionRetentionCurve.default)) ->
        (k <= p)%Z \/ (n <= k)%Z) /\
     SubscriptionRetentionCurve.get_retention_at_cycle
       (L := Examples.rational_libm) SubscriptionRetentionCurve.default 7
     = Ok v /\
     lies_between (Py.max vp 0.001) (Py.max vn 0.001) v).
Proof.
  apply (@interpolation_stays_between_neighbours Examples.rational_libm
           rational_ln_unit rational_exp_ln rational_exp_mono
           RetentionMetrics.default SubscriptionRetentionCurve.default
           5 7).
  - repeat constructor; cbn; lra.
  - repeat constructor; cbn; lra.
  - lia.
  - cbn. lia.
  - lia.
  - cbn. lia.
Defined.

Lemma ad_ltv_grows_with_the_horizon_witness :
  exists r1 r2,
    Simulator._calculate_ltv (L := Examples.rational_libm)
      (Examples.end_to_end 0.30 0.42) Examples.end_to_end_params 7 = Ok r1 /\
    Simulator._calculate_ltv (L := Examples.rational_libm)
      (Examples.end_to_end 0.30 0.42) Examples.end_to_end_params 14
    = Ok r2 /\
    0 <= LtvResult.ltv_iaa r1 <= LtvResult.ltv_iaa r2.
Proof.
  assert (E1 : returns
                 (Simulator._calculate_ltv (L := Examples.rational_libm)
                    (Examples.end_to_end 0.30 0.42)
                    Examples.end_to_end_params 7)).
  { eexists. vm_compute. reflexivity. }
  assert (E2 : returns
                 (Simulator._calculate_ltv (L := Examples.rational_libm)
                    (Examples.end_to_end 0.30 0.42)
                    Examples.end_to_end_params 14)).
  { eexists. vm_compute. reflexivity. }
  destruct E1 as [r1 E1]. destruct E2 as [r2 E2].
  exists r1, r2. split; [exact E1|]. split; [exact E2|].
  apply (@ad_ltv_grows_with_the_horizon Examples.rational_libm
           rational_exp_unit (Examples.end_to_end 0.30 0.42)
           Examples.end_to_end_params 7 14 r1 r2); try assumption.
  - cbn. lia.
  - cbn. lra.
  - cbn. lra.
  - cbn. lra.
  - cbn. lra.
  - lia.
Defined.

Lemma payment_before_day_0_empties_the_stochastic_breakdown_witness :
  exists r,
    Simulator._calculate_ltv (L := Examples.rational_libm)
      Cases.early_exploitation Examples.fixed_cpm_params 3 = Ok r /\
    Forall (fun row => cumulative_iap row == 0)
      (LtvResult.daily_breakdown r) /\
    0 < LtvResult.ltv_iap r.
Proof.
  assert (E : exists r events,
             Simulator._calculate_ltv (L := Examples.rational_libm)
               Cases.early_exploitation Examples.fixed_cpm_params 3 = Ok r /\
             Simulator.iap_events (L := Examples.rational_libm)
               Cases.early_exploitation Examples.fixed_cpm_params 3
             = Ok events /\
             Exists (fun e => (fst e < 0)%Z) events /\
             0 < LtvResult.ltv_iap r).
  { do 2 eexists. split; [vm_compute; reflexivity|].
    split; [vm_compute; reflexivity|].
    split; [left; reflexivity | vm_compute; reflexivity]. }
  destruct E as (r & events & E & Ev & X & P).
  destruct (@payment_before_day_0_empties_the_stochastic_breakdown
              Examples.rational_libm Cases.early_exploitation
              Examples.fixed_cpm_params 3 r events) as [F _];
    try assumption.
  - reflexivity.
  - exists r. split; [exact E|]. split; [|exact P].
    eapply Forall_impl; [|exact F]. cbn beta. tauto.
Defined.

Lemma ltv_does_not_depend_on_the_mode_witness :
  exists r1 r2,
    Simulator._calculate_ltv (L := Examples.rational_libm)
      (Examples.end_to_end 0.30 0.42) Examples.end_to_end_params 14
    = Ok r1 /\
    Simulator._calculate_ltv (L := Examples.rational_libm)
      Cases.varied_end_to_end Examples.end_to_end_params 14 = Ok r2 /\
    Sampler._is_deterministic (Examples.end_to_end 0.30 0.42) = true /\
    Sampler._is_deterministic Cases.varied_end_to_end = false /\
    LtvResult.ltv_total r2 == LtvResult.ltv_total r1.
Proof.
  assert (E : returns
                (Simulator._calculate_ltv (L := Examples.rational_libm)
                   (Examples.end_to_end 0.30 0.42) Examples.end_to_end_params
                   14)).
  { eexists. vm_compute. reflexivity. }
  destruct E as [r1 E].
  destruct (@ltv_does_not_depend_on_the_mode Examples.rational_libm
              (Examples.end_to_end 0.30 0.42) Cases.varied_end_to_end
              Examples.end_to_end_params 14 r1)
    as (r2 & E2 & _ & _ & T & _).
  - reflexivity.
  - reflexivity.
  - exact E.
  - exists r1, r2. repeat split; try assumption; reflexivity.
Defined.

Lemma roas_curve_meets_roas_at_the_horizon_witness :
  exists r sc q v,
    Simulator._calculate_ltv (L := Examples.rational_libm)
      (Examples.end_to_end 0.30 0.42) Examples.end_to_end_params 14 = Ok r /\
    Simulator.scenario_of Examples.end_to_end_params r = Ok sc /\
    LtvResult.blended_cpi r = Fin q /\ q == 0.7 /\
    In (14%Z, Fin v) (Scenario.roas_curve sc) /\
    Scenario.roas sc = Fin (LtvResult.ltv_total r / q) /\
    v == LtvResult.ltv_total r / q.
Proof.
  assert (E : exists r sc q,
             Simulator._calculate_ltv (L := Examples.rational_libm)
               (Examples.end_to_end 0.30 0.42) Examples.end_to_end_params 14
             = Ok r /\
             Simulator.scenario_of Examples.end_to_end_params r = Ok sc /\
             LtvResult.blended_cpi r = Fin q /\ q == 0.7).
  { do 3 eexists. split; [vm_compute; reflexivity|].
    split; [vm_compute; reflexivity|].
    split; vm_compute; reflexivity. }
  destruct E as (r & sc & q & E & Sc & B & Q7).
  destruct (@roas_curve_meets_roas_at_the_horizon Examples.rational_libm
              (Examples.end_to_end 0.30 0.42) Examples.end_to_end_params 14
              r sc q end_to_end_forward E Sc B) as (v & I & V & R).
  - rewrite Q7. reflexivity.
  - cbn. tauto.
  - exists r, sc, q, v. repeat split; assumption.
Defined.
